(** * llvm-objcopy for WebAssembly: object model, section removal, linking-section encoder

    A shallow embedding of

      - [llvm/lib/ObjCopy/wasm/WasmObject.h]   (the object model),
      - [llvm/lib/ObjCopy/wasm/WasmObject.cpp] ([Object::removeSections],
        [SectionWriter], [Object::finalizeLinking]),
      - [llvm/lib/ObjCopy/wasm/WasmReader.cpp] ([Reader::create]),

    followed by the properties of these functions.

    Conventions.
      - [uint8_t], [uint32_t] and [uint64_t] values are [Z]; every place where
        the C++ arithmetic can leave the range has its wrap-around written out
        ([wrap32], [wrap64]).
      - [size_t] values that index or measure a container (loop counters,
        cursors, vector sizes, the entries of [MarkedSections]) are [nat].
      - A [std::vector] is the list of its [size()] elements.  The one vector
        whose reserved-but-unused storage is written to ([DataSegments], in
        [Reader::create]) carries that storage explicitly, see [vector].
      - Code that aborts ([llvm_unreachable], [report_fatal_error], a failed
        [assert]), returns an [llvm::Error], or reads or writes outside a
        container ends in a [Fault].  The one read that is followed further
        is [*Upper] at [MarkedSections.end()] in [removeSections], see
        [deref] and [reads_past_end].
      - The diagnostic [printf] calls write to the standard output only and
        are left out. *)

From Stdlib Require Import ZArith Lia String Ascii.
From stdpp Require Import base list sorting.

Local Open Scope Z_scope.
Local Open Scope nat_scope.
Local Open Scope string_scope.
Local Open Scope list_scope.

(** ** Outcomes *)

Inductive fault : Type :=
  | Unreachable (msg : string)      (* llvm_unreachable *)
  | FatalError (msg : string)       (* report_fatal_error *)
  | BinaryError (msg : string)      (* make_error<GenericBinaryError> *)
  | AssertionFailed                 (* assert *)
  | OutOfBounds.                    (* access outside a container *)

Inductive Outcome (A : Type) : Type :=
  | Done (a : A)
  | Fault (f : fault).
Arguments Done {A} a.
Arguments Fault {A} f.

Definition bind {A B : Type} (m : Outcome A) (k : A -> Outcome B) : Outcome B :=
  match m with
  | Done a => k a
  | Fault f => Fault f
  end.

Notation "x <- m ;; k" := (bind m (fun x => k))
  (at level 100, m at next level, right associativity).

(** A loop [for (x : xs) acc = body(x, acc)] that may abort. *)
Fixpoint foldM {A B : Type} (body : A -> B -> Outcome B) (xs : list A) (acc : B)
  : Outcome B :=
  match xs with
  | [] => Done acc
  | x :: xs' => acc' <- body x acc ;; foldM body xs' acc'
  end.

(** A loop that rewrites every element in place, [for (T &x : xs) body(x)]. *)
Fixpoint forEach {A : Type} (body : A -> Outcome A) (xs : list A) : Outcome (list A) :=
  match xs with
  | [] => Done []
  | x :: xs' => x' <- body x ;; xs'' <- forEach body xs' ;; Done (x' :: xs'')
  end.

(** ** Fixed-width unsigned arithmetic *)

Definition wrap32 (z : Z) : Z := (z mod 2 ^ 32)%Z.
Definition wrap64 (z : Z) : Z := (z mod 2 ^ 64)%Z.

(** [StringRef::bytes()]. *)
Definition bytes (s : string) : list Z :=
  map (fun c => Z.of_N (N_of_ascii c)) (list_ascii_of_string s).

(** ** Constants of [llvm/BinaryFormat/Wasm.h]

    The header that fixes these values is not among the sources, so they are
    parameters of the development; [upstream] instantiates them for the
    worked examples. *)

Class WasmConstants : Type := {
  WASM_SYMBOL_TYPE_FUNCTION : Z;
  WASM_SYMBOL_TYPE_DATA : Z;
  WASM_SYMBOL_TYPE_GLOBAL : Z;
  WASM_SYMBOL_TYPE_SECTION : Z;
  WASM_SYMBOL_TYPE_TAG : Z;
  WASM_SYMBOL_TYPE_TABLE : Z;
  WASM_SYMBOL_UNDEFINED : Z;
  WASM_SYMBOL_EXPLICIT_NAME : Z;
  WasmMetadataVersion : Z;
  WASM_SEGMENT_INFO : Z;
  WASM_INIT_FUNCS : Z;
  WASM_COMDAT_INFO : Z;
  WASM_SYMBOL_TABLE : Z;
  WASM_SEC_CUSTOM : Z;
  WASM_SEC_LAST_KNOWN : Z;
  sectionTypeToString : Z -> string
}.

(** The case labels of the two [switch (Info.Kind)] statements; C++ requires
    them to be pairwise different. *)
Definition kinds_distinct `{WasmConstants} : Prop :=
  NoDup [WASM_SYMBOL_TYPE_FUNCTION; WASM_SYMBOL_TYPE_GLOBAL; WASM_SYMBOL_TYPE_TAG;
         WASM_SYMBOL_TYPE_TABLE; WASM_SYMBOL_TYPE_DATA; WASM_SYMBOL_TYPE_SECTION].

(** ** Object model ([WasmObject.h] and the LLVM types it refers to) *)

(** [struct Section].  (Named [ObjSection]: [Section] is a vernacular
    command.) *)
Record ObjSection : Type := {
  SectionType : Z;                          (* uint8_t *)
  HeaderSecSizeEncodingLen : option Z;      (* std::optional<uint8_t> *)
  Name : string;                            (* StringRef *)
  Contents : list Z;                        (* ArrayRef<uint8_t> *)
  RelocationSectionIdx : option nat         (* std::optional<uint32_t> *)
}.

(** Modelled from the spec: the symbol record [llvm::wasm::WasmSymbolInfo] with
    its [WasmDataReference] (declared in [llvm/BinaryFormat/Wasm.h]): kind,
    flags, element index, name and, for data symbols, segment index, byte
    offset and byte size.  The element index and the data reference are
    separate fields, as the specification lists them. *)
Record WasmDataReference : Type := {
  Segment : Z;                              (* uint32_t *)
  Offset : Z;                               (* uint64_t *)
  Size : Z                                  (* uint64_t *)
}.

Record WasmSymbolInfo : Type := {
  SymName : string;                         (* Info.Name *)
  Kind : Z;                                 (* uint8_t *)
  Flags : Z;                                (* uint32_t *)
  ElementIndex : Z;                         (* uint32_t *)
  DataRef : WasmDataReference
}.

(** Modelled from the spec: [llvm::object::WasmSymbol] (declared in
    [llvm/Object/Wasm.h]), of which the code uses [Info] and
    [isTypeSection()], "a Section-kind symbol". *)
Record WasmSymbol : Type := { Info : WasmSymbolInfo }.

Definition isTypeSection `{WasmConstants} (WS : WasmSymbol) : bool :=
  (Kind (Info WS) =? WASM_SYMBOL_TYPE_SECTION)%Z.

(** Modelled from the spec: the linking metadata [llvm::wasm::WasmLinkingData]
    (init-function list of priority and symbol index, comdat list), the
    decoder's data segments [llvm::object::WasmSegment] (name, alignment,
    flags) and the module header [llvm::wasm::WasmObjectHeader]. *)
Record WasmInitFunc : Type := {
  Priority : Z;                             (* uint32_t *)
  Symbol : Z                                (* uint32_t *)
}.

Record WasmLinkingData : Type := {
  LinkingVersion : Z;
  InitFunctions : list WasmInitFunc;
  Comdats : list string
}.

Record WasmDataSegment : Type := {
  SegName : string;                         (* Data.Name *)
  Alignment : Z;                            (* uint32_t *)
  LinkingFlags : Z;                         (* uint32_t *)
  SegContent : list Z
}.

Record WasmSegment : Type := {
  SectionOffset : Z;
  Data : WasmDataSegment
}.

Record WasmObjectHeader : Type := {
  Magic : string;
  Version : Z
}.

(** A [std::vector] together with the storage it has reserved past [size()].
    [elems] are the [size()] elements, the ones [empty()], [size()] and a
    range-[for] see; [spare] are the reserved slots behind them, [None] while
    nothing was written there. *)
Record vector (A : Type) : Type := {
  elems : list A;
  spare : list (option A)
}.
Arguments elems {A} v.
Arguments spare {A} v.

Definition vector_new {A : Type} : vector A := {| elems := []; spare := [] |}.

Definition capacity {A : Type} (v : vector A) : nat :=
  length (elems v) + length (spare v).

(** [v.reserve(n)]: more raw storage if [n] exceeds the capacity; the elements
    and [size()] stay as they are. *)
Definition reserve {A : Type} (n : nat) (v : vector A) : vector A :=
  {| elems := elems v;
     spare := spare v ++ replicate (n - capacity v) None |}.

(** [struct Object].  [LinkingSection] points into [OpaqueSections]; it is kept
    as the position it points to. *)
Record Object : Type := {
  Header : WasmObjectHeader;
  Symbols : list WasmSymbol;
  OpaqueSections : list ObjSection;
  LinkingData : WasmLinkingData;
  DataSegments : vector WasmSegment;
  LinkingSection : option nat
}.


(** ** [Object::removeSections] *)

(** First loop: the index of every section [ToRemove] accepts, each followed by
    its [RelocationSectionIdx] when it has one. *)
Fixpoint markSections (ToRemove : ObjSection -> bool) (I : nat)
  (Sections : list ObjSection) : list nat :=
  match Sections with
  | [] => []
  | Sec :: rest =>
      (if ToRemove Sec
       then I :: match RelocationSectionIdx Sec with
                 | Some R => [R]
                 | None => []
                 end
       else [])
      ++ markSections ToRemove (S I) rest
  end.

(** [std::sort] on [size_t]: the sorted permutation of its input. *)
Definition sort (l : list nat) : list nat := merge_sort le l.

(** [std::unique] followed by [erase]: one element of every run of equal
    neighbours. *)
Fixpoint unique (l : list nat) : list nat :=
  match l with
  | [] => []
  | x :: t =>
      match t with
      | [] => [x]
      | y :: _ => if decide (x = y) then unique t else x :: unique t
      end
  end.

(** [std::upper_bound] on a sorted range, as the position of the iterator it
    returns: the first element the value is less than, or [end()]. *)
Fixpoint upper_bound (Marked : list nat) (Value : Z) : nat :=
  match Marked with
  | [] => 0
  | x :: rest =>
      if (Value <? Z.of_nat x)%Z then 0 else S (upper_bound rest Value)
  end.

(** [std::lower_bound]: the first element that is not less than the value. *)
Fixpoint lower_bound (Marked : list nat) (Value : Z) : nat :=
  match Marked with
  | [] => 0
  | x :: rest =>
      if (Z.of_nat x <? Value)%Z then S (lower_bound rest Value) else 0
  end.

(** [std::binary_search]: [lower_bound] stops before [end()] at an element the
    value is not less than. *)
Definition binary_search (Marked : list nat) (Value : Z) : bool :=
  match Marked !! lower_bound Marked Value with
  | Some x => negb (Value <? Z.of_nat x)%Z
  | None => false
  end.

(** [std::distance(First, Last)] on positions of one vector, a [ptrdiff_t]. *)
Definition distance (First Last : nat) : Z := (Z.of_nat Last - Z.of_nat First)%Z.

(** [*Upper].  When [Upper] is [end()] the read is one past the last marked
    index, outside the elements of the vector; [PastEnd] stands for the word
    found there.  The function goes on with that word, so [removeSections]
    is stated for every [PastEnd]; [reads_past_end] tells for which symbols
    the read happens, and the statements that the function returns without
    leaving a container carry the hypothesis that it does not. *)
Definition deref (Marked : list nat) (Upper : nat) (PastEnd : nat) : nat :=
  match Marked !! Upper with
  | Some x => x
  | None => PastEnd
  end.

Definition set_ElementIndex (E : Z) (I : WasmSymbolInfo) : WasmSymbolInfo :=
  {| SymName := SymName I; Kind := Kind I; Flags := Flags I;
     ElementIndex := E; DataRef := DataRef I |}.

Definition set_Offset (O : Z) (I : WasmSymbolInfo) : WasmSymbolInfo :=
  {| SymName := SymName I; Kind := Kind I; Flags := Flags I;
     ElementIndex := ElementIndex I;
     DataRef := {| Segment := Segment (DataRef I); Offset := O;
                   Size := Size (DataRef I) |} |}.

(** Body of [for (size_t I = *Upper; I < MarkedSections.size(); I++)]. *)
Definition patchOffsetStep (Sections : list ObjSection) (I : nat)
  (SymInfo : WasmSymbolInfo) : Outcome WasmSymbolInfo :=
  match Sections !! I with
  | None => Fault OutOfBounds
  | Some Sec =>
      let HeaderSize :=
        match HeaderSecSizeEncodingLen Sec with
        | Some L => L
        | None => 5%Z
        end in
      Done (set_Offset
              (wrap64 (Offset (DataRef SymInfo)
                       - wrap64 (Z.of_nat (length (Contents Sec)) - HeaderSize)))
              SymInfo)
  end.

Definition patchOffset (Sections : list ObjSection) (Marked : list nat)
  (First : nat) (SymInfo : WasmSymbolInfo) : Outcome WasmSymbolInfo :=
  foldM (patchOffsetStep Sections) (seq First (length Marked - First)) SymInfo.

(** Body of the first [for (WasmSymbol &Sym : Symbols)]. *)
Definition patchSymbol `{WasmConstants} (Sections : list ObjSection)
  (Marked : list nat) (PastEnd : nat) (Sym : WasmSymbol) : Outcome WasmSymbol :=
  let SymInfo := Info Sym in
  let Upper := upper_bound Marked (ElementIndex SymInfo) in
  let K := Kind SymInfo in
  if ((K =? WASM_SYMBOL_TYPE_FUNCTION) || (K =? WASM_SYMBOL_TYPE_GLOBAL)
      || (K =? WASM_SYMBOL_TYPE_TAG) || (K =? WASM_SYMBOL_TYPE_TABLE))%Z
  then
    let SymInfo1 :=
      set_ElementIndex
        (wrap32 (ElementIndex SymInfo - distance (length Marked) Upper)) SymInfo in
    SymInfo2 <- patchOffset Sections Marked (deref Marked Upper PastEnd) SymInfo1 ;;
    Done {| Info := SymInfo2 |}
  else if (K =? WASM_SYMBOL_TYPE_DATA)%Z then
    if (Z.land (Flags SymInfo) WASM_SYMBOL_UNDEFINED =? 0)%Z
    then
      SymInfo2 <- patchOffset Sections Marked (deref Marked Upper PastEnd) SymInfo ;;
      Done {| Info := SymInfo2 |}
    else Done Sym
  else if (K =? WASM_SYMBOL_TYPE_SECTION)%Z then
    Done {| Info :=
              set_ElementIndex
                (wrap32 (ElementIndex SymInfo - distance (length Marked) Upper))
                SymInfo |}
  else Fault (Unreachable "unexpected kind").

(** [V.erase(V.begin() + I)]. *)
Definition erase {A : Type} (I : nat) (V : list A) : Outcome (list A) :=
  if decide (I < length V) then Done (delete I V) else Fault OutOfBounds.

(** [for (size_t I : Is) V.erase(V.begin() + I)]. *)
Definition eraseAll {A : Type} (Is : list nat) (V : list A) : Outcome (list A) :=
  foldM erase Is V.

(** Loop that fills [MarkedSymbols]. *)
Fixpoint markSymbols `{WasmConstants} (Marked : list nat) (I : nat)
  (Syms : list WasmSymbol) : list nat :=
  match Syms with
  | [] => []
  | WS :: rest =>
      (if isTypeSection WS && binary_search Marked (ElementIndex (Info WS))
       then [I] else [])
      ++ markSymbols Marked (S I) rest
  end.

Definition removeSections `{WasmConstants} (ToRemove : ObjSection -> bool)
  (PastEnd : nat) (Obj : Object) : Outcome Object :=
  let MarkedSections :=
    unique (sort (markSections ToRemove 0 (OpaqueSections Obj))) in
  match MarkedSections with
  | [] => Done Obj
  | _ :: _ =>
      Symbols1 <- forEach (patchSymbol (OpaqueSections Obj) MarkedSections PastEnd)
                           (Symbols Obj) ;;
      OpaqueSections1 <- eraseAll (reverse MarkedSections) (OpaqueSections Obj) ;;
      let MarkedSymbols := markSymbols MarkedSections 0 Symbols1 in
      Symbols2 <- eraseAll (reverse MarkedSymbols) Symbols1 ;;
      Done {| Header := Header Obj;
              Symbols := Symbols2;
              OpaqueSections := OpaqueSections1;
              LinkingData := LinkingData Obj;
              DataSegments := DataSegments Obj;
              LinkingSection := LinkingSection Obj |}
  end.

(** ** LEB128 ([llvm/Support/LEB128.h]) *)

(** Modelled from the spec: [encodeULEB128(Value, p, PadTo)], "emits the
    minimal LEB128 encoding, padding with continuation bytes until at least
    [PadTo] bytes are produced"; the header is not among the sources.

    [uleb_digits] is the [do { ... } while (Value != 0)] loop: seven payload
    bits per byte, the continuation bit set while more bytes follow; it
    returns the bytes and the final [Count].  [fuel] bounds the iterations
    after the first; a 64-bit value needs at most nine of them
    ([uleb_digits_fuel]). *)
Fixpoint uleb_digits (fuel : nat) (Value : Z) (Count PadTo : nat) : list Z * nat :=
  let Byte := Z.land Value 127 in
  let Value1 := Z.shiftr Value 7 in
  let Count1 := S Count in
  let Byte1 :=
    if negb (Value1 =? 0)%Z || (Count1 <? PadTo)%nat
    then Z.lor Byte 128 else Byte in
  match fuel with
  | O => ([Byte1], Count1)
  | S fuel' =>
      if (Value1 =? 0)%Z then ([Byte1], Count1)
      else
        let r := uleb_digits fuel' Value1 Count1 PadTo in
        (Byte1 :: fst r, snd r)
  end.

(** The bytes [encodeULEB128] stores at [p]; their number is its return
    value.  [Value] is a [uint64_t]. *)
Definition encodeULEB128 (Value : Z) (PadTo : nat) : list Z :=
  let r := uleb_digits 9 (wrap64 Value) 0 PadTo in
  fst r ++
  (if (snd r <? PadTo)%nat
   then replicate (PadTo - 1 - snd r) 128%Z ++ [0%Z]
   else []).

(** Modelled from the spec: [decodeULEB128(p, &n, end, &error)], which "fails
    if the continuation exceeds the maximum encodable width (64 bits) or the
    input is exhausted before a terminating byte"; the result is the error
    message or the value. *)
Fixpoint decodeULEB128_from (p : list Z) (Value Shift : Z) : string + Z :=
  match p with
  | [] => inl "malformed uleb128, extends past end"
  | b :: p' =>
      let Slice := Z.land b 127 in
      if ((Shift >=? 63)
          && (((Shift =? 63)
               && negb (Z.shiftr (wrap64 (Z.shiftl Slice Shift)) Shift =? Slice))
              || ((Shift >? 63) && negb (Slice =? 0))))%Z
      then inl "uleb128 too big for uint64"
      else
        let Value1 := wrap64 (Value + Z.shiftl Slice Shift) in
        if (b >=? 128)%Z then decodeULEB128_from p' Value1 (Shift + 7)%Z
        else inr Value1
  end.

Definition decodeULEB128 (p : list Z) : string + Z := decodeULEB128_from p 0%Z 0%Z.

(** ** [class SectionWriter] *)

Record SectionWriter : Type := {
  Buffer : list Z;                          (* std::vector<uint8_t> *)
  Subsections : list nat;                   (* std::stack<size_t>, top first *)
  Cursor : nat                              (* size_t *)
}.

Definition SectionWriter_new : SectionWriter :=
  {| Buffer := []; Subsections := []; Cursor := 0 |}.

(** [V.resize(N)]: cut, or fill up with zero bytes. *)
Definition resize (N : nat) (V : list Z) : list Z :=
  take N V ++ replicate (N - length V) 0%Z.

(** Bytes stored through a raw pointer at [V.data() + Pos]. *)
Definition store (Pos : nat) (Bs : list Z) (V : list Z) : Outcome (list Z) :=
  if decide (Pos + length Bs <= length V)
  then Done (take Pos V ++ Bs ++ drop (Pos + length Bs) V)
  else Fault OutOfBounds.

Definition writeULEB128 (Value : Z) (PadTo : nat) (W : SectionWriter)
  : Outcome SectionWriter :=
  let Buffer1 := resize (Cursor W + 10) (Buffer W) in
  let Encoded := encodeULEB128 Value PadTo in
  Buffer2 <- store (Cursor W) Encoded Buffer1 ;;
  Done {| Buffer := Buffer2;
          Subsections := Subsections W;
          Cursor := Cursor W + length Encoded |}.

Definition insertULEB128 (Value : Z) (Off : nat) (W : SectionWriter)
  : Outcome SectionWriter :=
  Buffer1 <- store Off (encodeULEB128 Value 0) (Buffer W) ;;
  Done {| Buffer := Buffer1; Subsections := Subsections W; Cursor := Cursor W |}.

(** [Value] is a [uint32_t]. *)
Definition writeVaruint32 (Value : Z) (W : SectionWriter) : Outcome SectionWriter :=
  let Value32 := wrap32 Value in
  if (Value32 <=? 2147483647)%Z
  then writeULEB128 Value32 0 W
  else Fault AssertionFailed.

Definition cursor (W : SectionWriter) : nat := Cursor W.

(** [Buffer.insert(Buffer.begin() + Cursor, ...)]. *)
Definition writeBytes (Bytes : list Z) (W : SectionWriter) : Outcome SectionWriter :=
  if decide (Cursor W <= length (Buffer W))
  then Done {| Buffer := take (Cursor W) (Buffer W) ++ Bytes
                         ++ drop (Cursor W) (Buffer W);
               Subsections := Subsections W;
               Cursor := Cursor W + length Bytes |}
  else Fault OutOfBounds.

Definition writeString (Str : string) (W : SectionWriter) : Outcome SectionWriter :=
  writeBytes (bytes Str) W.

(** [Kind] is a [uint8_t]; [push_back] appends at the end of [Buffer]. *)
Definition startSubsection (K : Z) (W : SectionWriter) : Outcome SectionWriter :=
  let W1 := {| Buffer := Buffer W ++ [(K mod 256)%Z];
               Subsections := Subsections W;
               Cursor := Cursor W + 1 |} in
  let W2 := {| Buffer := Buffer W1;
               Subsections := Cursor W1 :: Subsections W1;
               Cursor := Cursor W1 |} in
  writeULEB128 0 5 W2.

Definition endSubsection (W : SectionWriter) : Outcome (nat * SectionWriter) :=
  match Subsections W with
  | [] => Fault OutOfBounds
  | Off :: Rest =>
      W1 <- insertULEB128 (Z.of_nat (Cursor W - Off)) Off W ;;
      Done (Cursor W1 - Off,
            {| Buffer := Buffer W1; Subsections := Rest; Cursor := Cursor W1 |})
  end.

Definition finalize (W : SectionWriter) : Outcome (list Z) :=
  match Subsections W with
  | [] => Done (resize (Cursor W) (Buffer W))
  | _ :: _ => Fault AssertionFailed
  end.

(** ** [Object::finalizeLinking] *)

(** Body of [for (const WasmSymbol &Sym : Symbols)]. *)
Definition writeSymbol `{WasmConstants} (Sym : WasmSymbol) (Writer : SectionWriter)
  : Outcome SectionWriter :=
  let SymInfo := Info Sym in
  let K := Kind SymInfo in
  Writer <- writeULEB128 K 0 Writer ;;
  Writer <- writeULEB128 (Flags SymInfo) 0 Writer ;;
  if ((K =? WASM_SYMBOL_TYPE_FUNCTION) || (K =? WASM_SYMBOL_TYPE_GLOBAL)
      || (K =? WASM_SYMBOL_TYPE_TAG) || (K =? WASM_SYMBOL_TYPE_TABLE))%Z
  then
    Writer <- writeULEB128 (ElementIndex SymInfo) 0 Writer ;;
    if ((Z.land (Flags SymInfo) WASM_SYMBOL_UNDEFINED =? 0)
        || negb (Z.land (Flags SymInfo) WASM_SYMBOL_EXPLICIT_NAME =? 0))%Z
    then writeString (SymName SymInfo) Writer
    else Done Writer
  else if (K =? WASM_SYMBOL_TYPE_DATA)%Z then
    Writer <- writeString (SymName SymInfo) Writer ;;
    if (Z.land (Flags SymInfo) WASM_SYMBOL_UNDEFINED =? 0)%Z
    then
      Writer <- writeULEB128 (Segment (DataRef SymInfo)) 0 Writer ;;
      Writer <- writeULEB128 (Offset (DataRef SymInfo)) 0 Writer ;;
      writeULEB128 (Size (DataRef SymInfo)) 0 Writer
    else Done Writer
  else if (K =? WASM_SYMBOL_TYPE_SECTION)%Z then
    writeULEB128 (ElementIndex SymInfo) 0 Writer
  else Fault (Unreachable "unexpected kind").

(** Body of [for (const object::WasmSegment &Segment : DataSegments)]. *)
Definition writeSegment (Seg : WasmSegment) (Writer : SectionWriter)
  : Outcome SectionWriter :=
  Writer <- writeString (SegName (Data Seg)) Writer ;;
  Writer <- writeULEB128 (Alignment (Data Seg)) 0 Writer ;;
  writeULEB128 (LinkingFlags (Data Seg)) 0 Writer.

(** Body of [for (WasmInitFunc &InitFunc : LinkingData.InitFunctions)]. *)
Definition writeInitFunc (InitFunc : WasmInitFunc) (Writer : SectionWriter)
  : Outcome SectionWriter :=
  Writer <- writeULEB128 (Priority InitFunc) 0 Writer ;;
  writeULEB128 (Symbol InitFunc) 0 Writer.

(** Body of [for (const StringRef &C : LinkingData.Comdats)]. *)
Definition writeComdat (C : string) (Writer : SectionWriter) : Outcome SectionWriter :=
  Writer <- writeString C Writer ;;
  Writer <- writeULEB128 0 0 Writer ;;
  writeULEB128 (Z.of_nat (String.length C)) 0 Writer.

(** The statements between [startSubsection(WASM_SEGMENT_INFO)] and
    [endSubsection()]: what the encoder writes as the Segment Info payload. *)
Definition writeSegmentInfoPayload (Segs : list WasmSegment) (Writer : SectionWriter)
  : Outcome SectionWriter :=
  Writer <- writeVaruint32 (Z.of_nat (length Segs)) Writer ;;
  foldM writeSegment Segs Writer.

(** The method takes the object it is called on and hands it back next to
    the bytes it returns. *)
Definition finalizeLinking `{WasmConstants} (this : Object)
  : Outcome (list Z * Object) :=
  let Writer := SectionWriter_new in
  Writer <- writeVaruint32 WasmMetadataVersion Writer ;;
  Writer <-
    match Symbols this with
    | [] => Done Writer
    | _ :: _ =>
        Writer <- startSubsection WASM_SYMBOL_TABLE Writer ;;
        Writer <- writeULEB128 (Z.of_nat (length (Symbols this))) 0 Writer ;;
        Writer <- foldM writeSymbol (Symbols this) Writer ;;
        r <- endSubsection Writer ;;
        Done (snd r)
    end ;;
  Writer <-
    match elems (DataSegments this) with
    | [] => Done Writer
    | _ :: _ =>
        Writer <- startSubsection WASM_SEGMENT_INFO Writer ;;
        Writer <- writeSegmentInfoPayload (elems (DataSegments this)) Writer ;;
        r <- endSubsection Writer ;;
        Done (snd r)
    end ;;
  Writer <-
    match InitFunctions (LinkingData this) with
    | [] => Done Writer
    | _ :: _ =>
        Writer <- startSubsection WASM_INIT_FUNCS Writer ;;
        Writer <- writeULEB128
                    (Z.of_nat (length (InitFunctions (LinkingData this)))) 0 Writer ;;
        Writer <- foldM writeInitFunc (InitFunctions (LinkingData this)) Writer ;;
        r <- endSubsection Writer ;;
        Done (snd r)
    end ;;
  Writer <-
    match Comdats (LinkingData this) with
    | [] => Done Writer
    | _ :: _ =>
        Writer <- startSubsection WASM_COMDAT_INFO Writer ;;
        Writer <- writeULEB128
                    (Z.of_nat (length (Comdats (LinkingData this)))) 0 Writer ;;
        Writer <- foldM writeComdat (Comdats (LinkingData this)) Writer ;;
        r <- endSubsection Writer ;;
        Done (snd r)
    end ;;
  Result <- finalize Writer ;;
  Done (Result, this).

(** ** [Reader::create] ([WasmReader.cpp]) *)

(** Modelled from the spec: the decoded module the Reader consumes, the read
    interface of [llvm::object::WasmObjectFile] with its [WasmSection]
    (kind, width of the size field in the section header, name, content):
    "header, iterable section list, iterable symbol list, already-parsed
    linking metadata, already-parsed data-segment list". *)
Record WasmSection : Type := {
  WS_Type : Z;                              (* WS.Type, uint32_t *)
  WS_HeaderSecSizeEncodingLen : option Z;   (* WS.HeaderSecSizeEncodingLen *)
  WS_Name : string;                         (* WS.Name *)
  WS_Content : list Z                       (* WS.Content *)
}.

Record WasmObjectFile : Type := {
  getHeader : WasmObjectHeader;
  symbols : list WasmSymbol;
  sections : list WasmSection;
  linkingData : WasmLinkingData;
  dataSegments : list WasmSegment
}.

Definition readULEB128 (Content : list Z) : Outcome Z :=
  match decodeULEB128 Content with
  | inl Err => Fault (FatalError Err)
  | inr Result => Done Result
  end.

Definition readVaruint32 (Content : list Z) : Outcome Z :=
  Value <- readULEB128 Content ;;
  if (Value >? 4294967295)%Z
  then Fault (FatalError "LEB is outside 32-bit bounds")
  else Done Value.

Definition set_RelocationSectionIdx (R : nat) (Sec : ObjSection) : ObjSection :=
  {| SectionType := SectionType Sec;
     HeaderSecSizeEncodingLen := HeaderSecSizeEncodingLen Sec;
     Name := Name Sec;
     Contents := Contents Sec;
     RelocationSectionIdx := Some R |}.

(** [llvm::copy(Src, V.begin())]: the elements of [Src] stored one after the
    other from the first slot of [V] on, through a plain pointer; [size()]
    is not touched. *)
Definition copy_to_begin {A : Type} (Src : list A) (V : vector A)
  : Outcome (vector A) :=
  if decide (length Src <= capacity V)
  then Done {| elems := take (length (elems V)) Src ++ drop (length Src) (elems V);
               spare := (Some <$> drop (length (elems V)) Src)
                        ++ drop (length Src - length (elems V)) (spare V) |}
  else Fault OutOfBounds.

Definition Object_new : Object :=
  {| Header := {| Magic := ""; Version := 0 |};
     Symbols := [];
     OpaqueSections := [];
     LinkingData := {| LinkingVersion := 0; InitFunctions := []; Comdats := [] |};
     DataSegments := vector_new;
     LinkingSection := None |}.

(** Body of [for (const SectionRef &Sec : WasmObj.sections())]. *)
Definition readSection `{WasmConstants} (WasmObj : WasmObjectFile) (WS : WasmSection)
  (Obj : Object) : Outcome Object :=
  if (WS_Type WS >? WASM_SEC_LAST_KNOWN)%Z
  then Fault (BinaryError "Invalid section type")
  else
    Sections1 <-
      (if (WS_Type WS =? WASM_SEC_CUSTOM)%Z && String.prefix "reloc." (WS_Name WS)
       then
         ReferencedSectionIdx <- readVaruint32 (WS_Content WS) ;;
         if (ReferencedSectionIdx >=? Z.of_nat (length (OpaqueSections Obj)))%Z
         then Fault (BinaryError
                       "Referenced section index in reloc section is outside bounds")
         else Done (alter (set_RelocationSectionIdx
                             (Z.to_nat (wrap32 (Z.of_nat (length (OpaqueSections Obj))))))
                          (Z.to_nat ReferencedSectionIdx)
                          (OpaqueSections Obj))
       else Done (OpaqueSections Obj)) ;;
    let ReaderSec :=
      {| SectionType := (WS_Type WS mod 256)%Z;
         HeaderSecSizeEncodingLen := WS_HeaderSecSizeEncodingLen WS;
         Name := WS_Name WS;
         Contents := WS_Content WS;
         RelocationSectionIdx := None |} in
    let IsLinking :=
      (WS_Type WS =? WASM_SEC_CUSTOM)%Z && String.eqb (WS_Name WS) "linking" in
    let ReaderSec1 :=
      if negb (SectionType ReaderSec =? WASM_SEC_CUSTOM)%Z
      then {| SectionType := SectionType ReaderSec;
              HeaderSecSizeEncodingLen := HeaderSecSizeEncodingLen ReaderSec;
              Name := sectionTypeToString (SectionType ReaderSec);
              Contents := Contents ReaderSec;
              RelocationSectionIdx := RelocationSectionIdx ReaderSec |}
      else ReaderSec in
    Done {| Header := Header Obj;
            Symbols := Symbols Obj;
            OpaqueSections := Sections1 ++ [ReaderSec1];
            LinkingData := if IsLinking then linkingData WasmObj else LinkingData Obj;
            DataSegments := DataSegments Obj;
            LinkingSection :=
              if IsLinking then Some (length Sections1) else LinkingSection Obj |}.

Definition create `{WasmConstants} (WasmObj : WasmObjectFile) : Outcome Object :=
  let Obj := Object_new in
  let Obj := {| Header := getHeader WasmObj;
                Symbols := Symbols Obj ++ symbols WasmObj;
                OpaqueSections := OpaqueSections Obj;
                LinkingData := LinkingData Obj;
                DataSegments := DataSegments Obj;
                LinkingSection := LinkingSection Obj |} in
  Obj <- foldM (readSection WasmObj) (sections WasmObj) Obj ;;
  let Reserved := reserve (length (dataSegments WasmObj)) (DataSegments Obj) in
  Copied <- copy_to_begin (dataSegments WasmObj) Reserved ;;
  Done {| Header := Header Obj;
          Symbols := Symbols Obj;
          OpaqueSections := OpaqueSections Obj;
          LinkingData := LinkingData Obj;
          DataSegments := Copied;
          LinkingSection := LinkingSection Obj |}.

(** ** The specification's wire format, for comparison with the encoder *)

(** "A length-prefixed byte string is encoded as an unsigned varint byte count
    followed by the raw bytes, with no terminator." *)
Definition length_prefixed (Str : string) : list Z :=
  encodeULEB128 (Z.of_nat (String.length Str)) 0 ++ bytes Str.

(** "Segment Info subsection payload: count, then per segment: name
    (length-prefixed byte string), alignment varint, flags varint." *)
Definition SegmentInfo_payload_spec (Segs : list WasmSegment) : list Z :=
  encodeULEB128 (Z.of_nat (length Segs)) 0
  ++ concat (map (fun Seg =>
                    length_prefixed (SegName (Data Seg))
                    ++ encodeULEB128 (Alignment (Data Seg)) 0
                    ++ encodeULEB128 (LinkingFlags (Data Seg)) 0) Segs).

(** The same payload with every name as its bare bytes. *)
Definition SegmentInfo_payload_raw (Segs : list WasmSegment) : list Z :=
  encodeULEB128 (Z.of_nat (length Segs)) 0
  ++ concat (map (fun Seg =>
                    bytes (SegName (Data Seg))
                    ++ encodeULEB128 (Alignment (Data Seg)) 0
                    ++ encodeULEB128 (LinkingFlags (Data Seg)) 0) Segs).

(** ** Reading a writer *)

(** The bytes in front of the cursor: what [finalize] would return. *)
Definition written (W : SectionWriter) : list Z := take (Cursor W) (Buffer W).

(** The cursor lies inside the buffer. *)
Definition cursor_ok (W : SectionWriter) : Prop := Cursor W <= length (Buffer W).

(** [writes m Bs]: from every writer whose cursor lies inside its buffer, [m]
    returns, and it has put exactly [Bs] behind what was written before. *)
Definition writes (m : SectionWriter -> Outcome SectionWriter) (Bs : list Z) : Prop :=
  forall W, cursor_ok W ->
    exists W', m W = Done W'
               /\ written W' = written W ++ Bs
               /\ cursor_ok W'
               /\ Subsections W' = Subsections W.

(** ** Predicates used in the statements *)

(** [Sym] with another data reference. *)
Definition set_DataRef (D : WasmDataReference) (Sym : WasmSymbol) : WasmSymbol :=
  {| Info := {| SymName := SymName (Info Sym); Kind := Kind (Info Sym);
                Flags := Flags (Info Sym); ElementIndex := ElementIndex (Info Sym);
                DataRef := D |} |}.

(** The bytes a call of [finalizeLinking] returned. *)
Definition result_bytes (r : Outcome (list Z * Object)) : Outcome (list Z) :=
  x <- r ;; Done (fst x).

(** [Obj] with another symbol table. *)
Definition set_Symbols (Syms : list WasmSymbol) (Obj : Object) : Object :=
  {| Header := Header Obj;
     Symbols := Syms;
     OpaqueSections := OpaqueSections Obj;
     LinkingData := LinkingData Obj;
     DataSegments := DataSegments Obj;
     LinkingSection := LinkingSection Obj |}.

(** The invariant of the section list: every [RelocationSectionIdx] is the
    index of a section. *)
Definition relocs_in_range (Sections : list ObjSection) : Prop :=
  forall Sec R, Sec ∈ Sections -> RelocationSectionIdx Sec = Some R ->
                R < length Sections.

(** The symbol has one of the six kinds the [switch] statements know. *)
Definition known_kind `{WasmConstants} (Sym : WasmSymbol) : Prop :=
  Kind (Info Sym) ∈ [WASM_SYMBOL_TYPE_FUNCTION; WASM_SYMBOL_TYPE_GLOBAL;
                     WASM_SYMBOL_TYPE_TAG; WASM_SYMBOL_TYPE_TABLE;
                     WASM_SYMBOL_TYPE_DATA; WASM_SYMBOL_TYPE_SECTION].

(** ** Worked inputs *)

(** The values [llvm/BinaryFormat/Wasm.h] gives the constants upstream. *)
Definition upstream : WasmConstants := {|
  WASM_SYMBOL_TYPE_FUNCTION := 0;
  WASM_SYMBOL_TYPE_DATA := 1;
  WASM_SYMBOL_TYPE_GLOBAL := 2;
  WASM_SYMBOL_TYPE_SECTION := 3;
  WASM_SYMBOL_TYPE_TAG := 4;
  WASM_SYMBOL_TYPE_TABLE := 5;
  WASM_SYMBOL_UNDEFINED := 16;
  WASM_SYMBOL_EXPLICIT_NAME := 64;
  WasmMetadataVersion := 2;
  WASM_SEGMENT_INFO := 5;
  WASM_INIT_FUNCS := 6;
  WASM_COMDAT_INFO := 7;
  WASM_SYMBOL_TABLE := 8;
  WASM_SEC_CUSTOM := 0;
  WASM_SEC_LAST_KNOWN := 13;
  sectionTypeToString := fun T =>
    match T with
    | 1 => "TYPE" | 2 => "IMPORT" | 3 => "FUNCTION" | 4 => "TABLE"
    | 5 => "MEMORY" | 6 => "GLOBAL" | 7 => "EXPORT" | 8 => "START"
    | 9 => "ELEM" | 10 => "CODE" | 11 => "DATA" | 12 => "DATACOUNT"
    | 13 => "TAG" | _ => "CUSTOM"
    end%Z
|}.

Definition custom_section (N : string) (C : list Z) (R : option nat) : ObjSection :=
  {| SectionType := 0;
     HeaderSecSizeEncodingLen := Some 1%Z;
     Name := N;
     Contents := C;
     RelocationSectionIdx := R |}.

Definition symbol (K Fl E : Z) (N : string) (D : WasmDataReference) : WasmSymbol :=
  {| Info := {| SymName := N; Kind := K; Flags := Fl; ElementIndex := E;
                DataRef := D |} |}.

Definition no_data : WasmDataReference := {| Segment := 0; Offset := 0; Size := 0 |}.

Definition object_of (Syms : list WasmSymbol) (Secs : list ObjSection)
  (Segs : list WasmSegment) : Object :=
  {| Header := {| Magic := "asm"; Version := 1 |};
     Symbols := Syms;
     OpaqueSections := Secs;
     LinkingData := {| LinkingVersion := 2; InitFunctions := []; Comdats := [] |};
     DataSegments := {| elems := Segs; spare := [] |};
     LinkingSection := None |}.

Definition named (N : string) (Sec : ObjSection) : bool := String.eqb (Name Sec) N.

(** Sections [A, reloc.A, B], [reloc.A] holding the relocations of section 0,
    and one Function symbol with element index 2. *)
Definition scenario_sections : list ObjSection :=
  [ custom_section "A" [1; 2; 3]%Z (Some 1);
    custom_section "reloc.A" [0; 0]%Z None;
    custom_section "B" [4; 5; 6; 7]%Z None ].

Definition scenario_object : Object :=
  object_of [symbol (@WASM_SYMBOL_TYPE_FUNCTION upstream) 0 2 "f" no_data]
            scenario_sections [].

(** Sections [A, B] and one Function symbol with element index 0. *)
Definition two_sections_object : Object :=
  object_of [symbol (@WASM_SYMBOL_TYPE_FUNCTION upstream) 0 0 "f" no_data]
            [custom_section "A" [1; 2; 3]%Z None;
             custom_section "B" [4; 5; 6; 7]%Z None]
            [].

(** Sections [A, B, C] with a Section symbol for [A] and one for [B]. *)
Definition three_sections_object : Object :=
  object_of [symbol (@WASM_SYMBOL_TYPE_SECTION upstream) 0 0 "a" no_data;
             symbol (@WASM_SYMBOL_TYPE_SECTION upstream) 0 1 "b" no_data]
            [custom_section "A" [1]%Z None;
             custom_section "B" [2]%Z None;
             custom_section "C" [3]%Z None]
            [].

Definition named_A_or_C (Sec : ObjSection) : bool := named "A" Sec || named "C" Sec.

(** One data segment named "a", alignment 3, flags 1. *)
Definition segment_a : WasmSegment :=
  {| SectionOffset := 0;
     Data := {| SegName := "a"; Alignment := 3; LinkingFlags := 1;
                SegContent := [] |} |}.

Definition one_segment_object : Object := object_of [] [] [segment_a].

(** An undefined Data symbol whose [DataRef] is nevertheless filled in. *)
Definition undefined_data_symbol : WasmSymbol :=
  symbol (@WASM_SYMBOL_TYPE_DATA upstream) (@WASM_SYMBOL_UNDEFINED upstream) 0 "d"
         {| Segment := 7; Offset := 42; Size := 9 |}.

(** A decoded module with no section and one data segment. *)
Definition one_segment_module : WasmObjectFile :=
  {| getHeader := {| Magic := "asm"; Version := 1 |};
     symbols := [];
     sections := [];
     linkingData := {| LinkingVersion := 2; InitFunctions := []; Comdats := [] |};
     dataSegments := [segment_a] |}.

(** ** Further predicates and functions used in the statements *)

(** What is left of [V], whose first element has position [I], when the
    positions listed in [Is] are taken out. *)
Fixpoint omit_from {A : Type} (I : nat) (Is : list nat) (V : list A) : list A :=
  match V with
  | [] => []
  | x :: V' => (if decide (I ∈ Is) then [] else [x]) ++ omit_from (S I) Is V'
  end.

Definition omit {A : Type} (Is : list nat) (V : list A) : list A := omit_from 0 Is V.

(** Position [I] is marked by the first loop of [removeSections]: a section
    [ToRemove] accepts sits there, or such a section names [I] as its
    relocation section. *)
Definition marked (ToRemove : ObjSection -> bool) (Sections : list ObjSection)
  (I : nat) : Prop :=
  exists J Sec, Sections !! J = Some Sec /\ ToRemove Sec = true
                /\ (I = J \/ RelocationSectionIdx Sec = Some I).

(** What [removeSections] never rewrites in a symbol. *)
Definition symbol_id (Sym : WasmSymbol) : string * Z * Z :=
  (SymName (Info Sym), Kind (Info Sym), Flags (Info Sym)).

Definition not_section_symbol `{WasmConstants} (Sym : WasmSymbol) : Prop :=
  Kind (Info Sym) <> WASM_SYMBOL_TYPE_SECTION.

(** The vector [MarkedSections] after [std::sort], [std::unique] and
    [erase]. *)
Definition MarkedSections (ToRemove : ObjSection -> bool)
  (Sections : list ObjSection) : list nat :=
  unique (sort (markSections ToRemove 0 Sections)).

(** The first symbol loop of [removeSections] evaluates [*Upper] for the
    symbol (lines 80 and 90): a Function, Global, Tag or Table symbol, or a
    Data symbol that is not flagged undefined. *)
Definition reads_Upper `{WasmConstants} (Sym : WasmSymbol) : bool :=
  let K := Kind (Info Sym) in
  ((K =? WASM_SYMBOL_TYPE_FUNCTION) || (K =? WASM_SYMBOL_TYPE_GLOBAL)
   || (K =? WASM_SYMBOL_TYPE_TAG) || (K =? WASM_SYMBOL_TYPE_TABLE))%Z
  || ((K =? WASM_SYMBOL_TYPE_DATA)
      && (Z.land (Flags (Info Sym)) WASM_SYMBOL_UNDEFINED =? 0))%Z.

(** It evaluates [*Upper] with [Upper == end()]: no marked index is greater
    than the element index of the symbol. *)
Definition reads_past_end `{WasmConstants} (Marked : list nat) (Sym : WasmSymbol)
  : bool :=
  reads_Upper Sym
  && (length Marked <=? upper_bound Marked (ElementIndex (Info Sym)))%nat.

(** The placeholder [startSubsection] writes for the length, and what
    [endSubsection] makes of it for the length [N]: the unpadded varint of [N]
    over the first bytes of the placeholder. *)
Definition placeholder : list Z := encodeULEB128 0 5.

Definition length_field (N : nat) : list Z :=
  encodeULEB128 (Z.of_nat N) 0
  ++ drop (length (encodeULEB128 (Z.of_nat N) 0)) placeholder.

(** The byte a subsection of kind [K] begun at [W] has at the place of its
    tag: [startSubsection] appends the kind behind the last byte of the
    buffer and steps the cursor over whatever byte lies at it. *)
Definition tag_byte (K : Z) (W : SectionWriter) : Z :=
  match Buffer W !! Cursor W with
  | Some B => B
  | None => (K mod 256)%Z
  end.

(** A subsection as it stands in the output: tag position, length field,
    payload.  The length counts the five bytes of the placeholder as well. *)
Definition subsection_bytes (Tag : Z) (Payload : list Z) : list Z :=
  [Tag] ++ length_field (5 + length Payload) ++ Payload.

(** The cursor lies inside the buffer, and every open subsection has the ten
    bytes behind its offset that [insertULEB128] may write. *)
Definition writer_ok (W : SectionWriter) : Prop :=
  cursor_ok W
  /\ Forall (fun Off => Off <= Cursor W /\ Off + 10 <= length (Buffer W))
            (Subsections W).

(** [emits m Bs]: from every writer that satisfies [writer_ok], [m] returns
    such a writer, has put exactly [Bs] behind what was written before, and
    has left the stack of open subsections as it was. *)
Definition emits (m : SectionWriter -> Outcome SectionWriter) (Bs : list Z) : Prop :=
  forall W, writer_ok W ->
    exists W', m W = Done W'
               /\ written W' = written W ++ Bs
               /\ writer_ok W'
               /\ Subsections W' = Subsections W.

(** The bytes of one symbol-table entry, by kind, in the order of the
    [switch] of [finalizeLinking]. *)
Definition symbol_record `{WasmConstants} (Sym : WasmSymbol) : list Z :=
  let SymInfo := Info Sym in
  let K := Kind SymInfo in
  encodeULEB128 K 0 ++ encodeULEB128 (Flags SymInfo) 0
  ++ (if ((K =? WASM_SYMBOL_TYPE_FUNCTION) || (K =? WASM_SYMBOL_TYPE_GLOBAL)
          || (K =? WASM_SYMBOL_TYPE_TAG) || (K =? WASM_SYMBOL_TYPE_TABLE))%Z
      then
        encodeULEB128 (ElementIndex SymInfo) 0
        ++ (if ((Z.land (Flags SymInfo) WASM_SYMBOL_UNDEFINED =? 0)
                || negb (Z.land (Flags SymInfo) WASM_SYMBOL_EXPLICIT_NAME =? 0))%Z
            then bytes (SymName SymInfo) else [])
      else if (K =? WASM_SYMBOL_TYPE_DATA)%Z then
        bytes (SymName SymInfo)
        ++ (if (Z.land (Flags SymInfo) WASM_SYMBOL_UNDEFINED =? 0)%Z
            then encodeULEB128 (Segment (DataRef SymInfo)) 0
                 ++ encodeULEB128 (Offset (DataRef SymInfo)) 0
                 ++ encodeULEB128 (Size (DataRef SymInfo)) 0
            else [])
      else encodeULEB128 (ElementIndex SymInfo) 0).

Definition SymbolTable_payload `{WasmConstants} (Syms : list WasmSymbol) : list Z :=
  encodeULEB128 (Z.of_nat (length Syms)) 0 ++ concat (map symbol_record Syms).

Definition InitFunctions_payload (Fs : list WasmInitFunc) : list Z :=
  encodeULEB128 (Z.of_nat (length Fs)) 0
  ++ concat (map (fun F => encodeULEB128 (Priority F) 0
                           ++ encodeULEB128 (Symbol F) 0) Fs).

Definition Comdats_payload (Cs : list string) : list Z :=
  encodeULEB128 (Z.of_nat (length Cs)) 0
  ++ concat (map (fun C => bytes C ++ encodeULEB128 0 0
                           ++ encodeULEB128 (Z.of_nat (String.length C)) 0) Cs).

(** A subsection is in the output when its list is not empty. *)
Definition optional_subsection {A : Type} (Xs : list A) (Tag : Z)
  (Payload : list Z) : list Z :=
  match Xs with
  | [] => []
  | _ :: _ => subsection_bytes Tag Payload
  end.

(** The payload leaves the length within the five bytes of the placeholder. *)
Definition fits (Payload : list Z) : Prop :=
  (Z.of_nat (length Payload) + 5 < 2 ^ 35)%Z.

(** The section [Reader::create] appends for a section of the module: type,
    width of the size field, content, and the name, which for a known
    section type is the canonical one. *)
Definition reader_section `{WasmConstants} (WS : WasmSection) : ObjSection :=
  {| SectionType := (WS_Type WS mod 256)%Z;
     HeaderSecSizeEncodingLen := WS_HeaderSecSizeEncodingLen WS;
     Name := if negb (WS_Type WS mod 256 =? WASM_SEC_CUSTOM)%Z
             then sectionTypeToString (WS_Type WS mod 256)%Z
             else WS_Name WS;
     Contents := WS_Content WS;
     RelocationSectionIdx := None |}.

(** [Sec] without its relocation link. *)
Definition forget_reloc (Sec : ObjSection) : ObjSection :=
  {| SectionType := SectionType Sec;
     HeaderSecSizeEncodingLen := HeaderSecSizeEncodingLen Sec;
     Name := Name Sec;
     Contents := Contents Sec;
     RelocationSectionIdx := None |}.

(** The two tests of the section loop of [Reader::create]. *)
Definition is_reloc `{WasmConstants} (WS : WasmSection) : bool :=
  (WS_Type WS =? WASM_SEC_CUSTOM)%Z && String.prefix "reloc." (WS_Name WS).

Definition is_linking `{WasmConstants} (WS : WasmSection) : bool :=
  (WS_Type WS =? WASM_SEC_CUSTOM)%Z && String.eqb (WS_Name WS) "linking".

(** Position [R] of the module holds a relocation section whose leading
    varint is [I]. *)
Definition targets `{WasmConstants} (WasmObj : WasmObjectFile) (R I : nat) : Prop :=
  exists WS, sections WasmObj !! R = Some WS
             /\ is_reloc WS = true
             /\ readVaruint32 (WS_Content WS) = Done (Z.of_nat I).

(** The relocation link [Link] of section [I] after the first [K] sections
    were read: the last relocation section among them that targets [I], none
    when there is none. *)
Definition linked_as_read `{WasmConstants} (WasmObj : WasmObjectFile) (K I : nat)
  (Link : option nat) : Prop :=
  match Link with
  | Some R => R < K /\ targets WasmObj R I
              /\ forall R', R < R' < K -> ~ targets WasmObj R' I
  | None => forall R', R' < K -> ~ targets WasmObj R' I
  end.

(** The object [Reader::create] has built when its section loop begins. *)
Definition reader_start (WasmObj : WasmObjectFile) : Object :=
  {| Header := getHeader WasmObj;
     Symbols := symbols WasmObj;
     OpaqueSections := [];
     LinkingData := LinkingData Object_new;
     DataSegments := vector_new;
     LinkingSection := None |}.

(** The linking section and linking data after the first [K] sections were
    read: the last custom section named "linking" among them and the
    module's linking data, or none and the empty linking data of a new
    object. *)
Definition linking_as_read `{WasmConstants} (WasmObj : WasmObjectFile) (K : nat)
  (Link : option nat) (LD : WasmLinkingData) : Prop :=
  match Link with
  | Some L =>
      L < K
      /\ (exists WS, sections WasmObj !! L = Some WS /\ is_linking WS = true)
      /\ (forall J WS, L < J < K -> sections WasmObj !! J = Some WS ->
                       is_linking WS = false)
      /\ LD = linkingData WasmObj
  | None =>
      (forall J WS, J < K -> sections WasmObj !! J = Some WS ->
                    is_linking WS = false)
      /\ LD = LinkingData Object_new
  end.

(** ** Further worked inputs *)

(** A symbol of a kind no [switch] knows. *)
Definition unknown_kind_symbol : WasmSymbol := symbol 9 0 0 "x" no_data.

Definition module_section (T : Z) (N : string) (C : list Z) : WasmSection :=
  {| WS_Type := T; WS_HeaderSecSizeEncodingLen := Some 1%Z; WS_Name := N;
     WS_Content := C |}.

(** A decoded module with the sections [A, reloc.A, linking], [reloc.A]
    naming section 0, one Function symbol, one init function, one comdat and
    one data segment. *)
Definition scenario_module : WasmObjectFile :=
  {| getHeader := {| Magic := "asm"; Version := 1 |};
     symbols := [symbol (@WASM_SYMBOL_TYPE_FUNCTION upstream) 0 2 "f" no_data];
     sections := [module_section 0 "A" [1; 2; 3]%Z;
                  module_section 0 "reloc.A" [0; 0]%Z;
                  module_section 0 "linking" [2]%Z];
     linkingData := {| LinkingVersion := 2;
                       InitFunctions := [{| Priority := 1; Symbol := 0 |}];
                       Comdats := ["c"] |};
     dataSegments := [segment_a] |}.

(** The same module with a Function symbol of element index 0. *)
Definition low_index_module : WasmObjectFile :=
  {| getHeader := getHeader scenario_module;
     symbols := [symbol (@WASM_SYMBOL_TYPE_FUNCTION upstream) 0 0 "f" no_data];
     sections := sections scenario_module;
     linkingData := linkingData scenario_module;
     dataSegments := dataSegments scenario_module |}.

(** * Properties *)

(** ** The outcome monad *)

Lemma bind_Done_inv {A B : Type} (m : Outcome A) (k : A -> Outcome B) (b : B) :
  bind m k = Done b -> exists a, m = Done a /\ k a = Done b.
Proof. destruct m as [a|f]; simpl; [eauto | discriminate]. Qed.

(** ** LEB128 *)

(** The loop emits at most one byte per unit of fuel, plus the first, and
    counts the bytes it emits. *)
Lemma uleb_digits_length (fuel : nat) (Value : Z) (Count PadTo : nat) :
  1 <= length (fst (uleb_digits fuel Value Count PadTo)) <= S fuel
  /\ snd (uleb_digits fuel Value Count PadTo)
     = Count + length (fst (uleb_digits fuel Value Count PadTo)).
Proof.
  revert Value Count. induction fuel as [|fuel IH]; intros Value Count; simpl.
  - lia.
  - destruct (Z.shiftr Value 7 =? 0)%Z; simpl; [lia|].
    specialize (IH (Z.shiftr Value 7) (S Count)). lia.
Qed.

(** More fuel than the value has groups of seven bits changes nothing: the
    loop has left through [Value == 0] before the fuel is used up. *)
Lemma uleb_digits_fuel (fuel extra : nat) (Value : Z) (Count PadTo : nat) :
  (0 <= Value < 2 ^ (7 * Z.of_nat (S fuel)))%Z ->
  uleb_digits (fuel + extra) Value Count PadTo = uleb_digits fuel Value Count PadTo.
Proof.
  revert Value Count. induction fuel as [|fuel IH]; intros Value Count HV.
  - assert (Z.shiftr Value 7 = 0%Z) as H0.
    { rewrite Z.shiftr_div_pow2 by lia. apply Z.div_small. simpl in HV. lia. }
    destruct extra; simpl; rewrite H0; reflexivity.
  - simpl. destruct (Z.shiftr Value 7 =? 0)%Z eqn:E; [reflexivity|].
    rewrite IH; [reflexivity|].
    rewrite Z.shiftr_div_pow2 by lia. split.
    + apply Z.div_pos; lia.
    + apply Z.div_lt_upper_bound; [lia|].
      replace (7 * Z.of_nat (S (S fuel)))%Z with (7 + 7 * Z.of_nat (S fuel))%Z in HV by lia.
      rewrite Z.pow_add_r in HV by lia. lia.
Qed.

(** Nine rounds after the first are enough for every 64-bit value. *)
Lemma encodeULEB128_fuel (extra : nat) (Value : Z) (PadTo : nat) :
  uleb_digits (9 + extra) (wrap64 Value) 0 PadTo = uleb_digits 9 (wrap64 Value) 0 PadTo.
Proof.
  apply uleb_digits_fuel. unfold wrap64.
  pose proof (Z.mod_pos_bound Value (2 ^ 64) ltac:(lia)) as Hb.
  change (7 * Z.of_nat 10)%Z with 70%Z.
  assert (2 ^ 64 < 2 ^ 70)%Z by (apply Z.pow_lt_mono_r; lia). lia.
Qed.

Lemma encodeULEB128_length (Value : Z) (PadTo : nat) :
  1 <= length (encodeULEB128 Value PadTo) <= Nat.max 10 PadTo.
Proof.
  unfold encodeULEB128.
  destruct (uleb_digits_length 9 (wrap64 Value) 0 PadTo) as [Hl Hc].
  destruct (uleb_digits 9 (wrap64 Value) 0 PadTo) as [bs c]; simpl in *.
  rewrite length_app.
  destruct (Nat.ltb_spec c PadTo); simpl.
  - rewrite length_app, length_replicate. simpl. lia.
  - lia.
Qed.

(** ** The writer *)

Lemma length_resize (N : nat) (V : list Z) : length (resize N V) = N.
Proof. unfold resize. rewrite length_app, length_take, length_replicate. lia. Qed.

Lemma take_resize (N M : nat) (V : list Z) :
  N <= M -> N <= length V -> take N (resize M V) = take N V.
Proof.
  intros HNM HNV. unfold resize.
  rewrite take_app_le by (rewrite length_take; lia).
  rewrite take_take. f_equal. lia.
Qed.

Lemma writeULEB128_writes (Value : Z) (PadTo : nat) :
  PadTo <= 10 -> writes (writeULEB128 Value PadTo) (encodeULEB128 Value PadTo).
Proof.
  intros HP W HW. unfold cursor_ok in HW.
  pose proof (encodeULEB128_length Value PadTo) as HL.
  unfold writeULEB128, store.
  rewrite length_resize.
  destruct (decide _) as [_|Hn]; [|lia]. simpl.
  eexists. split; [reflexivity|].
  unfold written, cursor_ok; simpl.
  assert (length (take (Cursor W) (resize (Cursor W + 10) (Buffer W))) = Cursor W) as HT.
  { rewrite length_take, length_resize. lia. }
  repeat split.
  - rewrite app_assoc.
    rewrite take_app_le by (rewrite length_app, HT; lia).
    rewrite take_ge by (rewrite length_app, HT; lia).
    rewrite take_resize by lia. reflexivity.
  - rewrite !length_app, HT. lia.
Qed.

Lemma writeBytes_writes (Bs : list Z) : writes (writeBytes Bs) Bs.
Proof.
  intros W HW. unfold cursor_ok in HW. unfold writeBytes.
  destruct (decide _) as [_|Hn]; [|lia].
  eexists. split; [reflexivity|].
  unfold written, cursor_ok; simpl.
  assert (length (take (Cursor W) (Buffer W)) = Cursor W) as HT
    by (rewrite length_take; lia).
  repeat split.
  - rewrite app_assoc.
    rewrite take_app_le by (rewrite length_app, HT; lia).
    rewrite take_ge by (rewrite length_app, HT; lia). reflexivity.
  - rewrite !length_app, HT. lia.
Qed.

Lemma writeString_writes (Str : string) : writes (writeString Str) (bytes Str).
Proof. apply writeBytes_writes. Qed.

Lemma writes_Done : writes Done [].
Proof.
  intros W HW. exists W. rewrite app_nil_r. auto.
Qed.

Lemma writes_bind (m1 m2 : SectionWriter -> Outcome SectionWriter) (B1 B2 : list Z) :
  writes m1 B1 -> writes m2 B2 ->
  writes (fun W => W1 <- m1 W ;; m2 W1) (B1 ++ B2).
Proof.
  intros H1 H2 W HW.
  destruct (H1 W HW) as (W1 & E1 & Wr1 & Ok1 & S1).
  destruct (H2 W1 Ok1) as (W2 & E2 & Wr2 & Ok2 & S2).
  exists W2. rewrite E1. simpl. rewrite E2, Wr2, Wr1, app_assoc.
  repeat split; congruence.
Qed.

Lemma writes_foldM {A : Type} (body : A -> SectionWriter -> Outcome SectionWriter)
  (enc : A -> list Z) (xs : list A) :
  (forall x, writes (body x) (enc x)) ->
  writes (foldM body xs) (concat (map enc xs)).
Proof.
  intros Hb. induction xs as [|x xs IH]; simpl.
  - apply writes_Done.
  - apply (writes_bind (body x) (foldM body xs)); [apply Hb | apply IH].
Qed.

(** Stepping through a sequence of writes: the next call on a writer whose
    cursor is known to lie inside its buffer is replaced by its result. *)
Ltac step_write :=
  match goal with
  | HW : cursor_ok ?W |- context [writeULEB128 ?v ?p ?W] =>
      let W1 := fresh "W" in
      let E := fresh "E" in
      destruct (writeULEB128_writes v p ltac:(lia) W HW) as (W1 & E & ? & ? & ?);
      rewrite E; simpl bind; clear E
  | HW : cursor_ok ?W |- context [writeString ?s ?W] =>
      let W1 := fresh "W" in
      let E := fresh "E" in
      destruct (writeString_writes s W HW) as (W1 & E & ? & ? & ?);
      rewrite E; simpl bind; clear E
  end.

Ltac close_writes :=
  eexists; split; [reflexivity|];
  repeat split; [ | assumption | congruence ];
  repeat match goal with
         | H : written _ = _ |- _ => rewrite H; clear H
         end;
  rewrite <- ?app_assoc; try rewrite app_nil_r; reflexivity.

Lemma cursor_ok_new : cursor_ok SectionWriter_new.
Proof. unfold cursor_ok. simpl. lia. Qed.

Lemma writeSegment_writes (Seg : WasmSegment) :
  writes (writeSegment Seg)
         (bytes (SegName (Data Seg))
          ++ encodeULEB128 (Alignment (Data Seg)) 0
          ++ encodeULEB128 (LinkingFlags (Data Seg)) 0).
Proof.
  intros W HW. unfold writeSegment.
  do 3 step_write. close_writes.
Qed.

Lemma wrap32_small (z : Z) : (0 <= z <= 2147483647)%Z -> wrap32 z = z.
Proof. intros Hz. unfold wrap32. apply Z.mod_small. lia. Qed.

Lemma writeVaruint32_writes (Value : Z) :
  (0 <= Value <= 2147483647)%Z ->
  writes (writeVaruint32 Value) (encodeULEB128 Value 0).
Proof.
  intros HV W HW. unfold writeVaruint32. rewrite (wrap32_small _ HV).
  destruct (Z.leb_spec Value 2147483647); [|lia].
  apply writeULEB128_writes; [lia | assumption].
Qed.

Lemma finalize_written (W : SectionWriter) :
  cursor_ok W -> Subsections W = [] -> finalize W = Done (written W).
Proof.
  unfold cursor_ok, finalize, written, resize. intros HW ->.
  replace (Cursor W - length (Buffer W)) with 0 by lia.
  simpl. rewrite app_nil_r. reflexivity.
Qed.

(** ** The encoder *)

Section Encoder.
Context {C : WasmConstants}.

Lemma kinds_distinct_Data :
  kinds_distinct ->
  ((WASM_SYMBOL_TYPE_DATA =? WASM_SYMBOL_TYPE_FUNCTION)
   || (WASM_SYMBOL_TYPE_DATA =? WASM_SYMBOL_TYPE_GLOBAL)
   || (WASM_SYMBOL_TYPE_DATA =? WASM_SYMBOL_TYPE_TAG)
   || (WASM_SYMBOL_TYPE_DATA =? WASM_SYMBOL_TYPE_TABLE))%Z = false.
Proof.
  unfold kinds_distinct. rewrite !NoDup_cons, !not_elem_of_cons.
  intros H.
  repeat match goal with
         | |- context [(?a =? ?b)%Z] => destruct (Z.eqb_spec a b)
         end; simpl; try reflexivity; exfalso; intuition congruence.
Qed.

Lemma kinds_distinct_Section :
  kinds_distinct ->
  ((WASM_SYMBOL_TYPE_SECTION =? WASM_SYMBOL_TYPE_FUNCTION)
   || (WASM_SYMBOL_TYPE_SECTION =? WASM_SYMBOL_TYPE_GLOBAL)
   || (WASM_SYMBOL_TYPE_SECTION =? WASM_SYMBOL_TYPE_TAG)
   || (WASM_SYMBOL_TYPE_SECTION =? WASM_SYMBOL_TYPE_TABLE))%Z = false
  /\ (WASM_SYMBOL_TYPE_SECTION =? WASM_SYMBOL_TYPE_DATA)%Z = false.
Proof.
  unfold kinds_distinct. rewrite !NoDup_cons, !not_elem_of_cons.
  intros H.
  repeat match goal with
         | |- context [(?a =? ?b)%Z] => destruct (Z.eqb_spec a b)
         end; simpl; try (split; reflexivity); exfalso; intuition congruence.
Qed.

(** The record of a Data symbol, in the compositional form. *)
Lemma writeSymbol_Data_writes (Sym : WasmSymbol) :
  kinds_distinct ->
  Kind (Info Sym) = WASM_SYMBOL_TYPE_DATA ->
  writes (writeSymbol Sym)
         (encodeULEB128 (Kind (Info Sym)) 0
          ++ encodeULEB128 (Flags (Info Sym)) 0
          ++ bytes (SymName (Info Sym))
          ++ (if (Z.land (Flags (Info Sym)) WASM_SYMBOL_UNDEFINED =? 0)%Z
              then encodeULEB128 (Segment (DataRef (Info Sym))) 0
                   ++ encodeULEB128 (Offset (DataRef (Info Sym))) 0
                   ++ encodeULEB128 (Size (DataRef (Info Sym))) 0
              else [])).
Proof.
  intros HK HD. pose proof (kinds_distinct_Data HK) as HF.
  intros W HW. unfold writeSymbol. rewrite HD, HF, Z.eqb_refl.
  do 3 step_write.
  destruct (Z.land (Flags (Info Sym)) WASM_SYMBOL_UNDEFINED =? 0)%Z.
  - do 3 step_write. close_writes.
  - close_writes.
Qed.

(** Whatever its kind, a symbol that was written leaves the cursor inside
    the buffer for the next one. *)
Lemma writeSymbol_cursor_ok (Sym : WasmSymbol) (W W' : SectionWriter) :
  cursor_ok W -> writeSymbol Sym W = Done W' -> cursor_ok W'.
Proof.
  intros HW. unfold writeSymbol. do 2 step_write.
  repeat match goal with
         | |- context [if ?b then _ else _] => destruct b
         | HW : cursor_ok ?W |- context [writeULEB128 _ _ ?W] => step_write
         | HW : cursor_ok ?W |- context [writeString _ ?W] => step_write
         end;
    intros HE; first [discriminate HE | by injection HE as <-].
Qed.

(** C7.  For a Data-kind symbol the encoder writes the kind, the flags and
    then always the name; the segment index, the offset and the size follow,
    each as a varint, exactly when the symbol is not flagged undefined.  For
    an undefined Data symbol the writer ends in the same state whatever its
    [DataRef] holds, so that value never reaches the output. *)
Theorem writeSymbol_Data (Sym : WasmSymbol) (W : SectionWriter) :
  kinds_distinct ->
  Kind (Info Sym) = WASM_SYMBOL_TYPE_DATA ->
  cursor_ok W ->
  (exists W',
      writeSymbol Sym W = Done W'
      /\ written W'
         = written W
           ++ encodeULEB128 (Kind (Info Sym)) 0
           ++ encodeULEB128 (Flags (Info Sym)) 0
           ++ bytes (SymName (Info Sym))
           ++ (if (Z.land (Flags (Info Sym)) WASM_SYMBOL_UNDEFINED =? 0)%Z
               then encodeULEB128 (Segment (DataRef (Info Sym))) 0
                    ++ encodeULEB128 (Offset (DataRef (Info Sym))) 0
                    ++ encodeULEB128 (Size (DataRef (Info Sym))) 0
               else []))
  /\ ((Z.land (Flags (Info Sym)) WASM_SYMBOL_UNDEFINED =? 0)%Z = false ->
      forall D : WasmDataReference,
        writeSymbol (set_DataRef D Sym) W = writeSymbol Sym W).
Proof.
  intros HK HD HW. split.
  - destruct (writeSymbol_Data_writes Sym HK HD W HW) as (W' & E & Wr & _).
    exists W'. split; assumption.
  - intros HU D. pose proof (kinds_distinct_Data HK) as HF.
    unfold writeSymbol, set_DataRef. simpl.
    rewrite HD, HF, Z.eqb_refl, HU. reflexivity.
Qed.

(** The Segment Info payload, in the compositional form. *)
Lemma writeSegmentInfoPayload_writes (Segs : list WasmSegment) :
  (Z.of_nat (length Segs) <= 2147483647)%Z ->
  writes (writeSegmentInfoPayload Segs) (SegmentInfo_payload_raw Segs).
Proof.
  intros HL. unfold writeSegmentInfoPayload, SegmentInfo_payload_raw.
  apply (writes_bind (writeVaruint32 (Z.of_nat (length Segs)))
                     (foldM writeSegment Segs)).
  - apply writeVaruint32_writes. lia.
  - apply writes_foldM. apply writeSegment_writes.
Qed.

(** X23.  The Segment Info payload the encoder writes is the count followed
    by, for each segment, the bare bytes of the name (no byte count in front,
    no terminator), the alignment varint and the flags varint.  The count
    passes through [writeVaruint32], whose assertion asks for at most
    2^31 - 1 segments. *)
Theorem writeSegmentInfoPayload_raw_names (Segs : list WasmSegment)
  (W : SectionWriter) :
  (Z.of_nat (length Segs) <= 2147483647)%Z ->
  cursor_ok W ->
  exists W',
    writeSegmentInfoPayload Segs W = Done W'
    /\ written W' = written W ++ SegmentInfo_payload_raw Segs.
Proof.
  intros HL HW.
  destruct (writeSegmentInfoPayload_writes Segs HL W HW) as (W' & E & Wr & _).
  exists W'. split; assumption.
Qed.

(** C6.  With no symbols, no data segments, no init functions and no comdats
    the encoder returns the varint of the version constant and nothing else.
    The constant passes through [writeVaruint32], whose assertion asks for a
    value of at most 2^31 - 1. *)
Theorem finalizeLinking_empty (this : Object) :
  (0 <= WasmMetadataVersion <= 2147483647)%Z ->
  Symbols this = [] ->
  elems (DataSegments this) = [] ->
  InitFunctions (LinkingData this) = [] ->
  Comdats (LinkingData this) = [] ->
  finalizeLinking this = Done (encodeULEB128 WasmMetadataVersion 0, this).
Proof.
  intros HV HS HD HI HC. unfold finalizeLinking.
  rewrite HS, HD, HI, HC.
  destruct (writeVaruint32_writes WasmMetadataVersion HV SectionWriter_new
              cursor_ok_new) as (W & E & Wr & Ok & Ss).
  rewrite E. simpl.
  rewrite (finalize_written W Ok Ss). simpl. rewrite Wr. reflexivity.
Qed.

End Encoder.

(** ** The encoder, end to end *)

Lemma length_written (W : SectionWriter) : cursor_ok W -> length (written W) = Cursor W.
Proof. unfold cursor_ok, written. intros HW. rewrite length_take. lia. Qed.

(** A value below 2^35 takes at most five bytes, the width of the
    placeholder [startSubsection] leaves for the length. *)
Lemma encodeULEB128_short (Value : Z) :
  (0 <= Value < 2 ^ 35)%Z -> length (encodeULEB128 Value 0) <= 5.
Proof.
  intros HV. unfold encodeULEB128.
  assert (wrap64 Value = Value) as ->.
  { unfold wrap64. apply Z.mod_small.
    assert (2 ^ 35 < 2 ^ 64)%Z by (apply Z.pow_lt_mono_r; lia). lia. }
  change 9 with (4 + 5). rewrite uleb_digits_fuel by (simpl; lia).
  destruct (uleb_digits_length 4 Value 0 0) as [Hl _].
  rewrite app_nil_r. lia.
Qed.

Lemma store_drop (Pos N : nat) (Bs V V' : list Z) :
  store Pos Bs V = Done V' -> Pos + length Bs <= N ->
  drop N V' = drop N V /\ length V' = length V.
Proof.
  unfold store. intros HS HN.
  destruct (decide (Pos + length Bs <= length V)) as [HL|]; [|discriminate].
  injection HS as <-.
  assert (length (take Pos V ++ Bs) = Pos + length Bs) as HT
    by (rewrite length_app, length_take; lia).
  split.
  - rewrite app_assoc, drop_app_ge by lia.
    rewrite HT, drop_drop. f_equal. lia.
  - rewrite app_assoc, length_app, HT, length_drop. lia.
Qed.

Lemma startSubsection_spec (K : Z) (W : SectionWriter) :
  cursor_ok W ->
  exists W', startSubsection K W = Done W'
             /\ cursor_ok W'
             /\ Cursor W' = Cursor W + 6
             /\ Subsections W' = (Cursor W + 1) :: Subsections W.
Proof.
  intros HW. unfold startSubsection.
  match goal with
  | |- context [writeULEB128 0 5 ?W2] =>
      assert (cursor_ok W2) as HW2
        by (unfold cursor_ok in *; simpl; rewrite length_app; simpl; lia);
      destruct (writeULEB128_writes 0 5 ltac:(lia) W2 HW2) as (W' & E & Wr & Ok & Ss)
  end.
  exists W'. repeat split; try assumption.
  apply (f_equal length) in Wr.
  rewrite length_app, !length_written in Wr by assumption.
  simpl in Wr. lia.
Qed.

Section EndToEnd.
Context {C : WasmConstants}.

(** An object whose only non-empty list is the data-segment list: what
    [finalizeLinking] returns ends with the Segment Info payload as
    [writeSegmentInfoPayload] wrote it, behind the version, the byte at the
    place of the tag and the five bytes of the length field.  The size bound
    keeps the length within those five bytes. *)
Lemma finalizeLinking_segments_only (this : Object) :
  (0 <= WasmMetadataVersion <= 2147483647)%Z ->
  Symbols this = [] ->
  InitFunctions (LinkingData this) = [] ->
  Comdats (LinkingData this) = [] ->
  elems (DataSegments this) <> [] ->
  (Z.of_nat (length (elems (DataSegments this))) <= 2147483647)%Z ->
  (Z.of_nat (length (SegmentInfo_payload_raw (elems (DataSegments this)))) + 5
   < 2 ^ 35)%Z ->
  exists Pre,
    finalizeLinking this
    = Done (Pre ++ SegmentInfo_payload_raw (elems (DataSegments this)), this)
    /\ length Pre = length (encodeULEB128 WasmMetadataVersion 0) + 6.
Proof.
  intros HV HS HI HC HD HN HP. unfold finalizeLinking.
  rewrite HS, HI, HC.
  destruct (elems (DataSegments this)) as [|Seg Segs] eqn:ES; [contradiction|].
  set (Payload := SegmentInfo_payload_raw (Seg :: Segs)) in *.
  destruct (writeVaruint32_writes WasmMetadataVersion HV SectionWriter_new
              cursor_ok_new) as (W1 & E1 & Wr1 & Ok1 & Ss1).
  rewrite E1. simpl bind.
  destruct (startSubsection_spec WASM_SEGMENT_INFO W1 Ok1)
    as (W2 & E2 & Ok2 & C2 & Ss2).
  rewrite E2. simpl bind.
  destruct (writeSegmentInfoPayload_writes (Seg :: Segs) HN W2 Ok2)
    as (W3 & E3 & Wr3 & Ok3 & Ss3).
  rewrite E3. simpl bind.
  pose proof (length_written W1 Ok1) as L1.
  pose proof (length_written W2 Ok2) as L2.
  pose proof (length_written W3 Ok3) as L3.
  rewrite Wr3, length_app, L2 in L3. fold Payload in L3.
  simpl in Ss1. rewrite Ss1 in Ss2. rewrite Ss2 in Ss3.
  unfold endSubsection. rewrite Ss3. unfold insertULEB128.
  pose proof (encodeULEB128_short (Z.of_nat (Cursor W3 - (Cursor W1 + 1)))
                ltac:(lia)) as HShort.
  unfold store at 1.
  destruct (decide _) as [HIn|HOut];
    [|exfalso; apply HOut; unfold cursor_ok in Ok3; lia].
  simpl bind. unfold finalize. simpl.
  match goal with
  | |- context [resize (Cursor W3) ?B'] => set (Buffer' := B')
  end.
  assert (store (Cursor W1 + 1)
                (encodeULEB128 (Z.of_nat (Cursor W3 - (Cursor W1 + 1))) 0)
                (Buffer W3) = Done Buffer') as HSt.
  { unfold store. destruct (decide _); [reflexivity | contradiction]. }
  destruct (store_drop _ (Cursor W2) _ _ _ HSt ltac:(lia)) as [HDr HLen].
  assert (resize (Cursor W3) Buffer' = take (Cursor W3) Buffer') as ->.
  { unfold resize. unfold cursor_ok in Ok3.
    replace (Cursor W3 - length Buffer') with 0 by lia.
    simpl. apply app_nil_r. }
  exists (take (Cursor W2) (take (Cursor W3) Buffer')). split.
  - f_equal. f_equal.
    rewrite <- (take_drop (Cursor W2) (take (Cursor W3) Buffer')) at 1.
    f_equal.
    replace (Cursor W3) with (Cursor W2 + length Payload) at 1 by lia.
    rewrite <- take_drop_commute, HDr, take_drop_commute.
    replace (Cursor W2 + length Payload) with (Cursor W3) by lia.
    change (take (Cursor W3) (Buffer W3)) with (written W3).
    rewrite Wr3. apply drop_app_length'. lia.
  - rewrite !length_take. unfold cursor_ok in Ok3.
    rewrite Wr1 in L1. simpl in L1. lia.
Qed.

Lemma foldM_ext {A B : Type} (body : A -> B -> Outcome B) (xs ys : list A) :
  Forall2 (fun x y => forall acc, body x acc = body y acc) xs ys ->
  forall acc, foldM body xs acc = foldM body ys acc.
Proof.
  induction 1 as [|x y xs ys Hxy _ IH]; intros acc; simpl; [reflexivity|].
  rewrite Hxy. destruct (body y acc); simpl; [apply IH | reflexivity].
Qed.

(** What [finalizeLinking] returns does not depend on the [DataRef] of an
    undefined Data symbol. *)
Lemma finalizeLinking_ignores_undefined_DataRef (this : Object) (I : nat)
  (Sym : WasmSymbol) (D : WasmDataReference) :
  kinds_distinct ->
  Symbols this !! I = Some Sym ->
  Kind (Info Sym) = WASM_SYMBOL_TYPE_DATA ->
  (Z.land (Flags (Info Sym)) WASM_SYMBOL_UNDEFINED =? 0)%Z = false ->
  result_bytes
    (finalizeLinking (set_Symbols (<[I := set_DataRef D Sym]> (Symbols this)) this))
  = result_bytes (finalizeLinking this).
Proof.
  intros HK HI HD HU.
  assert (forall W,
    foldM writeSymbol (<[I := set_DataRef D Sym]> (Symbols this)) W
    = foldM writeSymbol (Symbols this) W) as HF.
  { apply foldM_ext. apply Forall2_lookup. intros j.
    destruct (decide (I = j)) as [<-|Hne].
    - rewrite list_lookup_insert_eq by (by apply lookup_lt_Some in HI).
      rewrite HI. constructor. intros W.
      pose proof (kinds_distinct_Data HK) as HFn.
      unfold writeSymbol, set_DataRef. simpl.
      rewrite HD, HFn, Z.eqb_refl, HU. reflexivity.
    - rewrite list_lookup_insert_ne by assumption.
      destruct (Symbols this !! j); constructor. reflexivity. }
  unfold finalizeLinking, set_Symbols. simpl.
  rewrite length_insert.
  destruct (Symbols this) as [|S0 Rest] eqn:ES; [discriminate|].
  assert (exists S1 Rest1, <[I := set_DataRef D Sym]> (S0 :: Rest) = S1 :: Rest1)
    as (S1 & Rest1 & EI) by (destruct I; simpl; eauto).
  rewrite EI in *. cbv iota.
  unfold result_bytes.
  destruct (writeVaruint32 WasmMetadataVersion SectionWriter_new) as [W1|];
    cbn [bind]; [|reflexivity].
  destruct (startSubsection WASM_SYMBOL_TABLE W1) as [W2|];
    cbn [bind]; [|reflexivity].
  destruct (writeULEB128 (Z.of_nat (length (S0 :: Rest))) 0 W2) as [W3|];
    cbn [bind]; [|reflexivity].
  rewrite HF.
  repeat match goal with
         | |- bind (bind ?m _) _ = bind (bind ?m _) _ =>
             destruct m; cbn [bind]; [|reflexivity]
         | |- bind ?m _ = bind ?m _ =>
             destruct m; cbn [bind]; [|reflexivity]
         end.
  reflexivity.
Qed.

End EndToEnd.

(** ** Section removal: marking *)

Lemma markSections_none (ToRemove : ObjSection -> bool) (I : nat)
  (Sections : list ObjSection) :
  (forall Sec, Sec ∈ Sections -> ToRemove Sec = false) ->
  markSections ToRemove I Sections = [].
Proof.
  revert I. induction Sections as [|Sec rest IH]; intros I Hall; simpl.
  - reflexivity.
  - rewrite (Hall Sec) by apply list_elem_of_here. simpl.
    apply IH. intros Sec' Hin. apply Hall. by apply list_elem_of_further.
Qed.

Lemma markSections_marks (ToRemove : ObjSection -> bool) (I i : nat)
  (Sections : list ObjSection) (Sec : ObjSection) :
  Sections !! i = Some Sec -> ToRemove Sec = true ->
  I + i ∈ markSections ToRemove I Sections.
Proof.
  revert I i. induction Sections as [|Sec0 rest IH]; intros I i Hi HT.
  - discriminate.
  - simpl. apply elem_of_app. destruct i as [|i]; simpl in Hi.
    + left. injection Hi as ->. rewrite HT, Nat.add_0_r. apply list_elem_of_here.
    + right. replace (I + S i) with (S I + i) by lia. by apply IH.
Qed.

Lemma elem_of_unique (x : nat) (l : list nat) : x ∈ unique l <-> x ∈ l.
Proof.
  induction l as [|a t IH]; [reflexivity|].
  destruct t as [|b t'].
  - reflexivity.
  - change (unique (a :: b :: t'))
      with (if decide (a = b) then unique (b :: t') else a :: unique (b :: t')).
    destruct (decide (a = b)) as [->|Hne].
    + rewrite IH. rewrite !elem_of_cons. tauto.
    + rewrite elem_of_cons, IH, (elem_of_cons (b :: t')). tauto.
Qed.

(** After [std::sort], [std::unique] leaves a strictly increasing vector. *)
Lemma unique_strictly_sorted (l : list nat) :
  StronglySorted le l -> StronglySorted lt (unique l).
Proof.
  induction l as [|a t IH]; intros HS.
  - constructor.
  - apply StronglySorted_inv in HS as [HSt Hall].
    specialize (IH HSt).
    destruct t as [|b t'].
    + simpl. repeat constructor.
    + change (unique (a :: b :: t'))
        with (if decide (a = b) then unique (b :: t') else a :: unique (b :: t')).
      destruct (decide (a = b)) as [->|Hne]; [exact IH|].
      constructor; [exact IH|].
      apply Forall_forall. intros x Hx. rewrite elem_of_unique in Hx.
      apply StronglySorted_inv in HSt as [_ Hb].
      rewrite Forall_forall in Hall, Hb.
      pose proof (Hall b ltac:(apply list_elem_of_here)) as Hab.
      apply elem_of_cons in Hx as [->|Hx]; [lia|].
      specialize (Hb x Hx). lia.
Qed.

Lemma marked_strictly_sorted (l : list nat) : StronglySorted lt (unique (sort l)).
Proof.
  apply unique_strictly_sorted. unfold sort.
  apply StronglySorted_merge_sort; apply _.
Qed.

Lemma elem_of_marked (x : nat) (l : list nat) : x ∈ unique (sort l) <-> x ∈ l.
Proof.
  rewrite elem_of_unique. unfold sort.
  by rewrite (merge_sort_Permutation le l).
Qed.

(** ** Erasing from the highest index downward *)

(** Every element that survives sat at a position that was not erased. *)
Lemma eraseAll_survivor {A : Type} (Is : list nat) :
  StronglySorted lt Is ->
  forall (V V' : list A) (j : nat) (y : A),
    eraseAll (reverse Is) V = Done V' ->
    V' !! j = Some y ->
    exists i, V !! i = Some y /\ i ∉ Is.
Proof.
  induction Is as [|k Is IH] using rev_ind; intros HS V V' j y HE Hj.
  - simpl in HE. injection HE as <-. exists j. split; [assumption|].
    apply not_elem_of_nil.
  - rewrite reverse_app in HE. simpl in HE. unfold eraseAll in HE. simpl in HE.
    apply bind_Done_inv in HE as (V1 & HE1 & HE2).
    unfold erase in HE1. destruct (decide (k < length V)) as [Hk|]; [|discriminate].
    injection HE1 as <-.
    apply StronglySorted_app in HS as (Hlt & HS' & _).
    destruct (IH HS' _ _ _ _ HE2 Hj) as (i' & Hi' & Hnot).
    destruct (decide (i' < k)) as [Hlo|Hhi].
    + exists i'. rewrite list_lookup_delete_lt in Hi' by assumption.
      split; [assumption|].
      rewrite elem_of_app, list_elem_of_singleton. intros [?|?]; [tauto | lia].
    + exists (S i'). rewrite list_lookup_delete_ge in Hi' by lia.
      split; [assumption|].
      rewrite elem_of_app, list_elem_of_singleton. intros [Hin|?]; [|lia].
      specialize (Hlt (S i') k Hin ltac:(apply list_elem_of_here)). lia.
Qed.

Section Remover.
Context {C : WasmConstants}.

(** What [removeSections] leaves in the section list was not accepted by
    [ToRemove]. *)
Lemma removeSections_survivors (ToRemove : ObjSection -> bool) (PastEnd : nat)
  (Obj Obj' : Object) :
  removeSections ToRemove PastEnd Obj = Done Obj' ->
  forall Sec, Sec ∈ OpaqueSections Obj' -> ToRemove Sec = false.
Proof.
  unfold removeSections. intros HR Sec HSec.
  destruct (unique (sort (markSections ToRemove 0 (OpaqueSections Obj)))) as [|m ms] eqn:EM.
  - injection HR as <-.
    destruct (ToRemove Sec) eqn:HT; [|reflexivity].
    apply list_elem_of_lookup in HSec as [i Hi].
    pose proof (markSections_marks ToRemove 0 i _ _ Hi HT) as Hin.
    rewrite <- elem_of_marked, EM in Hin. by apply elem_of_nil in Hin.
  - apply bind_Done_inv in HR as (Symbols1 & _ & HR).
    apply bind_Done_inv in HR as (Sections1 & HE & HR).
    apply bind_Done_inv in HR as (Symbols2 & _ & HR).
    injection HR as <-. simpl in HSec.
    apply list_elem_of_lookup in HSec as [j Hj].
    rewrite <- EM in HE.
    destruct (eraseAll_survivor _ (marked_strictly_sorted _) _ _ _ _ HE Hj)
      as (i & Hi & Hnot).
    destruct (ToRemove Sec) eqn:HT; [|reflexivity].
    exfalso. apply Hnot. rewrite elem_of_marked.
    apply (markSections_marks ToRemove 0 i _ _ Hi HT).
Qed.

Lemma removeSections_unmarked (ToRemove : ObjSection -> bool)
  (PastEnd : nat) (Obj : Object) :
  (forall Sec, Sec ∈ OpaqueSections Obj -> ToRemove Sec = false) ->
  removeSections ToRemove PastEnd Obj = Done Obj.
Proof.
  intros Hall. unfold removeSections.
  rewrite (markSections_none _ _ _ Hall). reflexivity.
Qed.

(** C8.  When no section satisfies the predicate, [removeSections] returns
    the object as it was: sections, symbols, linking data, header and all. *)
Theorem removeSections_nothing_marked (ToRemove : ObjSection -> bool)
  (PastEnd : nat) (Obj : Object) :
  (forall Sec, Sec ∈ OpaqueSections Obj -> ToRemove Sec = false) ->
  removeSections ToRemove PastEnd Obj = Done Obj.
Proof. apply removeSections_unmarked. Qed.

(** C9.  Calling [removeSections] a second time with the same predicate
    changes nothing: by [removeSections_survivors] no section that is left
    satisfies the predicate, so the second call marks nothing.  (When the
    first call aborts there is no second one.) *)
Theorem removeSections_idempotent (ToRemove : ObjSection -> bool)
  (PastEnd PastEnd' : nat) (Obj : Object) :
  (Obj1 <- removeSections ToRemove PastEnd Obj ;;
   removeSections ToRemove PastEnd' Obj1)
  = removeSections ToRemove PastEnd Obj.
Proof.
  destruct (removeSections ToRemove PastEnd Obj) as [Obj1|f] eqn:HR; simpl.
  - apply removeSections_unmarked.
    apply (removeSections_survivors _ _ _ _ HR).
  - reflexivity.
Qed.

End Remover.

(** ** Renumbering *)

Lemma upper_bound_le (Marked : list nat) (Value : Z) :
  upper_bound Marked Value <= length Marked.
Proof.
  induction Marked as [|x rest IH]; simpl; [lia|].
  destruct (Value <? Z.of_nat x)%Z; simpl; lia.
Qed.

(** Behind the iterator [upper_bound] returns lie the marked indices that are
    greater than the value. *)
Lemma upper_bound_counts_greater (Marked : list nat) (Value : Z) :
  StronglySorted lt Marked ->
  length Marked - upper_bound Marked Value
  = length (filter (fun M => (Value < Z.of_nat M)%Z) Marked).
Proof.
  induction Marked as [|x rest IH]; intros HS; [reflexivity|].
  apply StronglySorted_inv in HS as [HS Hall]. simpl.
  destruct (Z.ltb_spec Value (Z.of_nat x)) as [Hlt|Hge].
  - rewrite filter_cons_True by assumption. simpl. f_equal.
    clear IH HS. induction rest as [|y rest IH]; [reflexivity|].
    apply Forall_cons in Hall as [Hy Hall].
    rewrite filter_cons_True by lia. simpl. f_equal. by apply IH.
  - rewrite filter_cons_False by lia. rewrite <- IH by assumption. reflexivity.
Qed.

Lemma patchOffset_ElementIndex (Sections : list ObjSection) (Marked : list nat)
  (First : nat) (SymInfo SymInfo' : WasmSymbolInfo) :
  patchOffset Sections Marked First SymInfo = Done SymInfo' ->
  ElementIndex SymInfo' = ElementIndex SymInfo.
Proof.
  unfold patchOffset. generalize (seq First (length Marked - First)) as Is.
  intros Is. revert SymInfo. induction Is as [|I Is IH]; intros SymInfo HP; simpl in HP.
  - by injection HP as <-.
  - apply bind_Done_inv in HP as (S1 & H1 & H2).
    rewrite (IH _ H2). unfold patchOffsetStep in H1.
    destruct (Sections !! I); [|discriminate]. by injection H1 as <-.
Qed.

Section Renumbering.
Context {C : WasmConstants}.

(** The first symbol loop moves the element index of a Function, Global, Tag,
    Table or Section symbol up, by the number of marked indices behind
    [Upper]. *)
Lemma patchSymbol_ElementIndex (Sections : list ObjSection) (Marked : list nat)
  (PastEnd : nat) (Sym Sym' : WasmSymbol) :
  kinds_distinct ->
  Kind (Info Sym) ∈ [WASM_SYMBOL_TYPE_FUNCTION; WASM_SYMBOL_TYPE_GLOBAL;
                     WASM_SYMBOL_TYPE_TAG; WASM_SYMBOL_TYPE_TABLE;
                     WASM_SYMBOL_TYPE_SECTION] ->
  patchSymbol Sections Marked PastEnd Sym = Done Sym' ->
  ElementIndex (Info Sym')
  = wrap32 (ElementIndex (Info Sym)
            + Z.of_nat (length Marked
                        - upper_bound Marked (ElementIndex (Info Sym)))).
Proof.
  intros HK HIn HP.
  pose proof (upper_bound_le Marked (ElementIndex (Info Sym))) as Hle.
  assert (forall E : Z,
    (E - distance (length Marked) (upper_bound Marked (ElementIndex (Info Sym))))%Z
    = (E + Z.of_nat (length Marked - upper_bound Marked (ElementIndex (Info Sym))))%Z)
    as HD by (intros E; unfold distance; lia).
  unfold patchSymbol in HP. rewrite HD in HP.
  destruct ((Kind (Info Sym) =? WASM_SYMBOL_TYPE_FUNCTION)
            || (Kind (Info Sym) =? WASM_SYMBOL_TYPE_GLOBAL)
            || (Kind (Info Sym) =? WASM_SYMBOL_TYPE_TAG)
            || (Kind (Info Sym) =? WASM_SYMBOL_TYPE_TABLE))%Z eqn:EF.
  - apply bind_Done_inv in HP as (S2 & H2 & HP). injection HP as <-. simpl.
    by rewrite (patchOffset_ElementIndex _ _ _ _ _ H2).
  - assert (Kind (Info Sym) = WASM_SYMBOL_TYPE_SECTION) as HS.
    { rewrite !elem_of_cons in HIn.
      destruct HIn as [H|[H|[H|[H|[H|H]]]]];
        try (rewrite H, Z.eqb_refl, ?orb_true_r in EF; discriminate EF);
        [assumption | by apply elem_of_nil in H]. }
    destruct (kinds_distinct_Section HK) as [_ HSD].
    rewrite HS, HSD, Z.eqb_refl in HP. by injection HP as <-.
Qed.

End Renumbering.

(** ** [removeSections] returns on well-formed objects *)

Lemma markSections_bound (ToRemove : ObjSection -> bool) (N I : nat)
  (Sections : list ObjSection) :
  (forall Sec R, Sec ∈ Sections -> RelocationSectionIdx Sec = Some R -> R < N) ->
  I + length Sections <= N ->
  Forall (fun M => M < N) (markSections ToRemove I Sections).
Proof.
  revert I. induction Sections as [|Sec rest IH]; intros I HR HL; simpl.
  - constructor.
  - simpl in HL. apply Forall_app. split.
    + destruct (ToRemove Sec); [|constructor].
      constructor; [lia|].
      destruct (RelocationSectionIdx Sec) as [R|] eqn:ER; [|constructor].
      constructor; [|constructor].
      apply (HR Sec R); [apply list_elem_of_here | assumption].
    + apply IH; [|lia]. intros Sec' R Hin. apply HR. by apply list_elem_of_further.
Qed.

(** A strictly increasing vector of indices below [N] has at most [N]
    entries. *)
Lemma sorted_length_bound (Is : list nat) :
  StronglySorted lt Is -> forall N, Forall (fun M => M < N) Is -> length Is <= N.
Proof.
  induction Is as [|k Is IH] using rev_ind; intros HS N HN; [simpl; lia|].
  apply StronglySorted_app in HS as (Hlt & HS' & _).
  apply Forall_app in HN as [_ Hk]. rewrite Forall_singleton in Hk.
  rewrite length_app. simpl.
  assert (length Is <= k); [|lia].
  apply (IH HS'). apply Forall_forall. intros x Hx.
  apply (Hlt x k Hx). apply list_elem_of_here.
Qed.

Lemma eraseAll_returns {A : Type} (Is : list nat) :
  StronglySorted lt Is ->
  forall V : list A, Forall (fun M => M < length V) Is ->
    exists V', eraseAll (reverse Is) V = Done V'.
Proof.
  induction Is as [|k Is IH] using rev_ind; intros HS V HB.
  - exists V. reflexivity.
  - apply StronglySorted_app in HS as (Hlt & HS' & _).
    apply Forall_app in HB as [HB Hk]. rewrite Forall_singleton in Hk.
    rewrite reverse_app. unfold eraseAll. simpl. unfold erase at 1.
    destruct (decide (k < length V)) as [_|]; [|lia]. simpl.
    apply (IH HS'). apply Forall_forall. intros x Hx.
    rewrite length_delete by (apply lookup_lt_is_Some; lia).
    pose proof (Hlt x k Hx ltac:(apply list_elem_of_here)). lia.
Qed.

Lemma patchOffset_returns (Sections : list ObjSection) (Marked : list nat)
  (First : nat) (SymInfo : WasmSymbolInfo) :
  length Marked <= length Sections ->
  exists SymInfo', patchOffset Sections Marked First SymInfo = Done SymInfo'.
Proof.
  intros HL. unfold patchOffset.
  assert (Forall (fun I => I < length Sections) (seq First (length Marked - First)))
    as HB.
  { apply Forall_forall. intros I HI. apply elem_of_seq in HI. lia. }
  revert SymInfo HB. generalize (seq First (length Marked - First)) as Is.
  induction Is as [|I Is IH]; intros SymInfo HB; simpl.
  - eauto.
  - apply Forall_cons in HB as [HI HB]. unfold patchOffsetStep at 1.
    destruct (lookup_lt_is_Some_2 Sections I HI) as [Sec ->]. simpl.
    apply IH. assumption.
Qed.

Lemma forEach_returns {A : Type} (body : A -> Outcome A) (P : A -> Prop)
  (xs : list A) :
  (forall x, P x -> exists x', body x = Done x') ->
  Forall P xs -> exists ys, forEach body xs = Done ys.
Proof.
  intros Hb. induction xs as [|x xs IH]; intros HP; simpl.
  - eauto.
  - apply Forall_cons in HP as [Hx HP].
    destruct (Hb x Hx) as [x' ->]. destruct (IH HP) as [ys ->]. simpl. eauto.
Qed.

Section Returns.
Context {C : WasmConstants}.

Lemma patchSymbol_returns (Sections : list ObjSection) (Marked : list nat)
  (PastEnd : nat) (Sym : WasmSymbol) :
  length Marked <= length Sections ->
  known_kind Sym ->
  exists Sym', patchSymbol Sections Marked PastEnd Sym = Done Sym'.
Proof.
  intros HL HK. unfold patchSymbol.
  destruct ((Kind (Info Sym) =? WASM_SYMBOL_TYPE_FUNCTION)
            || (Kind (Info Sym) =? WASM_SYMBOL_TYPE_GLOBAL)
            || (Kind (Info Sym) =? WASM_SYMBOL_TYPE_TAG)
            || (Kind (Info Sym) =? WASM_SYMBOL_TYPE_TABLE))%Z eqn:EF.
  - match goal with
    | |- context [patchOffset ?a ?b ?c ?d] =>
        destruct (patchOffset_returns a b c d HL) as [S' ->]
    end. simpl. eauto.
  - destruct (Z.eqb_spec (Kind (Info Sym)) WASM_SYMBOL_TYPE_DATA) as [ED|ND].
    + destruct (Z.land (Flags (Info Sym)) WASM_SYMBOL_UNDEFINED =? 0)%Z; [|eauto].
      match goal with
      | |- context [patchOffset ?a ?b ?c ?d] =>
          destruct (patchOffset_returns a b c d HL) as [S' ->]
      end. simpl. eauto.
    + destruct (Z.eqb_spec (Kind (Info Sym)) WASM_SYMBOL_TYPE_SECTION) as [ES|NS];
        [eauto|].
      exfalso. unfold known_kind in HK. rewrite !elem_of_cons in HK.
      destruct HK as [H|[H|[H|[H|[H|[H|H]]]]]];
        try (rewrite H, Z.eqb_refl, ?orb_true_r in EF; discriminate EF);
        try contradiction.
      by apply elem_of_nil in H.
Qed.

Lemma markSymbols_sorted (Marked : list nat) (I : nat) (Syms : list WasmSymbol) :
  StronglySorted lt (markSymbols Marked I Syms)
  /\ Forall (fun M => I <= M < I + length Syms) (markSymbols Marked I Syms).
Proof.
  revert I. induction Syms as [|WS rest IH]; intros I; simpl.
  - split; constructor.
  - destruct (IH (S I)) as [HS HB].
    assert (Forall (fun M => I <= M < I + S (length rest))
                   (markSymbols Marked (S I) rest)) as HB'.
    { eapply Forall_impl; [exact HB|]. simpl. intros; lia. }
    destruct (isTypeSection WS && binary_search Marked (ElementIndex (Info WS)));
      simpl; [|by split].
    split.
    + constructor; [assumption|].
      eapply Forall_impl; [exact HB|]. simpl. intros; lia.
    + constructor; [lia | assumption].
Qed.

(** On an object whose relocation links stay inside the section list and whose
    symbols have one of the six kinds, [removeSections] returns, whatever is
    read behind the marked indices. *)
Lemma removeSections_returns (ToRemove : ObjSection -> bool) (PastEnd : nat)
  (Obj : Object) :
  relocs_in_range (OpaqueSections Obj) ->
  Forall known_kind (Symbols Obj) ->
  exists Obj', removeSections ToRemove PastEnd Obj = Done Obj'.
Proof.
  intros HR HK. unfold removeSections.
  pose proof (marked_strictly_sorted (markSections ToRemove 0 (OpaqueSections Obj)))
    as HS.
  assert (Forall (fun M => M < length (OpaqueSections Obj))
                 (unique (sort (markSections ToRemove 0 (OpaqueSections Obj)))))
    as HB.
  { apply Forall_forall. intros x Hx. rewrite elem_of_marked in Hx.
    pose proof (markSections_bound ToRemove (length (OpaqueSections Obj)) 0
                  (OpaqueSections Obj) HR ltac:(lia)) as HM.
    rewrite Forall_forall in HM. by apply HM. }
  pose proof (sorted_length_bound _ HS _ HB) as HL.
  destruct (unique (sort (markSections ToRemove 0 (OpaqueSections Obj))))
    as [|m ms] eqn:EM; [eauto|].
  destruct (forEach_returns
              (patchSymbol (OpaqueSections Obj) (m :: ms) PastEnd) known_kind
              (Symbols Obj)) as [Symbols1 HF].
  { intros Sym HSym. by apply patchSymbol_returns. }
  { assumption. }
  rewrite HF. simpl bind.
  destruct (eraseAll_returns (m :: ms) HS (OpaqueSections Obj) HB) as [Sections1 ->].
  simpl bind.
  destruct (markSymbols_sorted (m :: ms) 0 Symbols1) as [HSS HSB].
  destruct (eraseAll_returns (markSymbols (m :: ms) 0 Symbols1) HSS Symbols1)
    as [Symbols2 ->].
  { eapply Forall_impl; [exact HSB|]. simpl. intros; lia. }
  simpl. eauto.
Qed.

End Returns.

(** ** The reader *)

Section Reader.
Context {C : WasmConstants}.

Lemma readSection_DataSegments (WasmObj : WasmObjectFile) (WS : WasmSection)
  (Obj Obj' : Object) :
  readSection WasmObj WS Obj = Done Obj' -> DataSegments Obj' = DataSegments Obj.
Proof.
  unfold readSection. intros HR.
  destruct (WS_Type WS >? WASM_SEC_LAST_KNOWN)%Z; [discriminate|].
  apply bind_Done_inv in HR as (Sections1 & _ & HR). by injection HR as <-.
Qed.

Lemma readSections_DataSegments (WasmObj : WasmObjectFile) (WSs : list WasmSection)
  (Obj Obj' : Object) :
  foldM (readSection WasmObj) WSs Obj = Done Obj' ->
  DataSegments Obj' = DataSegments Obj.
Proof.
  revert Obj. induction WSs as [|WS WSs IH]; intros Obj HR; simpl in HR.
  - by injection HR as <-.
  - apply bind_Done_inv in HR as (Obj1 & H1 & H2).
    rewrite (IH _ H2). by apply (readSection_DataSegments WasmObj WS).
Qed.

(** [reserve] and [llvm::copy] leave [DataSegments.size()] at zero: the
    decoder's segments end up in the reserved storage behind the end. *)
Lemma create_DataSegments (WasmObj : WasmObjectFile) (Obj : Object) :
  create WasmObj = Done Obj ->
  elems (DataSegments Obj) = []
  /\ spare (DataSegments Obj) = Some <$> dataSegments WasmObj.
Proof.
  unfold create. intros HC.
  apply bind_Done_inv in HC as (Obj1 & HF & HC).
  apply readSections_DataSegments in HF. simpl in HF.
  apply bind_Done_inv in HC as (Copied & HCp & HC).
  injection HC as <-. simpl.
  rewrite HF in HCp. unfold copy_to_begin, reserve, capacity, vector_new in HCp.
  simpl in HCp. destruct (decide _); [|discriminate].
  injection HCp as <-. simpl. split.
  - by rewrite drop_nil.
  - rewrite Nat.sub_0_r, drop_0, drop_replicate, Nat.sub_diag. simpl.
    by rewrite app_nil_r.
Qed.

End Reader.

Section ReaderInvariant.
Context {C : WasmConstants}.

Lemma wrap32_of_nat_le (N : nat) : Z.to_nat (wrap32 (Z.of_nat N)) <= N.
Proof.
  unfold wrap32.
  pose proof (Z.mod_le (Z.of_nat N) (2 ^ 32) ltac:(lia) ltac:(lia)).
  pose proof (Z.mod_pos_bound (Z.of_nat N) (2 ^ 32) ltac:(lia)). lia.
Qed.

Lemma readSection_relocs_in_range (WasmObj : WasmObjectFile) (WS : WasmSection)
  (Obj Obj' : Object) :
  readSection WasmObj WS Obj = Done Obj' ->
  relocs_in_range (OpaqueSections Obj) ->
  relocs_in_range (OpaqueSections Obj').
Proof.
  unfold readSection. intros HR HI.
  destruct (WS_Type WS >? WASM_SEC_LAST_KNOWN)%Z; [discriminate|].
  apply bind_Done_inv in HR as (Sections1 & H1 & HR).
  injection HR as <-. simpl.
  assert (length Sections1 = length (OpaqueSections Obj)
          /\ forall Sec R, Sec ∈ Sections1 -> RelocationSectionIdx Sec = Some R ->
                           R <= length (OpaqueSections Obj)) as [HL HB].
  { destruct ((WS_Type WS =? WASM_SEC_CUSTOM)%Z && String.prefix "reloc." (WS_Name WS)).
    - apply bind_Done_inv in H1 as (Idx & _ & H1). cbv beta in H1.
      destruct (Idx >=? Z.of_nat (length (OpaqueSections Obj)))%Z; [discriminate|].
      injection H1 as <-. split; [apply length_alter|].
      intros Sec R HSec HRel. apply list_elem_of_lookup in HSec as [j Hj].
      destruct (decide (Z.to_nat Idx = j)) as [<-|Hne].
      + rewrite list_lookup_alter_eq in Hj.
        destruct (OpaqueSections Obj !! Z.to_nat Idx); [|discriminate].
        injection Hj as <-. simpl in HRel. injection HRel as <-.
        apply wrap32_of_nat_le.
      + rewrite list_lookup_alter_ne in Hj by assumption.
        apply Nat.lt_le_incl. apply (HI Sec R); [|assumption].
        apply list_elem_of_lookup. eauto.
    - injection H1 as <-. split; [reflexivity|].
      intros Sec R HSec HRel. apply Nat.lt_le_incl. by apply (HI Sec R). }
  intros Sec R HSec HRel. rewrite length_app, HL. simpl.
  apply elem_of_app in HSec as [HSec|HSec].
  - specialize (HB Sec R HSec HRel). lia.
  - apply list_elem_of_singleton in HSec. subst Sec.
    destruct (negb _); discriminate HRel.
Qed.

(** The objects the reader builds keep their relocation links inside the
    section list. *)
Lemma create_relocs_in_range (WasmObj : WasmObjectFile) (Obj : Object) :
  create WasmObj = Done Obj -> relocs_in_range (OpaqueSections Obj).
Proof.
  unfold create. intros HC.
  apply bind_Done_inv in HC as (Obj1 & HF & HC).
  apply bind_Done_inv in HC as (Copied & _ & HC).
  injection HC as <-. simpl.
  revert HF. generalize (sections WasmObj) as WSs.
  match goal with
  | |- forall WSs, foldM _ WSs ?O = _ -> _ =>
      assert (relocs_in_range (OpaqueSections O)) as H0
        by (intros ? ? Hin; by apply elem_of_nil in Hin);
      revert H0; generalize O
  end.
  intros O H0 WSs. revert O H0.
  induction WSs as [|WS WSs IH]; intros O H0 HF; simpl in HF.
  - by injection HF as <-.
  - apply bind_Done_inv in HF as (O1 & H1 & H2).
    apply (IH O1); [|assumption].
    by apply (readSection_relocs_in_range WasmObj WS O).
Qed.

End ReaderInvariant.

(** ** The worked inputs *)

Lemma upstream_kinds_distinct : @kinds_distinct upstream.
Proof.
  unfold kinds_distinct. simpl.
  repeat (apply NoDup_cons; split;
          [rewrite ?elem_of_cons, elem_of_nil; lia|]).
  apply NoDup_nil_2.
Qed.

(** C1 (the code departs from it).  Sections [A, B], predicate "is named B",
    so index 1 is the one marked index; the Function symbol has element
    index 0, below it.  The claim leaves the index at 0 (no marked index is
    smaller); the code returns it as 1: [Info.ElementIndex -=
    std::distance(MarkedSections.end(), Upper)] subtracts a distance that is
    never positive, and so adds the number of marked indices greater than
    the element index. *)
Theorem removeSections_moves_index_up :
  forall PastEnd : nat,
    @removeSections upstream (named "B") PastEnd two_sections_object
    = Done (object_of
              [symbol (@WASM_SYMBOL_TYPE_FUNCTION upstream) 0 1 "f" no_data]
              [custom_section "A" [1; 2; 3]%Z None] []).
Proof. intros PastEnd. reflexivity. Qed.

(** C2 (the code departs from it).  On the scenario of the specification,
    sections [A, reloc.A, B] and a Function symbol with element index 2, the
    call with "is named A" leaves the one section [B], as claimed, and leaves
    the element index at 2, not 0, whatever is read behind the two marked
    indices. *)
Theorem removeSections_scenario :
  forall PastEnd : nat,
    exists Obj : Object,
      @removeSections upstream (named "A") PastEnd scenario_object = Done Obj
      /\ OpaqueSections Obj = [custom_section "B" [4; 5; 6; 7]%Z None]
      /\ map (fun Sym => ElementIndex (Info Sym)) (Symbols Obj) = [2%Z].
Proof.
  intros [|[|PastEnd]]; eexists; (split; [vm_compute; reflexivity|]);
    split; reflexivity.
Qed.

(** C3 (the code departs from it).  Sections [A, B, C], predicate "is named A
    or C", so indices 0 and 2 are marked; one Section symbol for [A] (index
    0) and one for [B] (index 1).  The claim deletes the first and keeps the
    second.  The code tests the indices after it has renumbered them, 0 to 1
    and 1 to 2: it keeps the symbol of the removed section [A] and deletes
    the symbol of the remaining section [B]. *)
Theorem removeSections_section_symbols :
  forall PastEnd : nat,
    @removeSections upstream named_A_or_C PastEnd three_sections_object
    = Done (object_of
              [symbol (@WASM_SYMBOL_TYPE_SECTION upstream) 0 1 "a" no_data]
              [custom_section "B" [2]%Z None] []).
Proof. intros PastEnd. reflexivity. Qed.

(** C4 (the code departs from it).  For the one segment named "a" (alignment
    3, flags 1) the encoder writes the payload 1, 'a', 3, 1; the
    specification's format has the byte count 1 in front of the name:
    [writeString] writes the bytes of the name and no length.  The last line
    shows the payload at the end of what [finalizeLinking] returns. *)
Lemma SegmentInfo_payload_not_length_prefixed :
  (exists W',
      writeSegmentInfoPayload [segment_a] SectionWriter_new = Done W'
      /\ written W' = [1; 97; 3; 1]%Z)
  /\ SegmentInfo_payload_spec [segment_a] = [1; 1; 97; 3; 1]%Z
  /\ ~ (exists W',
          writeSegmentInfoPayload [segment_a] SectionWriter_new = Done W'
          /\ written W'
             = written SectionWriter_new ++ SegmentInfo_payload_spec [segment_a])
  /\ @finalizeLinking upstream one_segment_object
     = Done ([2; 0; 9; 128; 128; 128; 0; 1; 97; 3; 1]%Z, one_segment_object).
Proof.
  split; [eexists; split; reflexivity|].
  split; [reflexivity|].
  split; [|reflexivity].
  intros (W' & HE & HW).
  vm_compute in HE. injection HE as <-. vm_compute in HW. discriminate HW.
Qed.

(** C5 (the code departs from it).  A decoded module with one data segment:
    the object the reader returns has an empty data-segment list.
    [reserve] does not change [size()], and [llvm::copy] to [begin()] stores
    the segment in the reserved storage behind the end. *)
Theorem create_loses_data_segments :
  dataSegments one_segment_module = [segment_a]
  /\ @create upstream one_segment_module
     = Done {| Header := {| Magic := "asm"; Version := 1 |};
               Symbols := [];
               OpaqueSections := [];
               LinkingData := {| LinkingVersion := 0; InitFunctions := [];
                                 Comdats := [] |};
               DataSegments := {| elems := []; spare := [Some segment_a] |};
               LinkingSection := None |}.
Proof. split; reflexivity. Qed.

(** [writeSegmentInfoPayload_raw_names] at the segment "a" and a new writer. *)
Lemma writeSegmentInfoPayload_raw_names_witness :
  (Z.of_nat (length [segment_a]) <= 2147483647)%Z
  /\ cursor_ok SectionWriter_new
  /\ exists W',
       writeSegmentInfoPayload [segment_a] SectionWriter_new = Done W'
       /\ written W'
          = written SectionWriter_new ++ SegmentInfo_payload_raw [segment_a].
Proof.
  split; [simpl; lia|].
  split; [exact cursor_ok_new|].
  apply (writeSegmentInfoPayload_raw_names [segment_a] SectionWriter_new);
    [simpl; lia | exact cursor_ok_new].
Defined.

(** [finalizeLinking_empty] at the upstream constants and an object with
    three sections and nothing else. *)
Lemma finalizeLinking_empty_witness :
  (0 <= @WasmMetadataVersion upstream <= 2147483647)%Z
  /\ Symbols (object_of [] scenario_sections []) = []
  /\ elems (DataSegments (object_of [] scenario_sections [])) = []
  /\ InitFunctions (LinkingData (object_of [] scenario_sections [])) = []
  /\ Comdats (LinkingData (object_of [] scenario_sections [])) = []
  /\ @finalizeLinking upstream (object_of [] scenario_sections [])
     = Done (encodeULEB128 (@WasmMetadataVersion upstream) 0,
             object_of [] scenario_sections []).
Proof.
  repeat (split; [first [reflexivity | simpl; lia]|]).
  apply (@finalizeLinking_empty upstream (object_of [] scenario_sections []));
    first [reflexivity | simpl; lia].
Defined.

(** [writeSymbol_Data] at the upstream constants, the undefined Data symbol
    "d" and a new writer. *)
Lemma writeSymbol_Data_witness :
  @kinds_distinct upstream
  /\ Kind (Info undefined_data_symbol) = @WASM_SYMBOL_TYPE_DATA upstream
  /\ cursor_ok SectionWriter_new
  /\ (exists W',
         @writeSymbol upstream undefined_data_symbol SectionWriter_new = Done W'
         /\ written W'
            = written SectionWriter_new
              ++ encodeULEB128 (Kind (Info undefined_data_symbol)) 0
              ++ encodeULEB128 (Flags (Info undefined_data_symbol)) 0
              ++ bytes (SymName (Info undefined_data_symbol))
              ++ (if (Z.land (Flags (Info undefined_data_symbol))
                             (@WASM_SYMBOL_UNDEFINED upstream) =? 0)%Z
                  then encodeULEB128
                         (Segment (DataRef (Info undefined_data_symbol))) 0
                       ++ encodeULEB128
                            (Offset (DataRef (Info undefined_data_symbol))) 0
                       ++ encodeULEB128
                            (Size (DataRef (Info undefined_data_symbol))) 0
                  else []))
  /\ ((Z.land (Flags (Info undefined_data_symbol))
              (@WASM_SYMBOL_UNDEFINED upstream) =? 0)%Z = false ->
      forall D : WasmDataReference,
        @writeSymbol upstream (set_DataRef D undefined_data_symbol)
                     SectionWriter_new
        = @writeSymbol upstream undefined_data_symbol SectionWriter_new).
Proof.
  split; [exact upstream_kinds_distinct|].
  split; [reflexivity|].
  split; [exact cursor_ok_new|].
  apply (@writeSymbol_Data upstream undefined_data_symbol SectionWriter_new
           upstream_kinds_distinct eq_refl cursor_ok_new).
Defined.

(** [removeSections_nothing_marked] at the scenario object and a name no
    section has. *)
Lemma removeSections_nothing_marked_witness :
  (forall Sec, Sec ∈ OpaqueSections scenario_object -> named "Z" Sec = false)
  /\ @removeSections upstream (named "Z") 0 scenario_object = Done scenario_object.
Proof.
  assert (forall Sec, Sec ∈ OpaqueSections scenario_object -> named "Z" Sec = false)
    as Hnone.
  { intros Sec Hin. simpl in Hin.
    repeat (apply elem_of_cons in Hin as [->|Hin]; [reflexivity|]).
    by apply elem_of_nil in Hin. }
  split; [exact Hnone|].
  exact (@removeSections_nothing_marked upstream (named "Z") 0 scenario_object Hnone).
Defined.

(** The undefined Data symbol "d" carries segment 7, offset 42 and size 9;
    the encoder writes kind 1, flags 16 and the name (byte 100), none of the
    three. *)
Example writeSymbol_undefined_data :
  exists W',
    @writeSymbol upstream undefined_data_symbol SectionWriter_new = Done W'
    /\ written W' = [1; 16; 100]%Z.
Proof. eexists. split; reflexivity. Qed.

(** * Further properties *)

(** ** Section removal: which sections are left *)

Lemma omit_from_ext {A : Type} (I : nat) (Is Is' : list nat) (V : list A) :
  (forall i, I <= i -> (i ∈ Is <-> i ∈ Is')) ->
  omit_from I Is V = omit_from I Is' V.
Proof.
  revert I. induction V as [|x V IH]; intros I Hext; simpl; [reflexivity|].
  rewrite (IH (S I)) by (intros i Hi; apply Hext; lia).
  destruct (decide (I ∈ Is)) as [HI|HI], (decide (I ∈ Is')) as [HI'|HI'];
    try reflexivity; exfalso; apply (Hext I) in HI || apply (Hext I) in HI';
    try lia; contradiction.
Qed.

Lemma omit_from_none {A : Type} (I : nat) (Is : list nat) (V : list A) :
  (forall i, i ∈ Is -> i < I) -> omit_from I Is V = V.
Proof.
  revert I. induction V as [|x V IH]; intros I Hlt; simpl; [reflexivity|].
  destruct (decide (I ∈ Is)) as [HI|_].
  - apply Hlt in HI. lia.
  - simpl. f_equal. apply IH. intros i Hi. apply Hlt in Hi. lia.
Qed.

Lemma omit_from_delete {A : Type} (I k : nat) (Is : list nat) (V : list A) :
  k < length V ->
  (forall i, i ∈ Is -> i < I + k) ->
  omit_from I Is (delete k V) = omit_from I (Is ++ [I + k]) V.
Proof.
  revert I k. induction V as [|x V IH]; intros I k Hk Hlt; simpl in Hk; [lia|].
  destruct k as [|k]; simpl.
  - rewrite Nat.add_0_r in *.
    destruct (decide (I ∈ Is ++ [I])) as [_|Hn];
      [|exfalso; apply Hn; apply elem_of_app; right; apply list_elem_of_here].
    simpl. rewrite omit_from_none by (intros i Hi; apply Hlt in Hi; lia).
    symmetry. apply omit_from_none.
    intros i Hi. apply elem_of_app in Hi as [Hi|Hi].
    + apply Hlt in Hi. lia.
    + apply list_elem_of_singleton in Hi. lia.
  - replace (I + S k) with (S I + k) in * by lia.
    rewrite (IH (S I) k) by (try assumption; lia).
    destruct (decide (I ∈ Is)) as [HI|HI],
             (decide (I ∈ Is ++ [S I + k])) as [HI'|HI']; try reflexivity; exfalso.
    + apply HI'. apply elem_of_app. by left.
    + apply elem_of_app in HI' as [?|HI']; [contradiction|].
      apply list_elem_of_singleton in HI'. lia.
Qed.

(** Erasing a strictly increasing list of positions from the highest downward
    takes out exactly those positions. *)
Lemma eraseAll_omit {A : Type} (Is : list nat) :
  StronglySorted lt Is ->
  forall V V' : list A, eraseAll (reverse Is) V = Done V' -> V' = omit Is V.
Proof.
  induction Is as [|k Is IH] using rev_ind; intros HS V V' HE.
  - simpl in HE. injection HE as <-. unfold omit. symmetry.
    apply omit_from_none. intros i Hi. by apply elem_of_nil in Hi.
  - rewrite reverse_app in HE. simpl in HE. unfold eraseAll in HE. simpl in HE.
    apply bind_Done_inv in HE as (V1 & HE1 & HE2).
    unfold erase in HE1. destruct (decide (k < length V)) as [Hk|]; [|discriminate].
    injection HE1 as <-.
    apply StronglySorted_app in HS as (Hlt & HS' & _).
    rewrite (IH HS' _ _ HE2). unfold omit.
    apply (omit_from_delete 0 k); [assumption|].
    intros i Hi. apply (Hlt i k Hi). apply list_elem_of_here.
Qed.

Lemma elem_of_markSections (ToRemove : ObjSection -> bool) (I0 i : nat)
  (Sections : list ObjSection) :
  i ∈ markSections ToRemove I0 Sections
  <-> exists J Sec, Sections !! J = Some Sec /\ ToRemove Sec = true
                    /\ (i = I0 + J \/ RelocationSectionIdx Sec = Some i).
Proof.
  revert I0. induction Sections as [|Sec0 rest IH]; intros I0; simpl.
  - split; [intros H; by apply elem_of_nil in H | intros (J & Sec & H & _); discriminate].
  - rewrite elem_of_app, IH. split.
    + intros [Hhd|(J & Sec & HJ & HT & Hi)].
      * destruct (ToRemove Sec0) eqn:HT; [|by apply elem_of_nil in Hhd].
        exists 0, Sec0. split; [reflexivity|]. split; [assumption|].
        apply elem_of_cons in Hhd as [->|Hhd]; [left; lia|].
        destruct (RelocationSectionIdx Sec0) as [R|]; [|by apply elem_of_nil in Hhd].
        apply list_elem_of_singleton in Hhd. subst. by right.
      * exists (S J), Sec. repeat split; try assumption.
        destruct Hi as [->|Hi]; [left; lia | by right].
    + intros (J & Sec & HJ & HT & Hi). destruct J as [|J]; simpl in HJ.
      * injection HJ as ->. left. rewrite HT.
        destruct Hi as [->|Hi].
        -- rewrite Nat.add_0_r. apply list_elem_of_here.
        -- rewrite Hi. apply list_elem_of_further, list_elem_of_here.
      * right. exists J, Sec. repeat split; try assumption.
        destruct Hi as [->|Hi]; [left; lia | by right].
Qed.

Section RemoverMore.
Context {C : WasmConstants}.

Lemma removeSections_sections (ToRemove : ObjSection -> bool) (PastEnd : nat)
  (Obj Obj' : Object) :
  removeSections ToRemove PastEnd Obj = Done Obj' ->
  OpaqueSections Obj'
  = omit (markSections ToRemove 0 (OpaqueSections Obj)) (OpaqueSections Obj).
Proof.
  unfold removeSections. intros HR.
  assert (forall V : list ObjSection,
    omit (unique (sort (markSections ToRemove 0 (OpaqueSections Obj)))) V
    = omit (markSections ToRemove 0 (OpaqueSections Obj)) V) as HO.
  { intros V. apply omit_from_ext. intros i _. apply elem_of_marked. }
  destruct (unique (sort (markSections ToRemove 0 (OpaqueSections Obj))))
    as [|m ms] eqn:EM.
  - injection HR as <-. rewrite <- HO. unfold omit. symmetry.
    apply omit_from_none. intros i Hi. by apply elem_of_nil in Hi.
  - apply bind_Done_inv in HR as (Symbols1 & _ & HR).
    apply bind_Done_inv in HR as (Sections1 & HE & HR).
    apply bind_Done_inv in HR as (Symbols2 & _ & HR).
    injection HR as <-. simpl. rewrite <- HO, <- EM in *.
    apply (eraseAll_omit _ (marked_strictly_sorted _) _ _ HE).
Qed.

(** X1.  When [removeSections] returns, the section list is the old one
    without the marked positions, in the old order; a position is marked when
    the predicate accepts its section or a section the predicate accepts names
    it as its relocation section. *)
Theorem removeSections_removes_marked (ToRemove : ObjSection -> bool)
  (PastEnd : nat) (Obj Obj' : Object) :
  removeSections ToRemove PastEnd Obj = Done Obj' ->
  OpaqueSections Obj'
  = omit (markSections ToRemove 0 (OpaqueSections Obj)) (OpaqueSections Obj)
  /\ forall I, I ∈ markSections ToRemove 0 (OpaqueSections Obj)
               <-> marked ToRemove (OpaqueSections Obj) I.
Proof.
  intros HR. split; [by apply (removeSections_sections _ PastEnd)|].
  intros I. apply elem_of_markSections.
Qed.

(** X2.  When [removeSections] returns, no section that is left satisfies the
    predicate. *)
Theorem removeSections_none_left (ToRemove : ObjSection -> bool) (PastEnd : nat)
  (Obj Obj' : Object) :
  removeSections ToRemove PastEnd Obj = Done Obj' ->
  forall Sec, Sec ∈ OpaqueSections Obj' -> ToRemove Sec = false.
Proof. apply removeSections_survivors. Qed.

Lemma patchSymbol_inside (Sections : list ObjSection) (Marked : list nat)
  (PastEnd PastEnd' : nat) (Sym : WasmSymbol) :
  reads_past_end Marked Sym = false ->
  patchSymbol Sections Marked PastEnd Sym = patchSymbol Sections Marked PastEnd' Sym.
Proof.
  unfold reads_past_end, reads_Upper, patchSymbol, deref. intros HR.
  destruct (Marked !! upper_bound Marked (ElementIndex (Info Sym))) as [x|] eqn:EU;
    [reflexivity|].
  apply lookup_ge_None in EU. apply Nat.leb_le in EU. rewrite EU, andb_true_r in HR.
  apply orb_false_iff in HR as [-> HD].
  destruct (Kind (Info Sym) =? WASM_SYMBOL_TYPE_DATA)%Z; [|reflexivity].
  simpl in HD. by rewrite HD.
Qed.

Lemma forEach_ext {A : Type} (body body' : A -> Outcome A) (xs : list A) :
  Forall (fun x => body x = body' x) xs -> forEach body xs = forEach body' xs.
Proof.
  induction 1 as [|x xs Hx _ IH]; simpl; [reflexivity|]. by rewrite Hx, IH.
Qed.

(** When no symbol makes the first loop read [*Upper] at [end()], the outcome
    is the same whatever word lies there. *)
Lemma removeSections_inside (ToRemove : ObjSection -> bool)
  (PastEnd PastEnd' : nat) (Obj : Object) :
  Forall (fun Sym =>
            reads_past_end (MarkedSections ToRemove (OpaqueSections Obj)) Sym = false)
         (Symbols Obj) ->
  removeSections ToRemove PastEnd Obj = removeSections ToRemove PastEnd' Obj.
Proof.
  unfold removeSections, MarkedSections. intros HN.
  destruct (unique (sort (markSections ToRemove 0 (OpaqueSections Obj))))
    as [|m ms]; [reflexivity|].
  rewrite (forEach_ext (patchSymbol (OpaqueSections Obj) (m :: ms) PastEnd)
                       (patchSymbol (OpaqueSections Obj) (m :: ms) PastEnd'));
    [reflexivity|].
  eapply Forall_impl; [exact HN|]. intros Sym. apply patchSymbol_inside.
Qed.

(** X3.  On an object whose relocation links stay inside the section list,
    whose symbols have one of the six kinds, and where no symbol makes the
    first loop read [*Upper] at [MarkedSections.end()], [removeSections]
    returns: no index it uses leaves a container and no [switch] falls
    through; the object it returns is the same for every word behind the
    marked indices. *)
Theorem removeSections_well_formed_returns (ToRemove : ObjSection -> bool)
  (Obj : Object) :
  relocs_in_range (OpaqueSections Obj) ->
  Forall known_kind (Symbols Obj) ->
  Forall (fun Sym =>
            reads_past_end (MarkedSections ToRemove (OpaqueSections Obj)) Sym = false)
         (Symbols Obj) ->
  exists Obj', forall PastEnd, removeSections ToRemove PastEnd Obj = Done Obj'.
Proof.
  intros HR HK HN.
  destruct (removeSections_returns ToRemove 0 Obj HR HK) as [Obj' HD].
  exists Obj'. intros PastEnd.
  by rewrite (removeSections_inside ToRemove PastEnd 0 Obj HN).
Qed.

(** X4.  The first symbol loop, on a strictly increasing vector of marked
    indices (as [std::sort] and [std::unique] leave it), sets the element
    index of a Function, Global, Tag, Table or Section symbol to the old
    index plus the number of marked indices greater than it, modulo 2^32. *)
Theorem patchSymbol_adds_greater (Sections : list ObjSection) (Marked : list nat)
  (PastEnd : nat) (Sym Sym' : WasmSymbol) :
  kinds_distinct ->
  StronglySorted lt Marked ->
  Kind (Info Sym) ∈ [WASM_SYMBOL_TYPE_FUNCTION; WASM_SYMBOL_TYPE_GLOBAL;
                     WASM_SYMBOL_TYPE_TAG; WASM_SYMBOL_TYPE_TABLE;
                     WASM_SYMBOL_TYPE_SECTION] ->
  patchSymbol Sections Marked PastEnd Sym = Done Sym' ->
  ElementIndex (Info Sym')
  = wrap32 (ElementIndex (Info Sym)
            + Z.of_nat (length (filter (fun M => (ElementIndex (Info Sym)
                                                   < Z.of_nat M)%Z) Marked))).
Proof.
  intros HK HS HIn HP.
  rewrite (patchSymbol_ElementIndex _ _ _ _ _ HK HIn HP).
  by rewrite upper_bound_counts_greater.
Qed.

End RemoverMore.

(** ** Section removal: which symbols are left *)

Lemma patchOffset_symbol_id (Sections : list ObjSection) (Marked : list nat)
  (First : nat) (SymInfo SymInfo' : WasmSymbolInfo) :
  patchOffset Sections Marked First SymInfo = Done SymInfo' ->
  symbol_id {| Info := SymInfo' |} = symbol_id {| Info := SymInfo |}.
Proof.
  unfold patchOffset. generalize (seq First (length Marked - First)) as Is.
  intros Is. revert SymInfo. induction Is as [|I Is IH]; intros SymInfo HP; simpl in HP.
  - by injection HP as <-.
  - apply bind_Done_inv in HP as (S1 & H1 & H2).
    rewrite (IH _ H2). unfold patchOffsetStep in H1.
    destruct (Sections !! I); [|discriminate]. by injection H1 as <-.
Qed.

Lemma omit_from_filter {A : Type} (P : A -> Prop) `{!forall x, Decision (P x)}
  (I : nat) (Is : list nat) (V : list A) :
  (forall i x, V !! i = Some x -> I + i ∈ Is -> ~ P x) ->
  filter P (omit_from I Is V) = filter P V.
Proof.
  revert I. induction V as [|x V IH]; intros I HP; simpl; [reflexivity|].
  rewrite filter_app, (IH (S I)).
  - destruct (decide (I ∈ Is)) as [HI|HI].
    + rewrite filter_cons_False; [reflexivity|].
      apply (HP 0 x); [reflexivity | by rewrite Nat.add_0_r].
    + by rewrite <- filter_app.
  - intros i y Hy Hin. apply (HP (S i) y); [assumption|].
    by replace (I + S i) with (S I + i) by lia.
Qed.

Section SymbolsLeft.
Context {C : WasmConstants}.

Lemma patchSymbol_symbol_id (Sections : list ObjSection) (Marked : list nat)
  (PastEnd : nat) (Sym Sym' : WasmSymbol) :
  patchSymbol Sections Marked PastEnd Sym = Done Sym' ->
  symbol_id Sym' = symbol_id Sym.
Proof.
  unfold patchSymbol. intros HP.
  repeat match type of HP with
         | (if ?b then _ else _) = _ => destruct b
         end; try discriminate HP.
  - apply bind_Done_inv in HP as (S2 & H2 & HP). injection HP as <-.
    by rewrite (patchOffset_symbol_id _ _ _ _ _ H2).
  - apply bind_Done_inv in HP as (S2 & H2 & HP). injection HP as <-.
    rewrite (patchOffset_symbol_id _ _ _ _ _ H2). by destruct Sym.
  - by injection HP as <-.
  - by injection HP as <-.
Qed.

Lemma forEach_patchSymbol_symbol_id (Sections : list ObjSection)
  (Marked : list nat) (PastEnd : nat) (Syms Syms' : list WasmSymbol) :
  forEach (patchSymbol Sections Marked PastEnd) Syms = Done Syms' ->
  Forall2 (fun Sym Sym' => symbol_id Sym' = symbol_id Sym) Syms Syms'.
Proof.
  revert Syms'. induction Syms as [|Sym Syms IH]; intros Syms' HF; simpl in HF.
  - injection HF as <-. constructor.
  - apply bind_Done_inv in HF as (Sym' & HP & HF).
    apply bind_Done_inv in HF as (Rest & HF & HD).
    injection HD as <-. constructor; [|by apply IH].
    by apply (patchSymbol_symbol_id Sections Marked PastEnd).
Qed.

Lemma markSymbols_section_symbols (Marked : list nat) (I i : nat)
  (Syms : list WasmSymbol) (Sym : WasmSymbol) :
  Syms !! i = Some Sym -> I + i ∈ markSymbols Marked I Syms ->
  ~ not_section_symbol Sym.
Proof.
  revert I i. induction Syms as [|WS rest IH]; intros I i Hi Hin; [discriminate|].
  simpl in Hin. apply elem_of_app in Hin as [Hin|Hin].
  - destruct (isTypeSection WS && binary_search Marked (ElementIndex (Info WS)))
      eqn:EC; [|by apply elem_of_nil in Hin].
    apply list_elem_of_singleton in Hin.
    assert (i = 0) as -> by lia. simpl in Hi. injection Hi as <-.
    apply andb_true_iff in EC as [ES _]. unfold isTypeSection in ES.
    apply Z.eqb_eq in ES. unfold not_section_symbol. tauto.
  - destruct i as [|i]; simpl in Hi.
    + destruct (markSymbols_sorted Marked (S I) rest) as [_ HB].
      rewrite Forall_forall in HB. specialize (HB _ Hin). simpl in HB. lia.
    + apply (IH (S I) i); [assumption|].
      by replace (S I + i) with (I + S i) by lia.
Qed.

Lemma same_id_filter (Syms Syms' : list WasmSymbol) :
  Forall2 (fun Sym Sym' => symbol_id Sym' = symbol_id Sym) Syms Syms' ->
  symbol_id <$> filter not_section_symbol Syms'
  = symbol_id <$> filter not_section_symbol Syms.
Proof.
  induction 1 as [|Sym Sym' Syms Syms' Hid _ IH]; [reflexivity|].
  assert (not_section_symbol Sym' <-> not_section_symbol Sym) as Hiff.
  { unfold not_section_symbol. unfold symbol_id in Hid.
    injection Hid as _ -> _. reflexivity. }
  destruct (decide (not_section_symbol Sym)) as [HN|HN].
  - rewrite !filter_cons_True by tauto. rewrite !fmap_cons, Hid. f_equal. exact IH.
  - rewrite !filter_cons_False by tauto. exact IH.
Qed.

Lemma omit_from_fmap {A B : Type} (f : A -> B) (I : nat) (Is : list nat)
  (V : list A) :
  f <$> omit_from I Is V = omit_from I Is (f <$> V).
Proof.
  revert I. induction V as [|x V IH]; intros I; simpl; [reflexivity|].
  rewrite fmap_app, IH. by destruct (decide (I ∈ Is)).
Qed.

Lemma same_id_fmap (Syms Syms' : list WasmSymbol) :
  Forall2 (fun Sym Sym' => symbol_id Sym' = symbol_id Sym) Syms Syms' ->
  symbol_id <$> Syms' = symbol_id <$> Syms.
Proof.
  induction 1 as [|Sym Sym' Syms Syms' Hid _ IH]; [reflexivity|].
  by rewrite !fmap_cons, Hid, IH.
Qed.

Lemma elem_of_markSymbols (Marked : list nat) (I0 I : nat) (Syms : list WasmSymbol) :
  I ∈ markSymbols Marked I0 Syms ->
  exists i Sym, I = I0 + i /\ Syms !! i = Some Sym
                /\ Kind (Info Sym) = WASM_SYMBOL_TYPE_SECTION.
Proof.
  revert I0. induction Syms as [|WS rest IH]; intros I0 Hin; simpl in Hin.
  - by apply elem_of_nil in Hin.
  - apply elem_of_app in Hin as [Hin|Hin].
    + destruct (isTypeSection WS && binary_search Marked (ElementIndex (Info WS)))
        eqn:EC; [|by apply elem_of_nil in Hin].
      apply list_elem_of_singleton in Hin. subst I.
      apply andb_true_iff in EC as [ES _]. unfold isTypeSection in ES.
      apply Z.eqb_eq in ES. exists 0, WS. split; [lia|]. by split.
    + destruct (IH (S I0) Hin) as (i & Sym & -> & Hi & HK).
      exists (S i), Sym. split; [lia|]. by split.
Qed.

(** X5.  [removeSections] deletes Section symbols only, and it changes the
    name, the kind and the flags of no symbol: the symbols that are left are
    the old ones without some positions that held Section symbols, in the
    old order, each with its old name, kind and flags; so the symbols of the
    other five kinds come out in the same number and order. *)
Theorem removeSections_keeps_other_symbols (ToRemove : ObjSection -> bool)
  (PastEnd : nat) (Obj Obj' : Object) :
  removeSections ToRemove PastEnd Obj = Done Obj' ->
  (exists Is,
      symbol_id <$> Symbols Obj' = symbol_id <$> omit Is (Symbols Obj)
      /\ forall I, I ∈ Is ->
           exists Sym, Symbols Obj !! I = Some Sym
                       /\ Kind (Info Sym) = WASM_SYMBOL_TYPE_SECTION)
  /\ symbol_id <$> filter not_section_symbol (Symbols Obj')
     = symbol_id <$> filter not_section_symbol (Symbols Obj).
Proof.
  unfold removeSections. intros HR.
  destruct (unique (sort (markSections ToRemove 0 (OpaqueSections Obj))))
    as [|m ms] eqn:EM.
  - injection HR as <-. split; [|reflexivity].
    exists []. split; [|intros I HI; by apply elem_of_nil in HI].
    unfold omit. rewrite omit_from_none; [reflexivity|].
    intros i Hi. by apply elem_of_nil in Hi.
  - apply bind_Done_inv in HR as (Symbols1 & HF & HR).
    apply bind_Done_inv in HR as (Sections1 & _ & HR).
    apply bind_Done_inv in HR as (Symbols2 & HE & HR).
    injection HR as <-. simpl.
    destruct (markSymbols_sorted (m :: ms) 0 Symbols1) as [HS _].
    rewrite (eraseAll_omit _ HS _ _ HE). unfold omit.
    pose proof (forEach_patchSymbol_symbol_id (OpaqueSections Obj) (m :: ms)
                  PastEnd _ _ HF) as Hid.
    split.
    + exists (markSymbols (m :: ms) 0 Symbols1). split.
      * by rewrite !omit_from_fmap, (same_id_fmap _ _ Hid).
      * intros I HI.
        apply elem_of_markSymbols in HI as (i & Sym1 & -> & Hi & HK).
        simpl. destruct (Forall2_lookup_r _ _ _ _ _ Hid Hi) as (Sym & HSym & HS1).
        exists Sym. split; [assumption|].
        unfold symbol_id in HS1. injection HS1 as _ HK1 _. congruence.
    + rewrite omit_from_filter
        by (intros i x Hx Hin;
            by apply (markSymbols_section_symbols (m :: ms) 0 i Symbols1)).
      by apply same_id_filter.
Qed.



End SymbolsLeft.

(** ** The writer: open subsections *)

Lemma store_length (Pos : nat) (Bs V V' : list Z) :
  store Pos Bs V = Done V' -> length V' = length V.
Proof. intros HS. by apply (store_drop Pos (Pos + length Bs) Bs V V'). Qed.

Lemma writeULEB128_length (Value : Z) (PadTo : nat) (W W' : SectionWriter) :
  writeULEB128 Value PadTo W = Done W' ->
  length (Buffer W') = Cursor W + 10 /\ Cursor W <= Cursor W'.
Proof.
  unfold writeULEB128. intros HW.
  apply bind_Done_inv in HW as (B2 & HS & HW). injection HW as <-. simpl.
  apply store_length in HS. rewrite HS, length_resize. lia.
Qed.

Lemma writeBytes_length (Bs : list Z) (W W' : SectionWriter) :
  writeBytes Bs W = Done W' ->
  length (Buffer W) <= length (Buffer W') /\ Cursor W <= Cursor W'.
Proof.
  unfold writeBytes. intros HW.
  destruct (decide _) as [Hc|]; [|discriminate]. injection HW as <-. simpl.
  rewrite !length_app, length_take, length_drop. lia.
Qed.

Lemma writer_ok_cursor (W : SectionWriter) : writer_ok W -> cursor_ok W.
Proof. by intros [? _]. Qed.

Lemma writer_ok_new : writer_ok SectionWriter_new.
Proof. split; [exact cursor_ok_new | constructor]. Qed.

Lemma emits_writeULEB128 (Value : Z) (PadTo : nat) :
  PadTo <= 10 -> emits (writeULEB128 Value PadTo) (encodeULEB128 Value PadTo).
Proof.
  intros HP W [HC HF].
  destruct (writeULEB128_writes Value PadTo HP W HC) as (W' & E & Wr & Ok & Ss).
  destruct (writeULEB128_length _ _ _ _ E) as [HL HCu].
  exists W'. repeat split; try assumption.
  rewrite Ss. eapply Forall_impl; [exact HF|]. simpl. intros Off [? ?]. lia.
Qed.

Lemma emits_writeBytes (Bs : list Z) : emits (writeBytes Bs) Bs.
Proof.
  intros W [HC HF].
  destruct (writeBytes_writes Bs W HC) as (W' & E & Wr & Ok & Ss).
  destruct (writeBytes_length _ _ _ E) as [HL HCu].
  exists W'. repeat split; try assumption.
  rewrite Ss. eapply Forall_impl; [exact HF|]. simpl. intros Off [? ?]. lia.
Qed.

Lemma emits_writeString (Str : string) : emits (writeString Str) (bytes Str).
Proof. apply emits_writeBytes. Qed.

Lemma emits_writeVaruint32 (Value : Z) :
  (0 <= Value <= 2147483647)%Z ->
  emits (writeVaruint32 Value) (encodeULEB128 Value 0).
Proof.
  intros HV W HW. unfold writeVaruint32. rewrite (wrap32_small _ HV).
  destruct (Z.leb_spec Value 2147483647); [|lia].
  apply emits_writeULEB128; [lia | assumption].
Qed.

Lemma emits_Done : emits Done [].
Proof. intros W HW. exists W. rewrite app_nil_r. auto. Qed.

Lemma emits_bind (m1 m2 : SectionWriter -> Outcome SectionWriter) (B1 B2 : list Z) :
  emits m1 B1 -> emits m2 B2 ->
  emits (fun W => W1 <- m1 W ;; m2 W1) (B1 ++ B2).
Proof.
  intros H1 H2 W HW.
  destruct (H1 W HW) as (W1 & E1 & Wr1 & Ok1 & S1).
  destruct (H2 W1 Ok1) as (W2 & E2 & Wr2 & Ok2 & S2).
  exists W2. rewrite E1. simpl. rewrite E2, Wr2, Wr1, app_assoc.
  split; [reflexivity|]. split; [reflexivity|]. split; [assumption | congruence].
Qed.

Lemma emits_foldM {A : Type} (body : A -> SectionWriter -> Outcome SectionWriter)
  (enc : A -> list Z) (P : A -> Prop) (xs : list A) :
  (forall x, P x -> emits (body x) (enc x)) ->
  Forall P xs ->
  emits (foldM body xs) (concat (map enc xs)).
Proof.
  intros Hb HP. induction HP as [|x xs Hx _ IH]; simpl.
  - apply emits_Done.
  - apply (emits_bind (body x) (foldM body xs)); [by apply Hb | apply IH].
Qed.

(** The same stepping as [step_write], for [emits]. *)
Ltac step_emit :=
  match goal with
  | HW : writer_ok ?W |- context [writeULEB128 ?v ?p ?W] =>
      let W1 := fresh "W" in
      let E := fresh "E" in
      destruct (emits_writeULEB128 v p ltac:(lia) W HW) as (W1 & E & ? & ? & ?);
      rewrite E; simpl bind; clear E
  | HW : writer_ok ?W |- context [writeString ?s ?W] =>
      let W1 := fresh "W" in
      let E := fresh "E" in
      destruct (emits_writeString s W HW) as (W1 & E & ? & ? & ?);
      rewrite E; simpl bind; clear E
  end.

Ltac close_emits :=
  eexists; split; [reflexivity|];
  split; [|split; [assumption | congruence]];
  repeat match goal with
         | H : written _ = _ |- _ => rewrite H; clear H
         end;
  rewrite <- ?app_assoc; try rewrite app_nil_r; reflexivity.

Lemma placeholder_bytes : placeholder = [128; 128; 128; 128; 0]%Z.
Proof. reflexivity. Qed.

(** [startSubsection]: the byte at the place of the tag, the placeholder, a
    new offset on the stack. *)
Lemma startSubsection_emits (K : Z) (W : SectionWriter) :
  writer_ok W ->
  exists W', startSubsection K W = Done W'
             /\ written W' = written W ++ [tag_byte K W] ++ placeholder
             /\ writer_ok W'
             /\ Subsections W' = (Cursor W + 1) :: Subsections W
             /\ Cursor W' = Cursor W + 6.
Proof.
  intros [HC HF]. unfold startSubsection.
  match goal with
  | |- context [writeULEB128 0 5 ?W2] => set (W2' := W2)
  end.
  assert (cursor_ok W2') as HC2
    by (unfold cursor_ok in *; simpl; rewrite length_app; simpl; lia).
  assert (written W2' = written W ++ [tag_byte K W]) as HW2.
  { unfold written, tag_byte. simpl. unfold cursor_ok in HC.
    destruct (Buffer W !! Cursor W) as [B|] eqn:EB.
    - rewrite take_app_le by (apply lookup_lt_Some in EB; lia).
      replace (Cursor W + 1) with (S (Cursor W)) by lia.
      by apply take_S_r.
    - apply lookup_ge_None in EB.
      rewrite take_ge by (rewrite length_app; simpl; lia).
      by rewrite take_ge by lia. }
  destruct (writeULEB128_writes 0 5 ltac:(lia) W2' HC2) as (W' & E & Wr & Ok & Ss).
  destruct (writeULEB128_length _ _ _ _ E) as [HL _].
  assert (Cursor W' = Cursor W + 6) as HCu.
  { apply (f_equal length) in Wr.
    rewrite length_app, !length_written in Wr by assumption.
    simpl in Wr. lia. }
  exists W'. split; [exact E|]. split; [|split; [|split]].
  - rewrite Wr, HW2, <- app_assoc. reflexivity.
  - split; [assumption|]. rewrite Ss. simpl. constructor.
    + simpl in HL. lia.
    + eapply Forall_impl; [exact HF|]. simpl in *. intros Off [? ?]. lia.
  - rewrite Ss. reflexivity.
  - exact HCu.
Qed.

(** [endSubsection] on a writer with an open subsection returns: the ten bytes
    behind the offset are there. *)
Lemma endSubsection_returns (W : SectionWriter) (Off : nat) (Rest : list nat) :
  writer_ok W -> Subsections W = Off :: Rest ->
  exists W', endSubsection W = Done (Cursor W - Off, W')
             /\ store Off (encodeULEB128 (Z.of_nat (Cursor W - Off)) 0) (Buffer W)
                = Done (Buffer W')
             /\ Cursor W' = Cursor W
             /\ Subsections W' = Rest
             /\ writer_ok W'.
Proof.
  intros [HC HF] HS. unfold endSubsection. rewrite HS. unfold insertULEB128.
  rewrite HS in HF. apply Forall_cons in HF as [[HO HL] HF].
  pose proof (encodeULEB128_length (Z.of_nat (Cursor W - Off)) 0) as HE.
  unfold store.
  destruct (decide _) as [HIn|HOut]; [|exfalso; apply HOut; lia].
  simpl. eexists. split; [reflexivity|]. simpl.
  assert (length (take Off (Buffer W)
                  ++ encodeULEB128 (Z.of_nat (Cursor W - Off)) 0
                  ++ drop (Off + length (encodeULEB128 (Z.of_nat (Cursor W - Off)) 0))
                          (Buffer W)) = length (Buffer W)) as HLen
    by (rewrite !length_app, length_take, length_drop; lia).
  repeat split; simpl.
  - unfold cursor_ok in *. simpl. rewrite HLen. assumption.
  - eapply Forall_impl; [exact HF|]. simpl. intros O [? ?]. rewrite HLen. lia.
Qed.

Lemma patch_prefix (P Ph Bs Rest Enc : list Z) :
  length Enc <= length Ph ->
  take (length P + length Ph + length Bs)
       (take (length P) ((P ++ Ph ++ Bs) ++ Rest)
        ++ Enc
        ++ drop (length P + length Enc) ((P ++ Ph ++ Bs) ++ Rest))
  = P ++ Enc ++ drop (length Enc) Ph ++ Bs.
Proof.
  intros HL. rewrite <- !app_assoc.
  rewrite take_app_length.
  rewrite drop_app_ge by lia.
  replace (length P + length Enc - length P) with (length Enc) by lia.
  rewrite drop_app_le by lia.
  rewrite !app_assoc. apply take_app_length'.
  rewrite !length_app, length_drop. lia.
Qed.

(** [endSubsection] behind a payload that fits: the length it returns and
    writes counts the placeholder as well as the payload, and the payload
    stays as it was written. *)
Lemma endSubsection_layout (W : SectionWriter) (Off : nat) (Rest : list nat)
  (P Bs : list Z) :
  writer_ok W -> Subsections W = Off :: Rest ->
  written W = P ++ placeholder ++ Bs -> length P = Off -> fits Bs ->
  exists W', endSubsection W = Done (5 + length Bs, W')
             /\ written W' = P ++ length_field (5 + length Bs) ++ Bs
             /\ writer_ok W'
             /\ Subsections W' = Rest.
Proof.
  intros HW HS Wr HP HF.
  destruct (endSubsection_returns W Off Rest HW HS) as (W' & E & HSt & HC & HSs & HOk).
  pose proof (length_written W (writer_ok_cursor W HW)) as HLen.
  rewrite Wr, !length_app in HLen. change (length placeholder) with 5 in HLen.
  assert (Cursor W - Off = 5 + length Bs) as HD by lia.
  rewrite HD in E, HSt.
  exists W'. split; [exact E|]. split; [|split; assumption].
  pose proof (encodeULEB128_short (Z.of_nat (5 + length Bs))
                ltac:(unfold fits in HF; lia)) as HShort.
  unfold store in HSt. destruct (decide _) as [_|]; [|discriminate].
  injection HSt as HB.
  change (S (S (S (S (S (length Bs)))))) with (5 + length Bs) in HB.
  unfold written. rewrite HC, <- HB.
  rewrite <- (take_drop (Cursor W) (Buffer W)).
  change (take (Cursor W) (Buffer W)) with (written W). rewrite Wr.
  replace (Cursor W) with (length P + length placeholder + length Bs) at 1
    by (change (length placeholder) with 5; lia).
  rewrite <- HP. unfold length_field.
  rewrite patch_prefix by (change (length placeholder) with 5; lia).
  by rewrite <- app_assoc.
Qed.

Lemma emits_writeSegment (Seg : WasmSegment) :
  emits (writeSegment Seg)
        (bytes (SegName (Data Seg))
         ++ encodeULEB128 (Alignment (Data Seg)) 0
         ++ encodeULEB128 (LinkingFlags (Data Seg)) 0).
Proof. intros W HW. unfold writeSegment. do 3 step_emit. close_emits. Qed.

Lemma emits_writeInitFunc (F : WasmInitFunc) :
  emits (writeInitFunc F)
        (encodeULEB128 (Priority F) 0 ++ encodeULEB128 (Symbol F) 0).
Proof. intros W HW. unfold writeInitFunc. do 2 step_emit. close_emits. Qed.

Lemma emits_writeComdat (C : string) :
  emits (writeComdat C)
        (bytes C ++ encodeULEB128 0 0
         ++ encodeULEB128 (Z.of_nat (String.length C)) 0).
Proof. intros W HW. unfold writeComdat. do 3 step_emit. close_emits. Qed.

Lemma emits_writeSegmentInfoPayload (Segs : list WasmSegment) :
  (Z.of_nat (length Segs) <= 2147483647)%Z ->
  emits (writeSegmentInfoPayload Segs) (SegmentInfo_payload_raw Segs).
Proof.
  intros HL. unfold writeSegmentInfoPayload, SegmentInfo_payload_raw.
  apply (emits_bind (writeVaruint32 (Z.of_nat (length Segs)))
                    (foldM writeSegment Segs)).
  - apply emits_writeVaruint32. lia.
  - apply (emits_foldM _ _ (fun _ => True)); [intros; apply emits_writeSegment|].
    apply Forall_forall. auto.
Qed.

Section EncoderMore.
Context {C : WasmConstants}.

Lemma emits_writeSymbol (Sym : WasmSymbol) :
  known_kind Sym -> emits (writeSymbol Sym) (symbol_record Sym).
Proof.
  intros HK W HW. unfold writeSymbol, symbol_record.
  do 2 step_emit.
  destruct ((Kind (Info Sym) =? WASM_SYMBOL_TYPE_FUNCTION)
            || (Kind (Info Sym) =? WASM_SYMBOL_TYPE_GLOBAL)
            || (Kind (Info Sym) =? WASM_SYMBOL_TYPE_TAG)
            || (Kind (Info Sym) =? WASM_SYMBOL_TYPE_TABLE))%Z eqn:EF.
  - step_emit.
    destruct ((Z.land (Flags (Info Sym)) WASM_SYMBOL_UNDEFINED =? 0)
              || negb (Z.land (Flags (Info Sym)) WASM_SYMBOL_EXPLICIT_NAME =? 0))%Z.
    + step_emit. close_emits.
    + close_emits.
  - destruct (Z.eqb_spec (Kind (Info Sym)) WASM_SYMBOL_TYPE_DATA) as [ED|ND].
    + step_emit.
      destruct (Z.land (Flags (Info Sym)) WASM_SYMBOL_UNDEFINED =? 0)%Z.
      * do 3 step_emit. close_emits.
      * close_emits.
    + destruct (Z.eqb_spec (Kind (Info Sym)) WASM_SYMBOL_TYPE_SECTION) as [ES|NS].
      * step_emit. close_emits.
      * exfalso. unfold known_kind in HK. rewrite !elem_of_cons in HK.
        destruct HK as [Hk|[Hk|[Hk|[Hk|[Hk|[Hk|Hk]]]]]];
          try (rewrite Hk, Z.eqb_refl, ?orb_true_r in EF; discriminate EF);
          try contradiction.
        by apply elem_of_nil in Hk.
Qed.

Lemma emits_writeSymbols (Syms : list WasmSymbol) :
  Forall known_kind Syms ->
  emits (foldM writeSymbol Syms) (concat (map symbol_record Syms)).
Proof. apply emits_foldM. apply emits_writeSymbol. Qed.

End EncoderMore.

(** ** The four subsections of [finalizeLinking] *)

(** One [if (!Xs.empty()) { startSubsection; ...; endSubsection }] block whose
    payload is written by [m1] and then [m2]. *)
Lemma block_layout {A : Type} (Xs : list A) (K : Z)
  (m1 m2 : SectionWriter -> Outcome SectionWriter) (B1 B2 : list Z)
  (W : SectionWriter) :
  writer_ok W -> emits m1 B1 -> emits m2 B2 -> fits (B1 ++ B2) ->
  exists W',
    match Xs with
    | [] => Done W
    | _ :: _ =>
        W1 <- startSubsection K W ;;
        W2 <- m1 W1 ;;
        W3 <- m2 W2 ;;
        r <- endSubsection W3 ;;
        Done (snd r)
    end = Done W'
    /\ written W' = written W ++ optional_subsection Xs (tag_byte K W) (B1 ++ B2)
    /\ writer_ok W'
    /\ Subsections W' = Subsections W.
Proof.
  intros HW H1 H2 HF. destruct Xs as [|x Xs]; simpl.
  - exists W. rewrite app_nil_r. auto.
  - destruct (startSubsection_emits K W HW) as (W1 & E1 & Wr1 & Ok1 & Ss1 & Cu1).
    rewrite E1. simpl bind.
    destruct (H1 W1 Ok1) as (W2 & E2 & Wr2 & Ok2 & Ss2). rewrite E2. simpl bind.
    destruct (H2 W2 Ok2) as (W3 & E3 & Wr3 & Ok3 & Ss3). rewrite E3. simpl bind.
    destruct (endSubsection_layout W3 (Cursor W + 1) (Subsections W)
                (written W ++ [tag_byte K W]) (B1 ++ B2))
      as (W4 & E4 & Wr4 & Ok4 & Ss4); try assumption.
    + congruence.
    + rewrite Wr3, Wr2, Wr1, <- !app_assoc. reflexivity.
    + rewrite length_app, (length_written W (writer_ok_cursor W HW)). simpl. lia.
    + rewrite E4. simpl. exists W4. split; [reflexivity|].
      split; [|split; assumption].
      rewrite Wr4. unfold subsection_bytes. by rewrite <- !app_assoc.
Qed.

(** The same block, without a bound on the payload: it returns. *)
Lemma block_returns {A : Type} (Xs : list A) (K : Z)
  (m1 m2 : SectionWriter -> Outcome SectionWriter) (B1 B2 : list Z)
  (W : SectionWriter) :
  writer_ok W -> emits m1 B1 -> emits m2 B2 ->
  exists W',
    match Xs with
    | [] => Done W
    | _ :: _ =>
        W1 <- startSubsection K W ;;
        W2 <- m1 W1 ;;
        W3 <- m2 W2 ;;
        r <- endSubsection W3 ;;
        Done (snd r)
    end = Done W'
    /\ writer_ok W'
    /\ Subsections W' = Subsections W.
Proof.
  intros HW H1 H2. destruct Xs as [|x Xs]; simpl.
  - exists W. auto.
  - destruct (startSubsection_emits K W HW) as (W1 & E1 & Wr1 & Ok1 & Ss1 & Cu1).
    rewrite E1. simpl bind.
    destruct (H1 W1 Ok1) as (W2 & E2 & Wr2 & Ok2 & Ss2). rewrite E2. simpl bind.
    destruct (H2 W2 Ok2) as (W3 & E3 & Wr3 & Ok3 & Ss3). rewrite E3. simpl bind.
    destruct (endSubsection_returns W3 (Cursor W + 1) (Subsections W) Ok3)
      as (W4 & E4 & _ & _ & Ss4 & Ok4); [congruence|].
    rewrite E4. simpl. eauto.
Qed.

(** Behind the version constant a zero byte lies at the cursor. *)
Lemma version_then_zero (Value : Z) :
  (0 <= Value <= 2147483647)%Z ->
  exists W, writeVaruint32 Value SectionWriter_new = Done W
            /\ written W = encodeULEB128 Value 0
            /\ writer_ok W
            /\ Subsections W = []
            /\ forall K, tag_byte K W = 0%Z.
Proof.
  intros HV.
  destruct (emits_writeVaruint32 Value HV SectionWriter_new writer_ok_new)
    as (W & E & Wr & Ok & Ss).
  exists W. split; [exact E|]. split; [exact Wr|]. split; [exact Ok|].
  split; [exact Ss|].
  intros K. unfold tag_byte.
  pose proof (encodeULEB128_short Value ltac:(lia)) as HShort.
  pose proof (length_written W (writer_ok_cursor W Ok)) as HL.
  rewrite Wr in HL. simpl in HL.
  unfold writeVaruint32 in E. rewrite (wrap32_small _ HV) in E.
  destruct (Z.leb_spec Value 2147483647); [|lia].
  unfold writeULEB128, store in E. simpl in E.
  destruct (decide _) as [_|]; [|discriminate]. simpl in E.
  injection E as <-. simpl in *.
  rewrite lookup_app_r by lia. rewrite Nat.sub_diag.
  set (n := length (encodeULEB128 Value 0)) in *.
  assert (n <= 5) as Hn by exact HShort. clearbody n.
  do 6 (destruct n as [|n]; [reflexivity|]). lia.
Qed.

Section Layout.
Context {C : WasmConstants}.

Lemma finalizeLinking_layout_aux (this : Object) :
  (0 <= WasmMetadataVersion <= 2147483647)%Z ->
  Forall known_kind (Symbols this) ->
  (Z.of_nat (length (elems (DataSegments this))) <= 2147483647)%Z ->
  fits (SymbolTable_payload (Symbols this)) ->
  fits (SegmentInfo_payload_raw (elems (DataSegments this))) ->
  fits (InitFunctions_payload (InitFunctions (LinkingData this))) ->
  fits (Comdats_payload (Comdats (LinkingData this))) ->
  exists T2 T3 T4,
    (Symbols this = [] -> T2 = 0%Z)
    /\ (Symbols this = [] -> elems (DataSegments this) = [] -> T3 = 0%Z)
    /\ (Symbols this = [] -> elems (DataSegments this) = [] ->
        InitFunctions (LinkingData this) = [] -> T4 = 0%Z)
    /\ finalizeLinking this
       = Done (encodeULEB128 WasmMetadataVersion 0
            ++ optional_subsection (Symbols this) 0
                 (SymbolTable_payload (Symbols this))
            ++ optional_subsection (elems (DataSegments this)) T2
                 (SegmentInfo_payload_raw (elems (DataSegments this)))
            ++ optional_subsection (InitFunctions (LinkingData this)) T3
                 (InitFunctions_payload (InitFunctions (LinkingData this)))
            ++ optional_subsection (Comdats (LinkingData this)) T4
                 (Comdats_payload (Comdats (LinkingData this))),
            this).
Proof.
  intros HV HK HN F1 F2 F3 F4.
  destruct (version_then_zero WasmMetadataVersion HV)
    as (W0 & E0 & Wr0 & Ok0 & Ss0 & T0).
  destruct (block_layout (Symbols this) WASM_SYMBOL_TABLE
              (writeULEB128 (Z.of_nat (length (Symbols this))) 0)
              (foldM writeSymbol (Symbols this)) _ _ W0 Ok0
              (emits_writeULEB128 _ 0 ltac:(lia))
              (emits_writeSymbols _ HK) F1)
    as (W1 & E1 & Wr1 & Ok1 & Ss1).
  destruct (block_layout (elems (DataSegments this)) WASM_SEGMENT_INFO
              (writeSegmentInfoPayload (elems (DataSegments this))) Done _ _ W1 Ok1
              (emits_writeSegmentInfoPayload _ HN) emits_Done
              ltac:(by rewrite app_nil_r))
    as (W2 & E2 & Wr2 & Ok2 & Ss2).
  assert (match elems (DataSegments this) with
          | [] => Done W1
          | _ :: _ =>
              Writer <- startSubsection WASM_SEGMENT_INFO W1 ;;
              Writer <- writeSegmentInfoPayload (elems (DataSegments this)) Writer ;;
              r <- endSubsection Writer ;;
              Done (snd r)
          end = Done W2) as E2'.
  { rewrite <- E2. destruct (elems (DataSegments this)); [reflexivity|].
    destruct (startSubsection WASM_SEGMENT_INFO W1); simpl; [|reflexivity].
    destruct (writeSegmentInfoPayload _ _); reflexivity. }
  rewrite app_nil_r in Wr2.
  destruct (block_layout (InitFunctions (LinkingData this)) WASM_INIT_FUNCS
              (writeULEB128 (Z.of_nat (length (InitFunctions (LinkingData this)))) 0)
              (foldM writeInitFunc (InitFunctions (LinkingData this))) _ _ W2 Ok2
              (emits_writeULEB128 _ 0 ltac:(lia))
              (emits_foldM _ _ (fun _ => True) _
                 (fun F _ => emits_writeInitFunc F)
                 ltac:(apply Forall_forall; auto)) F3)
    as (W3 & E3 & Wr3 & Ok3 & Ss3).
  destruct (block_layout (Comdats (LinkingData this)) WASM_COMDAT_INFO
              (writeULEB128 (Z.of_nat (length (Comdats (LinkingData this)))) 0)
              (foldM writeComdat (Comdats (LinkingData this))) _ _ W3 Ok3
              (emits_writeULEB128 _ 0 ltac:(lia))
              (emits_foldM _ _ (fun _ => True) _
                 (fun Cd _ => emits_writeComdat Cd)
                 ltac:(apply Forall_forall; auto)) F4)
    as (W4 & E4 & Wr4 & Ok4 & Ss4).
  exists (tag_byte WASM_SEGMENT_INFO W1), (tag_byte WASM_INIT_FUNCS W2),
         (tag_byte WASM_COMDAT_INFO W3).
  split; [|split; [|split]].
  - intros HS. rewrite HS in E1. injection E1 as <-. apply T0.
  - intros HS HD. rewrite HS in E1. injection E1 as <-.
    rewrite HD in E2'. injection E2' as <-. apply T0.
  - intros HS HD HI. rewrite HS in E1. injection E1 as <-.
    rewrite HD in E2'. injection E2' as <-.
    rewrite HI in E3. injection E3 as <-. apply T0.
  - unfold finalizeLinking. rewrite E0. simpl bind. rewrite E1. simpl bind.
    rewrite E2'. simpl bind. rewrite E3. simpl bind. rewrite E4. simpl bind.
    rewrite (finalize_written W4 (writer_ok_cursor W4 Ok4)) by congruence.
    simpl. rewrite Wr4, Wr3, Wr2, Wr1, Wr0, T0, <- !app_assoc. reflexivity.
Qed.

Lemma finalizeLinking_returns_aux (this : Object) :
  (0 <= WasmMetadataVersion <= 2147483647)%Z ->
  Forall known_kind (Symbols this) ->
  (Z.of_nat (length (elems (DataSegments this))) <= 2147483647)%Z ->
  exists Result, finalizeLinking this = Done (Result, this).
Proof.
  intros HV HK HN. unfold finalizeLinking.
  destruct (version_then_zero WasmMetadataVersion HV)
    as (W0 & E0 & Wr0 & Ok0 & Ss0 & T0).
  rewrite E0. simpl bind.
  destruct (block_returns (Symbols this) WASM_SYMBOL_TABLE
              (writeULEB128 (Z.of_nat (length (Symbols this))) 0)
              (foldM writeSymbol (Symbols this)) _ _ W0 Ok0
              (emits_writeULEB128 _ 0 ltac:(lia))
              (emits_writeSymbols _ HK))
    as (W1 & E1 & Ok1 & Ss1).
  rewrite E1. simpl bind.
  destruct (block_returns (elems (DataSegments this)) WASM_SEGMENT_INFO
              (writeSegmentInfoPayload (elems (DataSegments this))) Done _ _ W1 Ok1
              (emits_writeSegmentInfoPayload _ HN) emits_Done)
    as (W2 & E2 & Ok2 & Ss2).
  assert (match elems (DataSegments this) with
          | [] => Done W1
          | _ :: _ =>
              Writer <- startSubsection WASM_SEGMENT_INFO W1 ;;
              Writer <- writeSegmentInfoPayload (elems (DataSegments this)) Writer ;;
              r <- endSubsection Writer ;;
              Done (snd r)
          end = Done W2) as E2'.
  { rewrite <- E2. destruct (elems (DataSegments this)); [reflexivity|].
    destruct (startSubsection WASM_SEGMENT_INFO W1); simpl; [|reflexivity].
    destruct (writeSegmentInfoPayload _ _); reflexivity. }
  rewrite E2'. simpl bind.
  destruct (block_returns (InitFunctions (LinkingData this)) WASM_INIT_FUNCS
              (writeULEB128 (Z.of_nat (length (InitFunctions (LinkingData this)))) 0)
              (foldM writeInitFunc (InitFunctions (LinkingData this))) _ _ W2 Ok2
              (emits_writeULEB128 _ 0 ltac:(lia))
              (emits_foldM _ _ (fun _ => True) _
                 (fun F _ => emits_writeInitFunc F)
                 ltac:(apply Forall_forall; auto)))
    as (W3 & E3 & Ok3 & Ss3).
  rewrite E3. simpl bind.
  destruct (block_returns (Comdats (LinkingData this)) WASM_COMDAT_INFO
              (writeULEB128 (Z.of_nat (length (Comdats (LinkingData this)))) 0)
              (foldM writeComdat (Comdats (LinkingData this))) _ _ W3 Ok3
              (emits_writeULEB128 _ 0 ltac:(lia))
              (emits_foldM _ _ (fun _ => True) _
                 (fun Cd _ => emits_writeComdat Cd)
                 ltac:(apply Forall_forall; auto)))
    as (W4 & E4 & Ok4 & Ss4).
  rewrite E4. simpl bind.
  rewrite (finalize_written W4 (writer_ok_cursor W4 Ok4)) by congruence.
  simpl. eauto.
Qed.

End Layout.

(** ** The encoder: statements *)

(** X8.  [writeULEB128] puts the encoding of the value behind what was
    written and leaves the bytes in front of the cursor alone; afterwards the
    buffer ends ten bytes behind the place where the write began. *)
Theorem writeULEB128_appends (Value : Z) (PadTo : nat) (W : SectionWriter) :
  PadTo <= 10 ->
  cursor_ok W ->
  exists W',
    writeULEB128 Value PadTo W = Done W'
    /\ written W' = written W ++ encodeULEB128 Value PadTo
    /\ Cursor W' = Cursor W + length (encodeULEB128 Value PadTo)
    /\ length (Buffer W') = Cursor W + 10
    /\ Subsections W' = Subsections W.
Proof.
  intros HP HW.
  destruct (writeULEB128_writes Value PadTo HP W HW) as (W' & E & Wr & Ok & Ss).
  destruct (writeULEB128_length _ _ _ _ E) as [HL _].
  exists W'. repeat split; try assumption.
  apply (f_equal length) in Wr.
  by rewrite length_app, !length_written in Wr by assumption.
Qed.

(** X9.  One subsection, from [startSubsection] to [endSubsection], around a
    payload that fits: [endSubsection] returns the payload length plus five;
    the output gains the byte that lay at the cursor (the kind only when
    nothing lay behind the cursor), the length field and the payload; the
    stack of open subsections is as before. *)
Theorem subsection_layout (K : Z) (m : SectionWriter -> Outcome SectionWriter)
  (Bs : list Z) (W : SectionWriter) :
  writer_ok W ->
  emits m Bs ->
  fits Bs ->
  exists W',
    (W1 <- startSubsection K W ;; W2 <- m W1 ;; endSubsection W2)
    = Done (5 + length Bs, W')
    /\ written W' = written W ++ subsection_bytes (tag_byte K W) Bs
    /\ writer_ok W'
    /\ Subsections W' = Subsections W.
Proof.
  intros HW Hm HF.
  destruct (startSubsection_emits K W HW) as (W1 & E1 & Wr1 & Ok1 & Ss1 & Cu1).
  rewrite E1. simpl bind.
  destruct (Hm W1 Ok1) as (W2 & E2 & Wr2 & Ok2 & Ss2). rewrite E2. simpl bind.
  destruct (endSubsection_layout W2 (Cursor W + 1) (Subsections W)
              (written W ++ [tag_byte K W]) Bs)
    as (W3 & E3 & Wr3 & Ok3 & Ss3); try assumption.
  - congruence.
  - rewrite Wr2, Wr1, <- !app_assoc. reflexivity.
  - rewrite length_app, (length_written W (writer_ok_cursor W HW)). simpl. lia.
  - exists W3. split; [exact E3|]. split; [|split; assumption].
    rewrite Wr3. unfold subsection_bytes. by rewrite <- !app_assoc.
Qed.

Section EncoderStatements.
Context {C : WasmConstants}.

(** X10.  What [finalizeLinking] returns, for an object whose symbols have
    known kinds and whose payloads fit: the varint of the version, then the
    Symbol Table, Segment Info, Init Functions and Comdat subsections, each
    present exactly when its list is not empty, each as tag position, length
    field and payload.  The subsection that comes first has a zero byte at
    the place of its tag. *)
Theorem finalizeLinking_layout (this : Object) :
  (0 <= WasmMetadataVersion <= 2147483647)%Z ->
  Forall known_kind (Symbols this) ->
  (Z.of_nat (length (elems (DataSegments this))) <= 2147483647)%Z ->
  fits (SymbolTable_payload (Symbols this)) ->
  fits (SegmentInfo_payload_raw (elems (DataSegments this))) ->
  fits (InitFunctions_payload (InitFunctions (LinkingData this))) ->
  fits (Comdats_payload (Comdats (LinkingData this))) ->
  exists T2 T3 T4,
    (Symbols this = [] -> T2 = 0%Z)
    /\ (Symbols this = [] -> elems (DataSegments this) = [] -> T3 = 0%Z)
    /\ (Symbols this = [] -> elems (DataSegments this) = [] ->
        InitFunctions (LinkingData this) = [] -> T4 = 0%Z)
    /\ finalizeLinking this
       = Done (encodeULEB128 WasmMetadataVersion 0
               ++ optional_subsection (Symbols this) 0
                    (SymbolTable_payload (Symbols this))
               ++ optional_subsection (elems (DataSegments this)) T2
                    (SegmentInfo_payload_raw (elems (DataSegments this)))
               ++ optional_subsection (InitFunctions (LinkingData this)) T3
                    (InitFunctions_payload (InitFunctions (LinkingData this)))
               ++ optional_subsection (Comdats (LinkingData this)) T4
                    (Comdats_payload (Comdats (LinkingData this))),
               this).
Proof. apply finalizeLinking_layout_aux. Qed.

(** X11.  [finalizeLinking] returns on every object whose symbols have one of
    the six kinds (with the version constant and the number of data segments
    within the bound [writeVaruint32] asserts): no write leaves the buffer
    and every subsection that was opened is closed. *)
Theorem finalizeLinking_returns (this : Object) :
  (0 <= WasmMetadataVersion <= 2147483647)%Z ->
  Forall known_kind (Symbols this) ->
  (Z.of_nat (length (elems (DataSegments this))) <= 2147483647)%Z ->
  exists Result, finalizeLinking this = Done (Result, this).
Proof. apply finalizeLinking_returns_aux. Qed.

Lemma writeSymbol_unknown (Sym : WasmSymbol) (W : SectionWriter) :
  writer_ok W -> ~ known_kind Sym ->
  writeSymbol Sym W = Fault (Unreachable "unexpected kind").
Proof.
  intros HW HU. unfold writeSymbol. do 2 step_emit.
  unfold known_kind in HU. rewrite !elem_of_cons, elem_of_nil in HU.
  repeat match goal with
         | |- context [(?a =? ?b)%Z] => destruct (Z.eqb_spec a b)
         end; simpl; try reflexivity; exfalso; tauto.
Qed.

Lemma writeSymbols_unknown (Syms : list WasmSymbol) (W : SectionWriter) :
  writer_ok W -> Exists (fun Sym => ~ known_kind Sym) Syms ->
  foldM writeSymbol Syms W = Fault (Unreachable "unexpected kind").
Proof.
  intros HW HEx. revert W HW.
  induction HEx as [Sym Syms HU|Sym Syms _ IH]; intros W HW; simpl.
  - by rewrite (writeSymbol_unknown Sym W HW HU).
  - destruct (ltac:(unfold known_kind; apply _) : Decision (known_kind Sym))
      as [HKn|HU].
    + destruct (emits_writeSymbol Sym HKn W HW) as (W' & -> & _ & Ok & _).
      simpl. by apply IH.
    + by rewrite (writeSymbol_unknown Sym W HW HU).
Qed.

(** X12.  A symbol whose kind is none of the six makes [finalizeLinking] stop
    at the [llvm_unreachable] of its [switch]; nothing is returned. *)
Theorem finalizeLinking_unexpected_kind (this : Object) :
  (0 <= WasmMetadataVersion <= 2147483647)%Z ->
  Exists (fun Sym => ~ known_kind Sym) (Symbols this) ->
  finalizeLinking this = Fault (Unreachable "unexpected kind").
Proof.
  intros HV HEx. unfold finalizeLinking.
  destruct (version_then_zero WasmMetadataVersion HV)
    as (W0 & E0 & Wr0 & Ok0 & Ss0 & T0).
  rewrite E0. cbn [bind].
  destruct (Symbols this) as [|Sym Syms] eqn:ES; [by apply Exists_nil in HEx|].
  destruct (startSubsection_emits WASM_SYMBOL_TABLE W0 Ok0)
    as (W1 & E1 & _ & Ok1 & _).
  rewrite E1. cbn [bind].
  destruct (emits_writeULEB128 (Z.of_nat (length (Sym :: Syms))) 0 ltac:(lia) W1 Ok1)
    as (W2 & E2 & _ & Ok2 & _).
  rewrite E2. cbn [bind].
  by rewrite (writeSymbols_unknown (Sym :: Syms) W2 Ok2 HEx).
Qed.

(** X13.  For a Function, Global, Tag or Table symbol the encoder writes the
    kind, the flags and the element index, and then the name exactly when
    the symbol is not flagged undefined or is flagged with an explicit
    name. *)
Theorem writeSymbol_indexed (Sym : WasmSymbol) (W : SectionWriter) :
  Kind (Info Sym) ∈ [WASM_SYMBOL_TYPE_FUNCTION; WASM_SYMBOL_TYPE_GLOBAL;
                     WASM_SYMBOL_TYPE_TAG; WASM_SYMBOL_TYPE_TABLE] ->
  cursor_ok W ->
  exists W',
    writeSymbol Sym W = Done W'
    /\ written W'
       = written W
         ++ encodeULEB128 (Kind (Info Sym)) 0
         ++ encodeULEB128 (Flags (Info Sym)) 0
         ++ encodeULEB128 (ElementIndex (Info Sym)) 0
         ++ (if ((Z.land (Flags (Info Sym)) WASM_SYMBOL_UNDEFINED =? 0)
                 || negb (Z.land (Flags (Info Sym)) WASM_SYMBOL_EXPLICIT_NAME =? 0))%Z
             then bytes (SymName (Info Sym)) else []).
Proof.
  intros HK HW.
  assert (((Kind (Info Sym) =? WASM_SYMBOL_TYPE_FUNCTION)
           || (Kind (Info Sym) =? WASM_SYMBOL_TYPE_GLOBAL)
           || (Kind (Info Sym) =? WASM_SYMBOL_TYPE_TAG)
           || (Kind (Info Sym) =? WASM_SYMBOL_TYPE_TABLE))%Z = true) as EF.
  { rewrite !elem_of_cons, elem_of_nil in HK.
    destruct HK as [Hk|[Hk|[Hk|[Hk|[]]]]]; rewrite Hk, Z.eqb_refl, ?orb_true_r;
      reflexivity. }
  unfold writeSymbol. rewrite EF. do 3 step_write.
  destruct ((Z.land (Flags (Info Sym)) WASM_SYMBOL_UNDEFINED =? 0)
            || negb (Z.land (Flags (Info Sym)) WASM_SYMBOL_EXPLICIT_NAME =? 0))%Z.
  - step_write. eexists. split; [reflexivity|].
    repeat match goal with
           | H : written _ = _ |- _ => rewrite H; clear H
           end.
    by rewrite <- !app_assoc.
  - eexists. split; [reflexivity|].
    repeat match goal with
           | H : written _ = _ |- _ => rewrite H; clear H
           end.
    by rewrite <- !app_assoc, app_nil_r.
Qed.

(** X14.  For a Section symbol the encoder writes the kind, the flags and the
    element index, and no name. *)
Theorem writeSymbol_Section (Sym : WasmSymbol) (W : SectionWriter) :
  kinds_distinct ->
  Kind (Info Sym) = WASM_SYMBOL_TYPE_SECTION ->
  cursor_ok W ->
  exists W',
    writeSymbol Sym W = Done W'
    /\ written W'
       = written W
         ++ encodeULEB128 (Kind (Info Sym)) 0
         ++ encodeULEB128 (Flags (Info Sym)) 0
         ++ encodeULEB128 (ElementIndex (Info Sym)) 0.
Proof.
  intros HK HS HW. destruct (kinds_distinct_Section HK) as [HF HD].
  unfold writeSymbol. rewrite HS, HF, HD, Z.eqb_refl.
  do 3 step_write. eexists. split; [reflexivity|].
  repeat match goal with
         | H : written _ = _ |- _ => rewrite H; clear H
         end.
  by rewrite <- !app_assoc.
Qed.

(** X15.  The bytes [finalizeLinking] returns are the same whatever the
    [DataRef] of an undefined Data symbol holds. *)
Theorem finalizeLinking_undefined_DataRef (this : Object) (I : nat)
  (Sym : WasmSymbol) (D : WasmDataReference) :
  kinds_distinct ->
  Symbols this !! I = Some Sym ->
  Kind (Info Sym) = WASM_SYMBOL_TYPE_DATA ->
  (Z.land (Flags (Info Sym)) WASM_SYMBOL_UNDEFINED =? 0)%Z = false ->
  result_bytes
    (finalizeLinking (set_Symbols (<[I := set_DataRef D Sym]> (Symbols this)) this))
  = result_bytes (finalizeLinking this).
Proof. apply finalizeLinking_ignores_undefined_DataRef. Qed.

End EncoderStatements.

(** ** The reader: what [create] builds *)

Lemma decodeULEB128_from_range (p : list Z) (Value Shift : Z) (r : Z) :
  decodeULEB128_from p Value Shift = inr r -> (0 <= r < 2 ^ 64)%Z.
Proof.
  revert Value Shift. induction p as [|b p IH]; intros Value Shift HD; simpl in HD.
  - discriminate.
  - destruct (_ && _)%bool; [discriminate|].
    destruct (b >=? 128)%Z.
    + by apply IH in HD.
    + injection HD as <-. unfold wrap64. apply Z.mod_pos_bound. lia.
Qed.

Lemma readVaruint32_range (Content : list Z) (Value : Z) :
  readVaruint32 Content = Done Value -> (0 <= Value <= 4294967295)%Z.
Proof.
  unfold readVaruint32, readULEB128, decodeULEB128. intros HR.
  destruct (decodeULEB128_from Content 0 0) as [Err|r] eqn:ED; [discriminate|].
  simpl in HR. apply decodeULEB128_from_range in ED.
  destruct (Z.gtb_spec r 4294967295); [discriminate|].
  injection HR as <-. lia.
Qed.

Lemma forget_reloc_alter (R I : nat) (Sections : list ObjSection) :
  forget_reloc <$> alter (set_RelocationSectionIdx R) I Sections
  = forget_reloc <$> Sections.
Proof.
  revert I. induction Sections as [|Sec rest IH]; intros I; [reflexivity|].
  destruct I as [|I]; simpl; [reflexivity|]. f_equal. apply IH.
Qed.

Section ReaderMore.
Context {C : WasmConstants}.

(** What one round of the section loop does, read off [readSection]. *)
Lemma readSection_inv (WasmObj : WasmObjectFile) (WS : WasmSection)
  (Obj Obj' : Object) :
  readSection WasmObj WS Obj = Done Obj' ->
  (WS_Type WS <= WASM_SEC_LAST_KNOWN)%Z
  /\ Header Obj' = Header Obj
  /\ Symbols Obj' = Symbols Obj
  /\ LinkingData Obj'
     = (if is_linking WS then linkingData WasmObj else LinkingData Obj)
  /\ LinkingSection Obj'
     = (if is_linking WS then Some (length (OpaqueSections Obj))
        else LinkingSection Obj)
  /\ exists Sections1,
       OpaqueSections Obj' = Sections1 ++ [reader_section WS]
       /\ length Sections1 = length (OpaqueSections Obj)
       /\ if is_reloc WS
          then exists Idx,
                 readVaruint32 (WS_Content WS) = Done Idx
                 /\ (0 <= Idx < Z.of_nat (length (OpaqueSections Obj)))%Z
                 /\ Sections1
                    = alter (set_RelocationSectionIdx
                               (Z.to_nat (wrap32 (Z.of_nat
                                                    (length (OpaqueSections Obj))))))
                            (Z.to_nat Idx) (OpaqueSections Obj)
          else Sections1 = OpaqueSections Obj.
Proof.
  unfold readSection. intros HR.
  destruct (Z.gtb_spec (WS_Type WS) WASM_SEC_LAST_KNOWN) as [|HT]; [discriminate|].
  apply bind_Done_inv in HR as (Sections1 & H1 & HR).
  fold (is_reloc WS) in H1.
  assert (length Sections1 = length (OpaqueSections Obj)
          /\ if is_reloc WS
             then exists Idx,
                    readVaruint32 (WS_Content WS) = Done Idx
                    /\ (0 <= Idx < Z.of_nat (length (OpaqueSections Obj)))%Z
                    /\ Sections1
                       = alter (set_RelocationSectionIdx
                                  (Z.to_nat (wrap32 (Z.of_nat
                                                       (length (OpaqueSections Obj))))))
                               (Z.to_nat Idx) (OpaqueSections Obj)
             else Sections1 = OpaqueSections Obj) as [HL1 HS1].
  { destruct (is_reloc WS).
    - apply bind_Done_inv in H1 as (Idx & HIdx & H1). cbv beta in H1.
      destruct (Z.geb_spec Idx (Z.of_nat (length (OpaqueSections Obj))));
        [discriminate|].
      injection H1 as <-. split; [apply length_alter|].
      exists Idx. pose proof (readVaruint32_range _ _ HIdx).
      repeat split; try assumption; lia.
    - injection H1 as <-. auto. }
  injection HR as <-. simpl. fold (is_linking WS). rewrite HL1.
  split; [lia|]. do 4 (split; [reflexivity|]).
  exists Sections1. split; [|auto].
  unfold reader_section. by destruct (negb _).
Qed.

(** Induction over the section loop: a property that holds before the loop
    and is kept by every round holds at the end, when the loop has come
    through. *)
Lemma readSections_ind (WasmObj : WasmObjectFile) (Inv : nat -> Object -> Prop) :
  (forall K WS Obj Obj',
      sections WasmObj !! K = Some WS ->
      length (OpaqueSections Obj) = K ->
      Inv K Obj ->
      readSection WasmObj WS Obj = Done Obj' ->
      Inv (S K) Obj') ->
  forall Obj0 Obj',
    OpaqueSections Obj0 = [] ->
    Inv 0 Obj0 ->
    foldM (readSection WasmObj) (sections WasmObj) Obj0 = Done Obj' ->
    Inv (length (sections WasmObj)) Obj'
    /\ length (OpaqueSections Obj') = length (sections WasmObj).
Proof.
  intros Hstep Obj0 Obj' H0 HI0 HF.
  assert (forall todo done Obj,
    sections WasmObj = done ++ todo ->
    length (OpaqueSections Obj) = length done ->
    Inv (length done) Obj ->
    foldM (readSection WasmObj) todo Obj = Done Obj' ->
    Inv (length (sections WasmObj)) Obj'
    /\ length (OpaqueSections Obj') = length (sections WasmObj)) as Hgen.
  { induction todo as [|WS todo IH]; intros done Obj HS HL HI HFo; simpl in HFo.
    - injection HFo as <-. rewrite app_nil_r in HS. rewrite HS. auto.
    - apply bind_Done_inv in HFo as (Obj1 & H1 & H2).
      apply (IH (done ++ [WS]) Obj1).
      + rewrite <- app_assoc. exact HS.
      + destruct (readSection_inv _ _ _ _ H1)
          as (_ & _ & _ & _ & _ & S1 & -> & HL1 & _).
        rewrite !length_app, HL1, HL. reflexivity.
      + rewrite length_app. simpl. rewrite Nat.add_1_r.
        apply (Hstep (length done) WS Obj); try assumption.
        rewrite HS. by rewrite lookup_app_r, Nat.sub_diag by lia.
      + exact H2. }
  apply (Hgen (sections WasmObj) [] Obj0); try assumption.
  - reflexivity.
  - by rewrite H0.
Qed.

Lemma create_inv (WasmObj : WasmObjectFile) (Obj : Object) :
  create WasmObj = Done Obj ->
  exists Obj1,
    foldM (readSection WasmObj) (sections WasmObj) (reader_start WasmObj) = Done Obj1
    /\ Header Obj = Header Obj1
    /\ Symbols Obj = Symbols Obj1
    /\ OpaqueSections Obj = OpaqueSections Obj1
    /\ LinkingData Obj = LinkingData Obj1
    /\ LinkingSection Obj = LinkingSection Obj1.
Proof.
  unfold create. intros HC.
  apply bind_Done_inv in HC as (Obj1 & HF & HC).
  apply bind_Done_inv in HC as (Copied & _ & HC).
  injection HC as <-. exists Obj1. split; [exact HF|]. simpl. auto.
Qed.

(** Induction over [create]: a property of the object under construction that
    holds when the section loop begins and is kept by every round holds for
    what [create] returns. *)
Lemma create_ind (WasmObj : WasmObjectFile) (Inv : nat -> Object -> Prop) :
  (forall K WS Obj Obj',
      sections WasmObj !! K = Some WS ->
      length (OpaqueSections Obj) = K ->
      Inv K Obj ->
      readSection WasmObj WS Obj = Done Obj' ->
      Inv (S K) Obj') ->
  Inv 0 (reader_start WasmObj) ->
  forall Obj,
    create WasmObj = Done Obj ->
    exists Obj1,
      Inv (length (sections WasmObj)) Obj1
      /\ length (OpaqueSections Obj1) = length (sections WasmObj)
      /\ Header Obj = Header Obj1
      /\ Symbols Obj = Symbols Obj1
      /\ OpaqueSections Obj = OpaqueSections Obj1
      /\ LinkingData Obj = LinkingData Obj1
      /\ LinkingSection Obj = LinkingSection Obj1.
Proof.
  intros Hstep H0 Obj HC.
  destruct (create_inv _ _ HC) as (Obj1 & HF & HFields).
  destruct (readSections_ind WasmObj Inv Hstep (reader_start WasmObj) Obj1
              eq_refl H0 HF) as [HI HL].
  exists Obj1. auto.
Qed.

(** X16.  When [create] returns, the object has the header and the symbols of
    the module, and one section for each section of the module, in the same
    order: same type, size-field width and content; the name of the module's
    section when its type is custom, the canonical name of the type
    otherwise. *)
Theorem create_copies (WasmObj : WasmObjectFile) (Obj : Object) :
  create WasmObj = Done Obj ->
  Header Obj = getHeader WasmObj
  /\ Symbols Obj = symbols WasmObj
  /\ forget_reloc <$> OpaqueSections Obj = reader_section <$> sections WasmObj.
Proof.
  intros HC.
  destruct (create_ind WasmObj
              (fun K O => Header O = getHeader WasmObj
                          /\ Symbols O = symbols WasmObj
                          /\ forget_reloc <$> OpaqueSections O
                             = reader_section <$> take K (sections WasmObj)))
    with (Obj := Obj) as (Obj1 & (HH & HS & HSec) & HL & -> & -> & -> & _);
    [ | | assumption | ].
  - intros K WS O O' HK HLen (HH & HS & HSec) HR.
    destruct (readSection_inv _ _ _ _ HR)
      as (_ & -> & -> & _ & _ & S1 & -> & HL1 & HS1).
    split; [assumption|]. split; [assumption|].
    rewrite (take_S_r _ _ _ HK), !fmap_app, <- HSec. f_equal.
    destruct (is_reloc WS).
    + destruct HS1 as (Idx & _ & _ & ->). apply forget_reloc_alter.
    + by rewrite HS1.
  - by rewrite take_0.
  - by rewrite firstn_all in HSec.
Qed.

(** X17.  [create] returns only when every section of the module has a type up
    to the last known one and every relocation section, a custom section
    whose name begins with "reloc.", starts with a varint of at most 32 bits
    that is smaller than the position of that section. *)
Theorem create_accepts (WasmObj : WasmObjectFile) (Obj : Object) :
  create WasmObj = Done Obj ->
  forall J WS,
    sections WasmObj !! J = Some WS ->
    (WS_Type WS <= WASM_SEC_LAST_KNOWN)%Z
    /\ (is_reloc WS = true ->
        exists Idx, readVaruint32 (WS_Content WS) = Done Idx
                    /\ (0 <= Idx < Z.of_nat J)%Z).
Proof.
  intros HC.
  destruct (create_ind WasmObj
              (fun K O => forall J WS,
                   J < K -> sections WasmObj !! J = Some WS ->
                   (WS_Type WS <= WASM_SEC_LAST_KNOWN)%Z
                   /\ (is_reloc WS = true ->
                       exists Idx, readVaruint32 (WS_Content WS) = Done Idx
                                   /\ (0 <= Idx < Z.of_nat J)%Z)))
    with (Obj := Obj) as (Obj1 & HI & _); [ | | assumption | ].
  - intros K WS O O' HK HLen HI HR J WS' HJ HJ'.
    destruct (decide (J < K)) as [Hlt|Hge]; [by apply HI|].
    assert (J = K) as -> by lia. rewrite HK in HJ'. injection HJ' as <-.
    destruct (readSection_inv _ _ _ _ HR)
      as (HT & _ & _ & _ & _ & S1 & _ & _ & HS1).
    split; [assumption|]. intros HRel. rewrite HRel in HS1.
    destruct HS1 as (Idx & HIdx & HB & _). exists Idx. split; [assumption|]. lia.
  - intros; lia.
  - intros J WS HJ. apply HI; [|assumption]. by apply lookup_lt_Some in HJ.
Qed.

End ReaderMore.

Section ReaderLinks.
Context {C : WasmConstants}.

Lemma linked_extend (WasmObj : WasmObjectFile) (K I : nat) (Link : option nat) :
  linked_as_read WasmObj K I Link -> ~ targets WasmObj K I ->
  linked_as_read WasmObj (S K) I Link.
Proof.
  destruct Link as [R|]; simpl.
  - intros (HR & HT & HN) HK. split; [lia|]. split; [assumption|].
    intros R' HR'. destruct (decide (R' = K)) as [->|]; [assumption|].
    apply HN. lia.
  - intros HN HK R' HR'. destruct (decide (R' = K)) as [->|]; [assumption|].
    apply HN. lia.
Qed.

Lemma create_links_aux (WasmObj : WasmObjectFile) (Obj : Object) :
  create WasmObj = Done Obj ->
  (Z.of_nat (length (sections WasmObj)) < 2 ^ 32)%Z ->
  forall I Sec,
    OpaqueSections Obj !! I = Some Sec ->
    linked_as_read WasmObj (length (sections WasmObj)) I (RelocationSectionIdx Sec)
    /\ forall R, RelocationSectionIdx Sec = Some R -> I < R.
Proof.
  intros HC HLen.
  destruct (create_ind WasmObj
              (fun K O =>
                 (forall I Sec, OpaqueSections O !! I = Some Sec ->
                                linked_as_read WasmObj K I (RelocationSectionIdx Sec))
                 /\ (forall J WS, J < K -> sections WasmObj !! J = Some WS ->
                                  is_reloc WS = true ->
                                  exists Idx,
                                    readVaruint32 (WS_Content WS) = Done Idx
                                    /\ (0 <= Idx < Z.of_nat J)%Z)))
    with (Obj := Obj) as (Obj1 & (HI1 & HI2) & _ & _ & _ & -> & _);
    [ | | assumption | ].
  - intros K WS O O' HK HL (HI1 & HI2) HR.
    destruct (readSection_inv _ _ _ _ HR)
      as (_ & _ & _ & _ & _ & S1 & -> & HL1 & HS1).
    rewrite HL in HS1, HL1.
    assert (forall J WS', J < S K -> sections WasmObj !! J = Some WS' ->
                          is_reloc WS' = true ->
                          exists Idx, readVaruint32 (WS_Content WS') = Done Idx
                                      /\ (0 <= Idx < Z.of_nat J)%Z) as HI2'.
    { intros J WS' HJ HJ' HRel.
      destruct (decide (J < K)) as [Hlt|Hge]; [by apply (HI2 J WS')|].
      assert (J = K) as -> by lia. rewrite HK in HJ'. injection HJ' as <-.
      rewrite HRel in HS1. destruct HS1 as (Idx & HIdx & HB & _).
      exists Idx. split; [assumption | lia]. }
    split; [|exact HI2'].
    assert (forall R, R < S K -> ~ targets WasmObj R K) as HNew.
    { intros R HR' (WS' & HW & HRel & HV).
      destruct (HI2' R WS' HR' HW HRel) as (Idx & HIdx & HB).
      rewrite HV in HIdx. injection HIdx as <-. lia. }
    assert (K < length (sections WasmObj)) as HKL by (by apply lookup_lt_Some in HK).
    intros I Sec HSec.
    destruct (decide (I < K)) as [Hlt|Hge].
    + rewrite lookup_app_l in HSec by lia.
      destruct (is_reloc WS) eqn:ERel.
      * destruct HS1 as (Idx & HIdx & HB & ->).
        destruct (decide (Z.to_nat Idx = I)) as [<-|Hne].
        -- rewrite list_lookup_alter_eq in HSec.
           destruct (OpaqueSections O !! Z.to_nat Idx); [|discriminate].
           injection HSec as <-. simpl.
           assert (Z.to_nat (wrap32 (Z.of_nat K)) = K) as ->.
           { unfold wrap32. rewrite Z.mod_small by lia. lia. }
           split; [lia|]. split; [|intros; lia].
           exists WS. rewrite Z2Nat.id by lia. auto.
        -- rewrite list_lookup_alter_ne in HSec by assumption.
           apply linked_extend; [by apply HI1|].
           intros (WS' & HW & _ & HV). rewrite HK in HW. injection HW as <-.
           rewrite HV in HIdx. injection HIdx as <-. lia.
      * subst S1. apply linked_extend; [by apply HI1|].
        intros (WS' & HW & HRel & _). rewrite HK in HW. injection HW as <-.
        congruence.
    + pose proof (lookup_lt_Some _ _ _ HSec) as HLt.
      rewrite length_app in HLt. simpl in HLt.
      assert (I = K) as -> by lia.
      rewrite lookup_app_r, HL1, Nat.sub_diag in HSec by lia.
      injection HSec as <-. simpl. exact HNew.
  - split; [intros I Sec HSec; discriminate | intros; lia].
  - intros I Sec HSec. split; [by apply HI1|].
    intros R HR. specialize (HI1 I Sec HSec). rewrite HR in HI1.
    destruct HI1 as (HRK & (WS & HW & HRel & HV) & _).
    destruct (HI2 R WS HRK HW HRel) as (Idx & HIdx & HB).
    rewrite HV in HIdx. injection HIdx as <-. lia.
Qed.

(** X18.  When [create] returns (a module of fewer than 2^32 sections), the
    relocation link of every section is the position of the last relocation
    section of the module whose leading varint is the position of that
    section, and there is no link when no relocation section names it.  A
    link always points behind the section that carries it. *)
Theorem create_links (WasmObj : WasmObjectFile) (Obj : Object) :
  create WasmObj = Done Obj ->
  (Z.of_nat (length (sections WasmObj)) < 2 ^ 32)%Z ->
  forall I Sec,
    OpaqueSections Obj !! I = Some Sec ->
    linked_as_read WasmObj (length (sections WasmObj)) I (RelocationSectionIdx Sec)
    /\ forall R, RelocationSectionIdx Sec = Some R -> I < R.
Proof. apply create_links_aux. Qed.

(** X19.  When [create] returns, [LinkingSection] is the position of the last
    custom section named "linking" and [LinkingData] is the module's linking
    data; a module without such a section leaves [LinkingSection] unset and
    [LinkingData] empty, whatever linking data the module carries. *)
Theorem create_linking (WasmObj : WasmObjectFile) (Obj : Object) :
  create WasmObj = Done Obj ->
  linking_as_read WasmObj (length (sections WasmObj))
                  (LinkingSection Obj) (LinkingData Obj).
Proof.
  intros HC.
  destruct (create_ind WasmObj
              (fun K O => linking_as_read WasmObj K (LinkingSection O) (LinkingData O)))
    with (Obj := Obj) as (Obj1 & HI & _ & _ & _ & _ & -> & ->);
    [ | | assumption | assumption ].
  - intros K WS O O' HK HL HI HR.
    destruct (readSection_inv _ _ _ _ HR) as (_ & _ & _ & -> & -> & _).
    rewrite HL. destruct (is_linking WS) eqn:ELink; simpl.
    + split; [lia|]. split; [eauto|]. split; [intros; lia | reflexivity].
    + unfold linking_as_read in *.
      destruct (LinkingSection O) as [L|].
      * destruct HI as (HLK & HEx & HN & HD). split; [lia|]. split; [assumption|].
        split; [|assumption]. intros J WS' HJ HJ'.
        destruct (decide (J = K)) as [->|]; [congruence|]. apply (HN J); [lia|assumption].
      * destruct HI as (HN & HD). split; [|assumption]. intros J WS' HJ HJ'.
        destruct (decide (J = K)) as [->|]; [congruence|]. apply (HN J); [lia|assumption].
  - simpl. split; [intros; lia | reflexivity].
Qed.

Lemma create_Symbols (WasmObj : WasmObjectFile) (Obj : Object) :
  create WasmObj = Done Obj -> Symbols Obj = symbols WasmObj.
Proof.
  intros HC.
  destruct (create_ind WasmObj (fun K O => Symbols O = symbols WasmObj))
    with (Obj := Obj) as (Obj1 & HI & _ & _ & -> & _);
    [ | | assumption | assumption ].
  - intros K WS O O' HK HL HI HR.
    destruct (readSection_inv _ _ _ _ HR) as (_ & _ & -> & _). assumption.
  - reflexivity.
Qed.

(** X20.  An object that [create] has built from a module whose symbols have
    one of the six kinds has the relocation links [removeSections] needs:
    with any predicate under which no symbol makes the first loop read
    [*Upper] at [MarkedSections.end()], the call returns, and the object it
    returns is the same for every word behind the marked indices. *)
Theorem create_then_removeSections (WasmObj : WasmObjectFile) (Obj : Object)
  (ToRemove : ObjSection -> bool) :
  create WasmObj = Done Obj ->
  Forall known_kind (symbols WasmObj) ->
  Forall (fun Sym =>
            reads_past_end (MarkedSections ToRemove (OpaqueSections Obj)) Sym = false)
         (symbols WasmObj) ->
  exists Obj', forall PastEnd, removeSections ToRemove PastEnd Obj = Done Obj'.
Proof.
  intros HC HK HN.
  destruct (removeSections_returns ToRemove 0 Obj) as [Obj' HD].
  - by apply (create_relocs_in_range WasmObj).
  - by rewrite (create_Symbols _ _ HC).
  - exists Obj'. intros PastEnd.
    rewrite (removeSections_inside ToRemove PastEnd 0 Obj); [assumption|].
    by rewrite (create_Symbols _ _ HC).
Qed.

(** X21.  Reading a module and encoding the object that was read: the bytes
    hold the symbol table of the module's symbols, the init functions and the
    comdats of the object's linking data, and never a Segment Info
    subsection, whatever data segments the module has. *)
Theorem create_then_finalizeLinking (WasmObj : WasmObjectFile) (Obj : Object) :
  create WasmObj = Done Obj ->
  (0 <= WasmMetadataVersion <= 2147483647)%Z ->
  Forall known_kind (symbols WasmObj) ->
  fits (SymbolTable_payload (symbols WasmObj)) ->
  fits (InitFunctions_payload (InitFunctions (LinkingData Obj))) ->
  fits (Comdats_payload (Comdats (LinkingData Obj))) ->
  exists T3 T4,
    finalizeLinking Obj
    = Done (encodeULEB128 WasmMetadataVersion 0
            ++ optional_subsection (symbols WasmObj) 0
                 (SymbolTable_payload (symbols WasmObj))
            ++ optional_subsection (InitFunctions (LinkingData Obj)) T3
                 (InitFunctions_payload (InitFunctions (LinkingData Obj)))
            ++ optional_subsection (Comdats (LinkingData Obj)) T4
                 (Comdats_payload (Comdats (LinkingData Obj))),
            Obj).
Proof.
  intros HC HV HK F1 F3 F4.
  destruct (create_DataSegments _ _ HC) as [HE _].
  pose proof (create_Symbols _ _ HC) as HS.
  destruct (finalizeLinking_layout_aux Obj HV) as (T2 & T3 & T4 & _ & _ & _ & HF).
  - by rewrite HS.
  - rewrite HE. simpl. lia.
  - by rewrite HS.
  - rewrite HE. unfold fits. vm_compute. reflexivity.
  - assumption.
  - assumption.
  - exists T3, T4. rewrite HF, HS, HE. reflexivity.
Qed.

End ReaderLinks.

(** ** Reading back what the writer encodes *)

Lemma seven_bits (y : Z) :
  (0 <= y < 128)%Z ->
  Z.land y 127 = y /\ Z.land (Z.lor y 128) 127 = y
  /\ (y >=? 128)%Z = false /\ (Z.lor y 128 >=? 128)%Z = true.
Proof.
  intros Hy. destruct y as [|p|p]; [repeat split; reflexivity | | lia].
  do 7 (try destruct p as [p|p|]); try lia; repeat split; reflexivity.
Qed.

Lemma decode_uleb_digits (fuel : nat) :
  forall (Value : Z) (Count : nat) (Acc Shift : Z) (Rest : list Z),
    (0 <= Value < 2 ^ (7 * Z.of_nat (S fuel)))%Z ->
    (0 <= Shift)%Z -> (Shift + 7 * Z.of_nat (S fuel) <= 63)%Z ->
    (0 <= Acc < 2 ^ Shift)%Z ->
    decodeULEB128_from (fst (uleb_digits fuel Value Count 0) ++ Rest) Acc Shift
    = inr (Acc + Value * 2 ^ Shift)%Z.
Proof.
  induction fuel as [|fuel IH]; intros Value Count Acc Shift Rest HV HS HB HA.
  - assert (Value < 128)%Z as HV' by (simpl in HV; lia).
    assert (Z.shiftr Value 7 = 0%Z) as H0
      by (rewrite Z.shiftr_div_pow2 by lia; apply Z.div_small; lia).
    destruct (seven_bits Value ltac:(lia)) as (HL & _ & HG & _).
    cbn [uleb_digits]. rewrite H0, HL.
    cbn [Z.eqb negb orb Nat.ltb Nat.leb fst app decodeULEB128_from].
    rewrite HL, HG.
    destruct (Z.geb_spec Shift 63); [lia|]. cbn [andb].
    rewrite Z.shiftl_mul_pow2 by lia. f_equal. unfold wrap64.
    apply Z.mod_small.
    assert (2 ^ Shift * 128 <= 2 ^ 63)%Z.
    { change 128%Z with (2 ^ 7)%Z. rewrite <- Z.pow_add_r by lia.
      apply Z.pow_le_mono_r; lia. }
    assert (2 ^ 63 < 2 ^ 64)%Z by (apply Z.pow_lt_mono_r; lia). nia.
  - assert (Z.land Value 127 = Value mod 128)%Z as HL
      by (change 127%Z with (Z.ones 7); apply Z.land_ones; lia).
    assert (0 <= Value mod 128 < 128)%Z as HM by (apply Z.mod_pos_bound; lia).
    assert (Z.shiftr Value 7 = Value / 128)%Z as HSh
      by (rewrite Z.shiftr_div_pow2 by lia; reflexivity).
    assert (2 ^ Shift * 128 <= 2 ^ 63)%Z as HP.
    { change 128%Z with (2 ^ 7)%Z. rewrite <- Z.pow_add_r by lia.
      apply Z.pow_le_mono_r; lia. }
    assert (2 ^ 63 < 2 ^ 64)%Z as HP' by (apply Z.pow_lt_mono_r; lia).
    assert (0 < 2 ^ Shift)%Z as HP0 by (apply Z.pow_pos_nonneg; lia).
    pose proof (Z.div_mod Value 128 ltac:(lia)) as HDM.
    cbn [uleb_digits]. rewrite HL, HSh.
    destruct (Z.eqb_spec (Value / 128) 0) as [E0|NE0].
    + destruct (seven_bits (Value mod 128) HM) as (HL' & _ & HG & _).
      cbn [negb orb Nat.ltb Nat.leb fst app decodeULEB128_from].
      rewrite HL', HG.
      destruct (Z.geb_spec Shift 63); [lia|]. cbn [andb].
      rewrite Z.shiftl_mul_pow2 by lia. f_equal. unfold wrap64.
      rewrite Z.mod_small by nia. nia.
    + destruct (seven_bits (Value mod 128) HM) as (_ & HL' & _ & HG).
      cbn [negb orb fst app decodeULEB128_from].
      rewrite HL', HG.
      destruct (Z.geb_spec Shift 63); [lia|]. cbn [andb].
      rewrite Z.shiftl_mul_pow2 by lia.
      assert (wrap64 (Acc + Value mod 128 * 2 ^ Shift)
              = Acc + Value mod 128 * 2 ^ Shift)%Z as ->
        by (unfold wrap64; apply Z.mod_small; nia).
      rewrite IH.
      * f_equal. rewrite Z.pow_add_r by lia. change (2 ^ 7)%Z with 128%Z. nia.
      * split; [apply Z.div_pos; lia|].
        apply Z.div_lt_upper_bound; [lia|].
        replace (7 * Z.of_nat (S (S fuel)))%Z with (7 + 7 * Z.of_nat (S fuel))%Z
          in HV by lia.
        rewrite Z.pow_add_r in HV by lia. change (2 ^ 7)%Z with 128%Z in HV. lia.
      * lia.
      * lia.
      * rewrite Z.pow_add_r by lia. change (2 ^ 7)%Z with 128%Z. nia.
Qed.

(** X22.  [readVaruint32] reads back every value below 2^32 from the bytes
    [encodeULEB128] gives for it, whatever follows them. *)
Theorem readVaruint32_encodeULEB128 (Value : Z) (Rest : list Z) :
  (0 <= Value < 2 ^ 32)%Z ->
  readVaruint32 (encodeULEB128 Value 0 ++ Rest) = Done Value.
Proof.
  intros HV. unfold readVaruint32, readULEB128, decodeULEB128, encodeULEB128.
  assert (2 ^ 32 < 2 ^ 35)%Z by (apply Z.pow_lt_mono_r; lia).
  assert (2 ^ 35 < 2 ^ 64)%Z by (apply Z.pow_lt_mono_r; lia).
  assert (wrap64 Value = Value) as -> by (unfold wrap64; apply Z.mod_small; lia).
  change 9 with (4 + 5). rewrite uleb_digits_fuel by (simpl; lia).
  rewrite app_nil_r.
  rewrite (decode_uleb_digits 4 Value 0 0 0 Rest) by (simpl; lia).
  cbn [bind]. rewrite Z.pow_0_r, Z.mul_1_r, Z.add_0_l.
  destruct (Z.gtb_spec Value 4294967295); [lia | reflexivity].
Qed.

(** ** The statements at worked inputs *)

Lemma scenario_relocs_in_range : relocs_in_range scenario_sections.
Proof.
  intros Sec R Hin HR. simpl in Hin.
  repeat (apply elem_of_cons in Hin as [->|Hin]; [simpl in HR; simpl; try discriminate; injection HR as <-; lia|]).
  by apply elem_of_nil in Hin.
Qed.

Lemma function_known_kind (Fl E : Z) (N : string) (D : WasmDataReference) :
  @known_kind upstream (symbol (@WASM_SYMBOL_TYPE_FUNCTION upstream) Fl E N D).
Proof. unfold known_kind. simpl. apply list_elem_of_here. Qed.

Lemma unknown_kind_symbol_unknown : ~ @known_kind upstream unknown_kind_symbol.
Proof.
  unfold known_kind. simpl. rewrite !elem_of_cons, elem_of_nil. lia.
Qed.

Lemma create_scenario_module :
  @create upstream scenario_module
  = Done {| Header := getHeader scenario_module;
            Symbols := symbols scenario_module;
            OpaqueSections := [custom_section "A" [1; 2; 3]%Z (Some 1);
                               custom_section "reloc.A" [0; 0]%Z None;
                               custom_section "linking" [2]%Z None];
            LinkingData := linkingData scenario_module;
            DataSegments := {| elems := []; spare := [Some segment_a] |};
            LinkingSection := Some 2 |}.
Proof. reflexivity. Qed.

(** [removeSections_removes_marked] at the scenario object and the predicate
    "is named A". *)
Lemma removeSections_removes_marked_witness :
  exists Obj',
    @removeSections upstream (named "A") 0 scenario_object = Done Obj'
    /\ OpaqueSections Obj'
       = omit (markSections (named "A") 0 (OpaqueSections scenario_object))
              (OpaqueSections scenario_object)
    /\ forall I, I ∈ markSections (named "A") 0 (OpaqueSections scenario_object)
                 <-> marked (named "A") (OpaqueSections scenario_object) I.
Proof.
  eexists. split; [reflexivity|].
  apply (@removeSections_removes_marked upstream (named "A") 0 scenario_object).
  reflexivity.
Defined.

(** [removeSections_none_left] at the scenario object and the predicate "is
    named A". *)
Lemma removeSections_none_left_witness :
  exists Obj',
    @removeSections upstream (named "A") 0 scenario_object = Done Obj'
    /\ forall Sec, Sec ∈ OpaqueSections Obj' -> named "A" Sec = false.
Proof.
  eexists. split; [reflexivity|].
  apply (@removeSections_none_left upstream (named "A") 0 scenario_object).
  reflexivity.
Defined.

(** [removeSections_well_formed_returns] at the scenario sections, a Function
    symbol with element index 0 and the predicate "is named A": the marked
    indices are 0 and 1, [*Upper] is the second of them. *)
Lemma removeSections_well_formed_returns_witness :
  relocs_in_range
    (OpaqueSections
       (object_of [symbol (@WASM_SYMBOL_TYPE_FUNCTION upstream) 0 0 "f" no_data]
                  scenario_sections []))
  /\ Forall (fun Sym =>
               @reads_past_end upstream
                 (MarkedSections (named "A") scenario_sections) Sym = false)
            [symbol (@WASM_SYMBOL_TYPE_FUNCTION upstream) 0 0 "f" no_data]
  /\ exists Obj',
       forall PastEnd,
         @removeSections upstream (named "A") PastEnd
           (object_of [symbol (@WASM_SYMBOL_TYPE_FUNCTION upstream) 0 0 "f" no_data]
                      scenario_sections [])
         = Done Obj'.
Proof.
  assert (Forall (fun Sym =>
                    @reads_past_end upstream
                      (MarkedSections (named "A") scenario_sections) Sym = false)
                 [symbol (@WASM_SYMBOL_TYPE_FUNCTION upstream) 0 0 "f" no_data])
    as Hn by (constructor; [reflexivity | constructor]).
  split; [exact scenario_relocs_in_range|]. split; [exact Hn|].
  apply (@removeSections_well_formed_returns upstream (named "A")
           (object_of [symbol (@WASM_SYMBOL_TYPE_FUNCTION upstream) 0 0 "f" no_data]
                      scenario_sections [])
           scenario_relocs_in_range).
  - constructor; [apply function_known_kind | constructor].
  - exact Hn.
Defined.

(** [patchSymbol_adds_greater] at the marked indices 1 and 2 and a Function
    symbol with element index 0: the index becomes 2. *)
Lemma patchSymbol_adds_greater_witness :
  @kinds_distinct upstream
  /\ StronglySorted lt [1; 2]
  /\ exists Sym',
       @patchSymbol upstream scenario_sections [1; 2] 0
         (symbol (@WASM_SYMBOL_TYPE_FUNCTION upstream) 0 0 "f" no_data)
       = Done Sym'
       /\ ElementIndex (Info Sym')
          = wrap32 (0 + Z.of_nat (length (filter (fun M => (0 < Z.of_nat M)%Z)
                                                 [1; 2]))).
Proof.
  assert (StronglySorted lt [1; 2]) as Hs
    by (repeat constructor; lia).
  split; [exact upstream_kinds_distinct|]. split; [exact Hs|].
  eexists. split; [reflexivity|].
  apply (@patchSymbol_adds_greater upstream scenario_sections [1; 2] 0
           (symbol (@WASM_SYMBOL_TYPE_FUNCTION upstream) 0 0 "f" no_data) _
           upstream_kinds_distinct Hs);
    [apply list_elem_of_here | reflexivity].
Defined.

(** [removeSections_keeps_other_symbols] at the object with the sections A, B
    and C and two Section symbols, and the predicate "is named A or C". *)
Lemma removeSections_keeps_other_symbols_witness :
  exists Obj',
    @removeSections upstream named_A_or_C 0 three_sections_object = Done Obj'
    /\ (exists Is,
           symbol_id <$> Symbols Obj'
           = symbol_id <$> omit Is (Symbols three_sections_object)
           /\ forall I, I ∈ Is ->
                exists Sym, Symbols three_sections_object !! I = Some Sym
                            /\ Kind (Info Sym) = @WASM_SYMBOL_TYPE_SECTION upstream)
    /\ symbol_id <$> filter (@not_section_symbol upstream) (Symbols Obj')
       = symbol_id <$> filter (@not_section_symbol upstream)
                              (Symbols three_sections_object).
Proof.
  eexists. split; [reflexivity|].
  apply (@removeSections_keeps_other_symbols upstream named_A_or_C 0
           three_sections_object).
  reflexivity.
Defined.



(** [writeULEB128_appends] at the value 300 and a new writer. *)
Lemma writeULEB128_appends_witness :
  0 <= 10
  /\ cursor_ok SectionWriter_new
  /\ exists W',
       writeULEB128 300 0 SectionWriter_new = Done W'
       /\ written W' = written SectionWriter_new ++ encodeULEB128 300 0
       /\ Cursor W' = Cursor SectionWriter_new + length (encodeULEB128 300 0)
       /\ length (Buffer W') = Cursor SectionWriter_new + 10
       /\ Subsections W' = Subsections SectionWriter_new.
Proof.
  split; [lia|]. split; [exact cursor_ok_new|].
  apply (writeULEB128_appends 300 0 SectionWriter_new); [lia | exact cursor_ok_new].
Defined.

(** [subsection_layout] at a new writer with the payload 1, 2, 3 under the
    kind 8. *)
Lemma subsection_layout_witness :
  writer_ok SectionWriter_new
  /\ emits (writeBytes [1; 2; 3]%Z) [1; 2; 3]%Z
  /\ fits [1; 2; 3]%Z
  /\ exists W',
       (W1 <- startSubsection 8 SectionWriter_new ;;
        W2 <- writeBytes [1; 2; 3]%Z W1 ;; endSubsection W2)
       = Done (5 + length [1; 2; 3]%Z, W')
       /\ written W'
          = written SectionWriter_new
            ++ subsection_bytes (tag_byte 8 SectionWriter_new) [1; 2; 3]%Z
       /\ writer_ok W'
       /\ Subsections W' = Subsections SectionWriter_new.
Proof.
  assert (fits [1; 2; 3]%Z) as Hf by (unfold fits; simpl; lia).
  split; [exact writer_ok_new|]. split; [exact (emits_writeBytes [1; 2; 3]%Z)|].
  split; [exact Hf|].
  exact (subsection_layout 8 (writeBytes [1; 2; 3]%Z) [1; 2; 3]%Z SectionWriter_new
           writer_ok_new (emits_writeBytes [1; 2; 3]%Z) Hf).
Defined.

Lemma upstream_version_bound : (0 <= @WasmMetadataVersion upstream <= 2147483647)%Z.
Proof. simpl. lia. Qed.

Lemma undefined_data_symbol_known : @known_kind upstream undefined_data_symbol.
Proof.
  unfold known_kind. simpl. rewrite !elem_of_cons. lia.
Qed.

(** [finalizeLinking_layout] at the upstream constants and an object with the
    undefined Data symbol "d" and the segment "a". *)
Lemma finalizeLinking_layout_witness :
  exists T2 T3 T4,
    (Symbols (object_of [undefined_data_symbol] [] [segment_a]) = [] -> T2 = 0%Z)
    /\ (Symbols (object_of [undefined_data_symbol] [] [segment_a]) = [] ->
        elems (DataSegments (object_of [undefined_data_symbol] [] [segment_a])) = [] ->
        T3 = 0%Z)
    /\ (Symbols (object_of [undefined_data_symbol] [] [segment_a]) = [] ->
        elems (DataSegments (object_of [undefined_data_symbol] [] [segment_a])) = [] ->
        InitFunctions (LinkingData (object_of [undefined_data_symbol] [] [segment_a]))
        = [] ->
        T4 = 0%Z)
    /\ @finalizeLinking upstream (object_of [undefined_data_symbol] [] [segment_a])
       = Done (encodeULEB128 (@WasmMetadataVersion upstream) 0
               ++ optional_subsection [undefined_data_symbol] 0
                    (@SymbolTable_payload upstream [undefined_data_symbol])
               ++ optional_subsection [segment_a] T2
                    (SegmentInfo_payload_raw [segment_a])
               ++ optional_subsection (@nil WasmInitFunc) T3
                    (InitFunctions_payload [])
               ++ optional_subsection (@nil string) T4 (Comdats_payload []),
               object_of [undefined_data_symbol] [] [segment_a]).
Proof.
  apply (@finalizeLinking_layout upstream
           (object_of [undefined_data_symbol] [] [segment_a])).
  - exact upstream_version_bound.
  - constructor; [exact undefined_data_symbol_known | constructor].
  - simpl. lia.
  - unfold fits. vm_compute. reflexivity.
  - unfold fits. vm_compute. reflexivity.
  - unfold fits. vm_compute. reflexivity.
  - unfold fits. vm_compute. reflexivity.
Defined.

(** [finalizeLinking_returns] at the upstream constants and the same
    object. *)
Lemma finalizeLinking_returns_witness :
  (0 <= @WasmMetadataVersion upstream <= 2147483647)%Z
  /\ Forall (@known_kind upstream)
            (Symbols (object_of [undefined_data_symbol] [] [segment_a]))
  /\ exists Result,
       @finalizeLinking upstream (object_of [undefined_data_symbol] [] [segment_a])
       = Done (Result, object_of [undefined_data_symbol] [] [segment_a]).
Proof.
  assert (Forall (@known_kind upstream)
                 (Symbols (object_of [undefined_data_symbol] [] [segment_a]))) as Hk
    by (constructor; [exact undefined_data_symbol_known | constructor]).
  split; [exact upstream_version_bound|]. split; [exact Hk|].
  apply (@finalizeLinking_returns upstream
           (object_of [undefined_data_symbol] [] [segment_a])
           upstream_version_bound Hk).
  simpl. lia.
Defined.

(** [finalizeLinking_unexpected_kind] at the upstream constants and an object
    whose second symbol has kind 9. *)
Lemma finalizeLinking_unexpected_kind_witness :
  (0 <= @WasmMetadataVersion upstream <= 2147483647)%Z
  /\ @finalizeLinking upstream
       (object_of [undefined_data_symbol; unknown_kind_symbol] [] [segment_a])
     = Fault (Unreachable "unexpected kind").
Proof.
  split; [exact upstream_version_bound|].
  apply (@finalizeLinking_unexpected_kind upstream
           (object_of [undefined_data_symbol; unknown_kind_symbol] [] [segment_a])
           upstream_version_bound).
  apply Exists_cons_tl, Exists_cons_hd. exact unknown_kind_symbol_unknown.
Defined.

(** [writeSymbol_indexed] at an undefined Global symbol without explicit
    name: no name is written. *)
Lemma writeSymbol_indexed_witness :
  cursor_ok SectionWriter_new
  /\ exists W',
       @writeSymbol upstream
         (symbol (@WASM_SYMBOL_TYPE_GLOBAL upstream) (@WASM_SYMBOL_UNDEFINED upstream)
                 3 "g" no_data)
         SectionWriter_new
       = Done W'
       /\ written W'
          = written SectionWriter_new
            ++ encodeULEB128 (@WASM_SYMBOL_TYPE_GLOBAL upstream) 0
            ++ encodeULEB128 (@WASM_SYMBOL_UNDEFINED upstream) 0
            ++ encodeULEB128 3 0
            ++ [].
Proof.
  split; [exact cursor_ok_new|].
  apply (@writeSymbol_indexed upstream
           (symbol (@WASM_SYMBOL_TYPE_GLOBAL upstream) (@WASM_SYMBOL_UNDEFINED upstream)
                   3 "g" no_data)
           SectionWriter_new);
    [apply list_elem_of_further, list_elem_of_here | exact cursor_ok_new].
Defined.

(** [writeSymbol_Section] at a Section symbol named "s" with element index 1. *)
Lemma writeSymbol_Section_witness :
  @kinds_distinct upstream
  /\ cursor_ok SectionWriter_new
  /\ exists W',
       @writeSymbol upstream
         (symbol (@WASM_SYMBOL_TYPE_SECTION upstream) 0 1 "s" no_data)
         SectionWriter_new
       = Done W'
       /\ written W'
          = written SectionWriter_new
            ++ encodeULEB128 (@WASM_SYMBOL_TYPE_SECTION upstream) 0
            ++ encodeULEB128 0 0
            ++ encodeULEB128 1 0.
Proof.
  split; [exact upstream_kinds_distinct|]. split; [exact cursor_ok_new|].
  apply (@writeSymbol_Section upstream
           (symbol (@WASM_SYMBOL_TYPE_SECTION upstream) 0 1 "s" no_data)
           SectionWriter_new upstream_kinds_distinct);
    [reflexivity | exact cursor_ok_new].
Defined.

(** [finalizeLinking_undefined_DataRef] at the undefined Data symbol "d" and
    the empty [DataRef]. *)
Lemma finalizeLinking_undefined_DataRef_witness :
  @kinds_distinct upstream
  /\ result_bytes
       (@finalizeLinking upstream
          (set_Symbols
             (<[0 := set_DataRef no_data undefined_data_symbol]>
                (Symbols (object_of [undefined_data_symbol] [] [segment_a])))
             (object_of [undefined_data_symbol] [] [segment_a])))
     = result_bytes
         (@finalizeLinking upstream (object_of [undefined_data_symbol] [] [segment_a])).
Proof.
  split; [exact upstream_kinds_distinct|].
  apply (@finalizeLinking_undefined_DataRef upstream
           (object_of [undefined_data_symbol] [] [segment_a]) 0
           undefined_data_symbol no_data upstream_kinds_distinct);
    reflexivity.
Defined.

(** [create_copies] at the scenario module. *)
Lemma create_copies_witness :
  exists Obj,
    @create upstream scenario_module = Done Obj
    /\ Header Obj = getHeader scenario_module
    /\ Symbols Obj = symbols scenario_module
    /\ forget_reloc <$> OpaqueSections Obj
       = @reader_section upstream <$> sections scenario_module.
Proof.
  eexists. split; [exact create_scenario_module|].
  exact (@create_copies upstream scenario_module _ create_scenario_module).
Defined.

(** [create_accepts] at the scenario module. *)
Lemma create_accepts_witness :
  exists Obj,
    @create upstream scenario_module = Done Obj
    /\ forall J WS,
         sections scenario_module !! J = Some WS ->
         (WS_Type WS <= @WASM_SEC_LAST_KNOWN upstream)%Z
         /\ (@is_reloc upstream WS = true ->
             exists Idx, readVaruint32 (WS_Content WS) = Done Idx
                         /\ (0 <= Idx < Z.of_nat J)%Z).
Proof.
  eexists. split; [exact create_scenario_module|].
  exact (@create_accepts upstream scenario_module _ create_scenario_module).
Defined.

(** [create_links] at the scenario module. *)
Lemma create_links_witness :
  exists Obj,
    @create upstream scenario_module = Done Obj
    /\ forall I Sec,
         OpaqueSections Obj !! I = Some Sec ->
         @linked_as_read upstream scenario_module (length (sections scenario_module))
                         I (RelocationSectionIdx Sec)
         /\ forall R, RelocationSectionIdx Sec = Some R -> I < R.
Proof.
  eexists. split; [exact create_scenario_module|].
  apply (@create_links upstream scenario_module _ create_scenario_module).
  vm_compute. reflexivity.
Defined.

(** [create_linking] at the scenario module. *)
Lemma create_linking_witness :
  exists Obj,
    @create upstream scenario_module = Done Obj
    /\ @linking_as_read upstream scenario_module (length (sections scenario_module))
                        (LinkingSection Obj) (LinkingData Obj).
Proof.
  eexists. split; [exact create_scenario_module|].
  exact (@create_linking upstream scenario_module _ create_scenario_module).
Defined.

Lemma create_low_index_module :
  @create upstream low_index_module
  = Done {| Header := getHeader low_index_module;
            Symbols := symbols low_index_module;
            OpaqueSections := [custom_section "A" [1; 2; 3]%Z (Some 1);
                               custom_section "reloc.A" [0; 0]%Z None;
                               custom_section "linking" [2]%Z None];
            LinkingData := linkingData low_index_module;
            DataSegments := {| elems := []; spare := [Some segment_a] |};
            LinkingSection := Some 2 |}.
Proof. reflexivity. Qed.

(** [create_then_removeSections] at the module whose Function symbol has
    element index 0 and the predicate "is named A". *)
Lemma create_then_removeSections_witness :
  exists Obj,
    @create upstream low_index_module = Done Obj
    /\ Forall (@known_kind upstream) (symbols low_index_module)
    /\ Forall (fun Sym =>
                 @reads_past_end upstream
                   (MarkedSections (named "A") (OpaqueSections Obj)) Sym = false)
              (symbols low_index_module)
    /\ exists Obj',
         forall PastEnd, @removeSections upstream (named "A") PastEnd Obj = Done Obj'.
Proof.
  assert (Forall (@known_kind upstream) (symbols low_index_module)) as Hk
    by (constructor; [apply function_known_kind | constructor]).
  eexists. split; [exact create_low_index_module|]. split; [exact Hk|].
  assert (Forall (fun Sym =>
                    @reads_past_end upstream
                      (MarkedSections (named "A")
                         [custom_section "A" [1; 2; 3]%Z (Some 1);
                          custom_section "reloc.A" [0; 0]%Z None;
                          custom_section "linking" [2]%Z None]) Sym = false)
                 (symbols low_index_module)) as Hn
    by (constructor; [reflexivity | constructor]).
  split; [exact Hn|].
  exact (@create_then_removeSections upstream low_index_module _ (named "A")
           create_low_index_module Hk Hn).
Defined.

(** [create_then_finalizeLinking] at the scenario module. *)
Lemma create_then_finalizeLinking_witness :
  exists Obj,
    @create upstream scenario_module = Done Obj
    /\ exists T3 T4,
         @finalizeLinking upstream Obj
         = Done (encodeULEB128 (@WasmMetadataVersion upstream) 0
                 ++ optional_subsection (symbols scenario_module) 0
                      (@SymbolTable_payload upstream (symbols scenario_module))
                 ++ optional_subsection (InitFunctions (LinkingData Obj)) T3
                      (InitFunctions_payload (InitFunctions (LinkingData Obj)))
                 ++ optional_subsection (Comdats (LinkingData Obj)) T4
                      (Comdats_payload (Comdats (LinkingData Obj))),
                 Obj).
Proof.
  eexists. split; [exact create_scenario_module|].
  apply (@create_then_finalizeLinking upstream scenario_module _
           create_scenario_module upstream_version_bound).
  - constructor; [apply function_known_kind | constructor].
  - unfold fits. vm_compute. reflexivity.
  - unfold fits. vm_compute. reflexivity.
  - unfold fits. vm_compute. reflexivity.
Defined.

(** [readVaruint32_encodeULEB128] at the value 300 in front of another
    byte. *)
Lemma readVaruint32_encodeULEB128_witness :
  (0 <= 300 < 2 ^ 32)%Z
  /\ readVaruint32 (encodeULEB128 300 0 ++ [7%Z]) = Done 300%Z.
Proof.
  assert (0 <= 300 < 2 ^ 32)%Z as Hv by (split; [lia | reflexivity]).
  split; [exact Hv|].
  exact (readVaruint32_encodeULEB128 300 [7%Z] Hv).
Defined.
